(** * Plugin API of the Mumble client: call dispatch, promise and curator

  A shallow embedding of [src/mumble/API_v_1_x_x.cpp] (the [MumbleAPI]
  entry points, [APIPromise], [MumbleAPICurator] and the C wrappers that are
  put into the API struct) and of the noise-suppression migration of
  [Settings::load].

  Conventions of the embedding:
  - integers of the C++ code ([mumble_plugin_id_t], [mumble_userid_t],
    [mumble_connection_t], [int], addresses) are [Z];
  - a [QString] / [QByteArray] is the [string] of its UTF-8 bytes;
  - C [float] and [double] values are [spec_float]s of the binary32 and
    binary64 formats;
  - maps keyed by addresses or ids are [gmap]s; the user and channel
    tables, whose iteration order is observable, are association lists;
  - calls into collaborators whose code is not part of the sources
    (main window, server handler, audio output, log) are recorded in a
    trace of events; where such a call changes what the API reads back
    (mute, deafen, transmission mode, local mute and comment of a user),
    the change is applied to the state as well. *)

From Stdlib Require Import ZArith String Ascii List Bool Lia.
From Stdlib Require Import Floats.SpecFloat.
From stdpp Require Import base option list gmap strings.
Import ListNotations.

Set Default Proof Using "Type".

(** ** Error codes ([mumble_error_t]) *)

Inductive mumble_error_t :=
| MUMBLE_STATUS_OK
| MUMBLE_EC_GENERIC_ERROR
| MUMBLE_EC_CONNECTION_NOT_FOUND
| MUMBLE_EC_CONNECTION_UNSYNCHRONIZED
| MUMBLE_EC_INVALID_PLUGIN_ID
| MUMBLE_EC_INVALID_MUTE_TARGET
| MUMBLE_EC_USER_NOT_FOUND
| MUMBLE_EC_CHANNEL_NOT_FOUND
| MUMBLE_EC_NO_ACTIVE_CONNECTION
| MUMBLE_EC_UNKNOWN_TRANSMISSION_MODE
| MUMBLE_EC_AUDIO_NOT_AVAILABLE
| MUMBLE_EC_INVALID_SAMPLE
| MUMBLE_EC_POINTER_NOT_FOUND
| MUMBLE_EC_DATA_TOO_BIG
| MUMBLE_EC_DATA_ID_TOO_LONG
| MUMBLE_EC_API_REQUEST_TIMEOUT
| MUMBLE_EC_OPERATION_UNSUPPORTED_BY_SERVER
| MUMBLE_EC_UNSYNCHRONIZED_BLOB
| MUMBLE_EC_UNKNOWN_SETTINGS_KEY
| MUMBLE_EC_WRONG_SETTINGS_TYPE
| MUMBLE_EC_INTERNAL_ERROR.

Global Instance mumble_error_eq_dec : EqDecision mumble_error_t.
Proof. solve_decision. Defined.

(** ** The cancellable promise ([APIPromise]) *)

Module Promise.

(** [m_promise] is the shared state of the [std::promise]: [None] until a
    value has been stored.  [m_lock] is not a field of the model: every
    function below is one critical section of that lock. *)
Record APIPromise := MkPromise {
  m_promise : option mumble_error_t;
  m_cancelled : bool
}.

(** [std::make_shared< api_promise_t >()] *)
Definition make : APIPromise :=
  {| m_promise := None; m_cancelled := false |}.

(** [APIPromise::set_value]: [std::promise::set_value] throws
    [std::future_error] when a value is already stored; that is [None]. *)
Definition set_value (p : APIPromise) (value : mumble_error_t) : option APIPromise :=
  match m_promise p with
  | None => Some {| m_promise := Some value; m_cancelled := m_cancelled p |}
  | Some _ => None
  end.

(** [APIPromise::isCancelled] *)
Definition isCancelled (p : APIPromise) : bool := m_cancelled p.

(** [APIPromise::cancel] *)
Definition cancel (p : APIPromise) : APIPromise :=
  {| m_promise := m_promise p; m_cancelled := true |}.

(** [future.wait_for(...) == std::future_status::ready] at the moment the
    wait is over. *)
Definition ready (p : APIPromise) : bool :=
  match m_promise p with Some _ => true | None => false end.

End Promise.
Export Promise.

(** ** Plugin-visible memory and the curator ([MumbleAPICurator]) *)

(** A block handed out by [malloc]: a [char] array whose cells may still be
    uninitialised, or an array of ids. *)
Inductive Block :=
| CharArray (cells : list (option ascii))
| IDArray (cells : list Z).

(** The deleters that are stored in curator entries; the source has one. *)
Inductive Deleter := defaultDeleter.

Record Entry := MkEntry {
  m_deleter : Deleter;
  m_pluginID : Z;
  m_sourceFunctionName : string
}.

Module Curator.

(** [free(ptr)] *)
Definition free (ptr : Z) (heap : gmap Z Block) : gmap Z Block := delete ptr heap.

(** [entry.m_deleter(ptr)] *)
Definition run_deleter (d : Deleter) (ptr : Z) (heap : gmap Z Block) : gmap Z Block :=
  match d with defaultDeleter => free ptr heap end.

(** [m_entries.insert({ ptr, entry })]: the insert of the standard maps
    leaves an existing element in place. *)
Definition insert (ptr : Z) (e : Entry) (m_entries : gmap Z Entry) : gmap Z Entry :=
  match m_entries !! ptr with
  | Some _ => m_entries
  | None => <[ptr := e]> m_entries
  end.

(** [malloc]: an address that is neither null nor in use.  Allocation is
    taken to succeed, also for a size of zero. *)
Definition malloc (heap : gmap Z Block) : Z := fresh ({[0%Z]} ∪ dom heap).

End Curator.

(** ** Strings *)

Definition NUL : ascii := Ascii.zero.

(** [qs.toUtf8()] *)
Definition toUtf8 (qs : string) : list ascii := list_ascii_of_string qs.

(** [qs.isEmpty()] *)
Definition isEmpty (qs : string) : bool :=
  match qs with EmptyString => true | String _ _ => false end.

(** The characters [std::strcpy] reads from a NUL-terminated source: those
    before the first NUL. *)
Fixpoint c_str (bytes : list ascii) : list ascii :=
  match bytes with
  | [] => []
  | c :: rest => if Ascii.eqb c NUL then [] else c :: c_str rest
  end.

(** [std::strcpy(dst, src.data())] on a destination of [length dst] cells:
    the characters of the source and the terminator are written, the cells
    after them keep their content. *)
Definition strcpy (dst : list (option ascii)) (src : list ascii) : list (option ascii) :=
  let written := map Some (c_str src ++ [NUL]) in
  written ++ drop (length written) dst.

(** The block that results from
    [size = qs.toUtf8().size() + 1; a = malloc(size); strcpy(a, qs.toUtf8().data())]. *)
Definition string_block (qs : string) : Block :=
  let size := S (length (toUtf8 qs)) in
  CharArray (strcpy (replicate size None) (toUtf8 qs)).

Definition hex_digit (n : N) : ascii :=
  ascii_of_N (if (n <? 10)%N then 48 + n else 87 + n).

(** [QByteArray::toHex]: two lower-case hexadecimal digits per byte. *)
Fixpoint toHex (bytes : list ascii) : list ascii :=
  match bytes with
  | [] => []
  | b :: rest =>
      hex_digit (N_of_ascii b / 16) :: hex_digit (N_of_ascii b mod 16) :: toHex rest
  end.

(** ** Floating-point values *)

(** A C [float] (binary32) and a C [double] (binary64). *)
Definition float := spec_float.
Definition double := spec_float.

(** [static_cast< double >(f)]: every binary32 value is a binary64 value;
    the mantissa is brought to the width of binary64. *)
Definition float_to_double (f : float) : double :=
  match f with
  | S754_finite sign m e => binary_normalize 53 1024 (cond_Zopp sign (Zpos m)) e sign
  | _ => f
  end.

(** [static_cast< float >(d)]: rounding to binary32. *)
Definition double_to_float (d : double) : float :=
  match d with
  | S754_finite sign m e => binary_normalize 24 128 (cond_Zopp sign (Zpos m)) e sign
  | _ => d
  end.

(** The literal [1.0f]. *)
Definition float_one : float := SFone 24 128.

(** ** Host state read and written by the API *)

(** [Settings::AudioTransmit]; the field is loaded from an integer, so
    values outside the three enumerators can occur. *)
Inductive AudioTransmit :=
| Continuous
| VAD
| PushToTalk
| AudioTransmit_other (n : Z).

(** [mumble_transmission_mode_t] as passed by a plugin. *)
Inductive mumble_transmission_mode_t :=
| MUMBLE_TM_CONTINOUS
| MUMBLE_TM_VOICE_ACTIVATION
| MUMBLE_TM_PUSH_TO_TALK
| MUMBLE_TM_other (n : Z).

(** [mumble_settings_key_t] as passed by a plugin. *)
Inductive mumble_settings_key_t :=
| MUMBLE_SK_INVALID
| MUMBLE_SK_AUDIO_INPUT_VOICE_HOLD
| MUMBLE_SK_AUDIO_INPUT_VAD_SILENCE_THRESHOLD
| MUMBLE_SK_AUDIO_INPUT_VAD_SPEECH_THRESHOLD
| MUMBLE_SK_AUDIO_OUTPUT_PA_MINIMUM_DISTANCE
| MUMBLE_SK_AUDIO_OUTPUT_PA_MAXIMUM_DISTANCE
| MUMBLE_SK_AUDIO_OUTPUT_PA_BLOOM
| MUMBLE_SK_AUDIO_OUTPUT_PA_MINIMUM_VOLUME
| MUMBLE_SK_other (n : Z).

(** The fields of [Settings] that the API and the noise-suppression
    migration use. *)
Record Settings := MkSettings {
  atTransmit : AudioTransmit;
  bMute : bool;
  bDeaf : bool;
  iVoiceHold : Z;
  fVADmin : float;
  fVADmax : float;
  fAudioMinDistance : float;
  fAudioMaxDistance : float;
  fAudioBloom : float;
  fAudioMaxDistVolume : float;
  iSpeexNoiseCancelStrength : Z
}.

(** A [QVariant] and the [QMetaType::Type] it reports.  A variant made from
    an [int64_t] has the type of [long long] (of [long] where [int64_t] is
    [long]); in both cases it is not [QMetaType::Int]. *)
Inductive QVariant :=
| QV_Invalid
| QV_Bool (b : bool)
| QV_Int (n : Z)
| QV_LongLong (n : Z)
| QV_Double (d : double)
| QV_String (qs : string).

Inductive QMetaType :=
| QMetaType_UnknownType
| QMetaType_Bool
| QMetaType_Int
| QMetaType_LongLong
| QMetaType_Double
| QMetaType_QString.

Global Instance QMetaType_eq_dec : EqDecision QMetaType.
Proof. solve_decision. Defined.

(** [var.type()] *)
Definition QVariant_type (var : QVariant) : QMetaType :=
  match var with
  | QV_Invalid => QMetaType_UnknownType
  | QV_Bool _ => QMetaType_Bool
  | QV_Int _ => QMetaType_Int
  | QV_LongLong _ => QMetaType_LongLong
  | QV_Double _ => QMetaType_Double
  | QV_String _ => QMetaType_QString
  end.

(** [value.isValid()] *)
Definition isValid (var : QVariant) : bool :=
  match var with QV_Invalid => false | _ => true end.

(** [IS_TYPE] and [IS_NOT_TYPE] *)
Definition IS_TYPE (var : QVariant) (varType : QMetaType) : bool :=
  bool_decide (QVariant_type var = varType).
Definition IS_NOT_TYPE (var : QVariant) (varType : QMetaType) : bool :=
  negb (bool_decide (QVariant_type var = varType)).

(** A loaded plugin, as far as the API reads it. *)
Record Plugin := MkPlugin { getName : string }.

(** Modelled from the spec: [PluginManager::pluginExists] is not part of
    the sources; the plugin registry offers existence by id. *)
Definition pluginExists (registry : gmap Z Plugin) (id : Z) : bool :=
  bool_decide (is_Some (registry !! id)).

(** Modelled from the spec: [PluginManager::getPlugin] is not part of the
    sources; the plugin registry offers lookup by id, null when absent. *)
Definition getPlugin (registry : gmap Z Plugin) (id : Z) : option Plugin :=
  registry !! id.

(** [ServerHandler]: connection id, certificate digest and server version. *)
Record ServerHandler := MkServerHandler {
  getConnectionID : Z;
  qbaDigest : list ascii;
  m_version : Z
}.

(** A [ClientUser]; it is identified by its session id, the key of
    [c_qmUsers], and [cChannel] holds the id of the channel pointed to. *)
Record ClientUser := MkClientUser {
  qsName : string;
  qsHash : string;
  qsComment : string;
  qbaCommentHash : string;
  cChannel : option Z;
  bLocalMute : bool
}.

(** A [Channel]; it is identified by its id, the key of [c_qhChannels], and
    [qlUsers] holds the session ids of the users pointed to.  [ch_qsName] is
    its field [qsName]. *)
Record Channel := MkChannel {
  ch_qsName : string;
  qsDesc : string;
  qbaDescHash : string;
  qlUsers : list Z
}.

Inductive UserModel := TheUserModel.
Record MainWindow := MkMainWindow { pmModel : option UserModel }.

(** [AudioOutput::playSample(path, volume, loop)] returns a token that
    converts to [true] when the sample could be started. *)
Record AudioOutput := MkAudioOutput { sample_starts : string -> float -> bool -> bool }.

(** [Database::blob(hash)] returns the stored bytes, empty when unknown. *)
Record Database := MkDatabase { blob : string -> string }.

(** [MumbleProto::PluginDataTransmission] *)
Record PluginDataTransmission := MkPluginDataTransmission {
  sendersession : Z;
  receiversessions : list Z;
  data : list ascii;
  dataid : string
}.

(** Calls into collaborators, oldest first. *)
Inductive Event :=
| Ev_setTransmissionMode (mode : AudioTransmit)
| Ev_joinChannel (session channel : Z) (passwordList : list string)
| Ev_setLocalMute (session : Z) (muted : bool)
| Ev_setAudioMute (muted : bool)
| Ev_setAudioDeaf (deafened : bool)
| Ev_setComment (session : Z) (comment : string)
| Ev_sendMessage (mpdt : PluginDataTransmission)
| Ev_logOrDefer (pluginName message : string)
| Ev_playSample (samplePath : string) (volume : float) (loop : bool).

(** The process-wide state behind [Global::get()], the static user and
    channel tables, [PluginData], the curator of [MumbleAPI] and the heap. *)
Record Host := MkHost {
  pluginManager : gmap Z Plugin;
  sh : option ServerHandler;
  uiSession : Z;
  s : Settings;
  mw : option MainWindow;
  ao : option AudioOutput;
  db : option Database;
  c_qmUsers : list (Z * ClientUser);
  c_qhChannels : list (Z * Channel);
  overwriteMicrophoneActivation : bool;
  m_entries : gmap Z Entry;
  heap : gmap Z Block;
  trace : list Event
}.

Definition set_s (v : Settings) (h : Host) : Host :=
  MkHost (pluginManager h) (sh h) (uiSession h) v (mw h) (ao h) (db h) (c_qmUsers h)
    (c_qhChannels h) (overwriteMicrophoneActivation h) (m_entries h) (heap h) (trace h).

Definition set_c_qmUsers (v : list (Z * ClientUser)) (h : Host) : Host :=
  MkHost (pluginManager h) (sh h) (uiSession h) (s h) (mw h) (ao h) (db h) v
    (c_qhChannels h) (overwriteMicrophoneActivation h) (m_entries h) (heap h) (trace h).

Definition set_c_qhChannels (v : list (Z * Channel)) (h : Host) : Host :=
  MkHost (pluginManager h) (sh h) (uiSession h) (s h) (mw h) (ao h) (db h) (c_qmUsers h)
    v (overwriteMicrophoneActivation h) (m_entries h) (heap h) (trace h).

Definition set_overwriteMicrophoneActivation (v : bool) (h : Host) : Host :=
  MkHost (pluginManager h) (sh h) (uiSession h) (s h) (mw h) (ao h) (db h) (c_qmUsers h)
    (c_qhChannels h) v (m_entries h) (heap h) (trace h).

Definition set_m_entries (v : gmap Z Entry) (h : Host) : Host :=
  MkHost (pluginManager h) (sh h) (uiSession h) (s h) (mw h) (ao h) (db h) (c_qmUsers h)
    (c_qhChannels h) (overwriteMicrophoneActivation h) v (heap h) (trace h).

Definition set_heap (v : gmap Z Block) (h : Host) : Host :=
  MkHost (pluginManager h) (sh h) (uiSession h) (s h) (mw h) (ao h) (db h) (c_qmUsers h)
    (c_qhChannels h) (overwriteMicrophoneActivation h) (m_entries h) v (trace h).

Definition emit (e : Event) (h : Host) : Host :=
  MkHost (pluginManager h) (sh h) (uiSession h) (s h) (mw h) (ao h) (db h) (c_qmUsers h)
    (c_qhChannels h) (overwriteMicrophoneActivation h) (m_entries h) (heap h) (trace h ++ [e]).

(** Lookup in an id-keyed table: the first row with the key. *)
Fixpoint table_get {A} (id : Z) (table : list (Z * A)) : option A :=
  match table with
  | [] => None
  | (k, v) :: rest => if (k =? id)%Z then Some v else table_get id rest
  end.

(** Assignment through the pointer that [table_get] returned. *)
Fixpoint table_set {A} (id : Z) (v : A) (table : list (Z * A)) : list (Z * A) :=
  match table with
  | [] => []
  | (k, old) :: rest =>
      if (k =? id)%Z then (k, v) :: rest else (k, old) :: table_set id v rest
  end.

(** Modelled from the spec: [ClientUser::get] is not part of the sources;
    the user directory offers lookup by id, null when absent. *)
Definition ClientUser_get (h : Host) (userID : Z) : option ClientUser :=
  table_get userID (c_qmUsers h).

(** Modelled from the spec: [Channel::get] is not part of the sources; the
    channel directory offers lookup by id, null when absent. *)
Definition Channel_get (h : Host) (channelID : Z) : option Channel :=
  table_get channelID (c_qhChannels h).

(** ** Results of an entry point *)

(** What an entry point wrote through its out-parameters. *)
Inductive OutParam :=
| NotWritten
| Out_connection (connection : Z)
| Out_bool (b : bool)
| Out_userID (userID : Z)
| Out_channelID (channelID : Z)
| Out_transmissionMode (mode : mumble_transmission_mode_t)
| Out_string (ptr : Z)
| Out_array (ptr : Z) (count : nat)
| Out_int64 (n : Z)
| Out_double (d : double).

(** Ways in which a body can fail to return: [std::promise::set_value] on a
    promise that holds a value throws, a null collaborator is dereferenced. *)
Inductive Fault :=
| promise_already_satisfied
| null_dereference.

Inductive Outcome :=
| Returned (h : Host) (out : OutParam) (promise : APIPromise)
| Faulted (f : Fault).

(** [EXIT_WITH(code)]: [promise->set_value(code); return;] *)
Definition EXIT_WITH (code : mumble_error_t) (h : Host) (out : OutParam)
    (promise : APIPromise) : Outcome :=
  match set_value promise code with
  | Some promise' => Returned h out promise'
  | None => Faulted promise_already_satisfied
  end.

(** [VERIFY_PLUGIN_ID(id)] followed by [rest] *)
Definition VERIFY_PLUGIN_ID (id : Z) (h : Host) (promise : APIPromise)
    (rest : Outcome) : Outcome :=
  if negb (pluginExists (pluginManager h) id)
  then EXIT_WITH MUMBLE_EC_INVALID_PLUGIN_ID h NotWritten promise
  else rest.

(** [VERIFY_CONNECTION(connection)] followed by [rest] *)
Definition VERIFY_CONNECTION (connection : Z) (h : Host) (promise : APIPromise)
    (rest : Outcome) : Outcome :=
  match sh h with
  | None => EXIT_WITH MUMBLE_EC_CONNECTION_NOT_FOUND h NotWritten promise
  | Some handler =>
      if negb (getConnectionID handler =? connection)%Z
      then EXIT_WITH MUMBLE_EC_CONNECTION_NOT_FOUND h NotWritten promise
      else rest
  end.

(** [ENSURE_CONNECTION_SYNCHRONIZED(connection)] followed by [rest] *)
Definition ENSURE_CONNECTION_SYNCHRONIZED (h : Host) (promise : APIPromise)
    (rest : Outcome) : Outcome :=
  if (uiSession h =? 0)%Z
  then EXIT_WITH MUMBLE_EC_CONNECTION_UNSYNCHRONIZED h NotWritten promise
  else rest.

(** The start of every body, run on the host thread:
    [guard = promise->lock(); if (promise->isCancelled()) return;] *)
Definition UNLESS_CANCELLED (h : Host) (promise : APIPromise) (rest : Outcome) : Outcome :=
  if isCancelled promise then Returned h NotWritten promise else rest.

(** [malloc] of a block that is then filled with [block]. *)
Definition allocate (block : Block) (h : Host) : Z * Host :=
  let ptr := Curator.malloc (heap h) in
  (ptr, set_heap (<[ptr := block]> (heap h)) h).

(** [m_curator.m_entries.insert({ ptr, { defaultDeleter, callerID, name } })] *)
Definition curate (ptr callerID : Z) (name : string) (h : Host) : Host :=
  set_m_entries (Curator.insert ptr (MkEntry defaultDeleter callerID name) (m_entries h)) h.

(** The tail shared by the string getters: allocate a copy of [qs],
    register it, store the pointer and exit with [MUMBLE_STATUS_OK]. *)
Definition return_string (qs : string) (callerID : Z) (name : string) (h : Host)
    (promise : APIPromise) : Outcome :=
  let '(ptr, h1) := allocate (string_block qs) h in
  EXIT_WITH MUMBLE_STATUS_OK (curate ptr callerID name h1) (Out_string ptr) promise.

(** The tail shared by the array getters. *)
Definition return_array (ids : list Z) (callerID : Z) (name : string) (h : Host)
    (promise : APIPromise) : Outcome :=
  let amount := length ids in
  let '(ptr, h1) := allocate (IDArray ids) h in
  EXIT_WITH MUMBLE_STATUS_OK (curate ptr callerID name h1) (Out_array ptr amount) promise.

(** Modelled from the spec: [ClientUser::setLocalMute] is not part of the
    sources; a mutation operation applies the change (4.3, item 7), here to
    the flag [bLocalMute] that [isUserLocallyMuted] reads. *)
Definition setLocalMute (muted : bool) (user : ClientUser) : ClientUser :=
  MkClientUser (qsName user) (qsHash user) (qsComment user) (qbaCommentHash user)
    (cChannel user) muted.

(** Modelled from the spec: [UserModel::setComment] is not part of the
    sources; a mutation operation applies the change (4.3, item 7), here to
    the text [qsComment] that [getUserComment] reads. *)
Definition setComment (comment : string) (user : ClientUser) : ClientUser :=
  MkClientUser (qsName user) (qsHash user) comment (qbaCommentHash user)
    (cChannel user) (bLocalMute user).

(** Modelled from the spec: [MainWindow::setAudioMute] is not part of the
    sources; a mutation operation applies the change (4.3, item 7), here to
    the setting [bMute] that [isLocalUserMuted] reads. *)
Definition setAudioMute (muted : bool) (st : Settings) : Settings :=
  MkSettings (atTransmit st) muted (bDeaf st) (iVoiceHold st) (fVADmin st) (fVADmax st)
    (fAudioMinDistance st) (fAudioMaxDistance st) (fAudioBloom st)
    (fAudioMaxDistVolume st) (iSpeexNoiseCancelStrength st).

(** Modelled from the spec: [MainWindow::setAudioDeaf] is not part of the
    sources; a mutation operation applies the change (4.3, item 7), here to
    the setting [bDeaf] that [isLocalUserDeafened] reads. *)
Definition setAudioDeaf (deafened : bool) (st : Settings) : Settings :=
  MkSettings (atTransmit st) (bMute st) deafened (iVoiceHold st) (fVADmin st) (fVADmax st)
    (fAudioMinDistance st) (fAudioMaxDistance st) (fAudioBloom st)
    (fAudioMaxDistVolume st) (iSpeexNoiseCancelStrength st).

(** Modelled from the spec: [MainWindow::setTransmissionMode] is not part of
    the sources; a mutation operation applies the change (4.3, item 7), here
    to the setting [atTransmit] that [getLocalUserTransmissionMode] reads. *)
Definition setTransmissionMode (mode : AudioTransmit) (st : Settings) : Settings :=
  MkSettings mode (bMute st) (bDeaf st) (iVoiceHold st) (fVADmin st) (fVADmax st)
    (fAudioMinDistance st) (fAudioMaxDistance st) (fAudioBloom st)
    (fAudioMaxDistVolume st) (iSpeexNoiseCancelStrength st).

(** The loops of [findUserByName] and [findChannelByName]: the key of the
    first row whose name equals [name]. *)
Fixpoint find_by_name {A} (name_of : A -> string) (name : string)
    (table : list (Z * A)) : option Z :=
  match table with
  | [] => None
  | (k, v) :: rest =>
      if String.eqb (name_of v) name then Some k else find_by_name name_of name rest
  end.

(** The receiver loop of [sendData]: [None] when a user is not found. *)
Fixpoint add_receiversessions (h : Host) (users : list Z) : option (list Z) :=
  match users with
  | [] => Some []
  | u :: rest =>
      match ClientUser_get h u with
      | Some _ =>
          match add_receiversessions h rest with
          | Some sessions => Some (u :: sessions)
          | None => None
          end
      | None => None
      end
  end.

(** [getMumbleSettingHelper] *)
Definition getMumbleSettingHelper (settings : Settings) (key : mumble_settings_key_t) : QVariant :=
  match key with
  | MUMBLE_SK_AUDIO_INPUT_VOICE_HOLD => QV_Int (iVoiceHold settings)
  | MUMBLE_SK_AUDIO_INPUT_VAD_SILENCE_THRESHOLD => QV_Double (float_to_double (fVADmin settings))
  | MUMBLE_SK_AUDIO_INPUT_VAD_SPEECH_THRESHOLD => QV_Double (float_to_double (fVADmax settings))
  | MUMBLE_SK_AUDIO_OUTPUT_PA_MINIMUM_DISTANCE =>
      QV_Double (float_to_double (fAudioMinDistance settings))
  | MUMBLE_SK_AUDIO_OUTPUT_PA_MAXIMUM_DISTANCE =>
      QV_Double (float_to_double (fAudioMaxDistance settings))
  | MUMBLE_SK_AUDIO_OUTPUT_PA_BLOOM => QV_Double (float_to_double (fAudioBloom settings))
  | MUMBLE_SK_AUDIO_OUTPUT_PA_MINIMUM_VOLUME =>
      QV_Double (float_to_double (fAudioMaxDistVolume settings))
  | MUMBLE_SK_INVALID => QV_Invalid
  | MUMBLE_SK_other _ => QV_Invalid
  end.

(** [setMumbleSettingHelper]: the new settings and the exit code.  A
    pattern [QV_Int n] or [QV_Double d] is the test [IS_TYPE(value, ...)]
    together with [value.toInt()] or [value.toDouble()]. *)
Definition setMumbleSettingHelper (st : Settings) (key : mumble_settings_key_t)
    (value : QVariant) : Settings * mumble_error_t :=
  match key, value with
  | MUMBLE_SK_AUDIO_INPUT_VOICE_HOLD, QV_Int n =>
      (MkSettings (atTransmit st) (bMute st) (bDeaf st) n (fVADmin st) (fVADmax st)
         (fAudioMinDistance st) (fAudioMaxDistance st) (fAudioBloom st)
         (fAudioMaxDistVolume st) (iSpeexNoiseCancelStrength st), MUMBLE_STATUS_OK)
  | MUMBLE_SK_AUDIO_INPUT_VAD_SILENCE_THRESHOLD, QV_Double d =>
      (MkSettings (atTransmit st) (bMute st) (bDeaf st) (iVoiceHold st) (double_to_float d)
         (fVADmax st) (fAudioMinDistance st) (fAudioMaxDistance st) (fAudioBloom st)
         (fAudioMaxDistVolume st) (iSpeexNoiseCancelStrength st), MUMBLE_STATUS_OK)
  | MUMBLE_SK_AUDIO_INPUT_VAD_SPEECH_THRESHOLD, QV_Double d =>
      (MkSettings (atTransmit st) (bMute st) (bDeaf st) (iVoiceHold st) (fVADmin st)
         (double_to_float d) (fAudioMinDistance st) (fAudioMaxDistance st) (fAudioBloom st)
         (fAudioMaxDistVolume st) (iSpeexNoiseCancelStrength st), MUMBLE_STATUS_OK)
  | MUMBLE_SK_AUDIO_OUTPUT_PA_MINIMUM_DISTANCE, QV_Double d =>
      (MkSettings (atTransmit st) (bMute st) (bDeaf st) (iVoiceHold st) (fVADmin st)
         (fVADmax st) (double_to_float d) (fAudioMaxDistance st) (fAudioBloom st)
         (fAudioMaxDistVolume st) (iSpeexNoiseCancelStrength st), MUMBLE_STATUS_OK)
  | MUMBLE_SK_AUDIO_OUTPUT_PA_MAXIMUM_DISTANCE, QV_Double d =>
      (MkSettings (atTransmit st) (bMute st) (bDeaf st) (iVoiceHold st) (fVADmin st)
         (fVADmax st) (fAudioMinDistance st) (double_to_float d) (fAudioBloom st)
         (fAudioMaxDistVolume st) (iSpeexNoiseCancelStrength st), MUMBLE_STATUS_OK)
  | MUMBLE_SK_AUDIO_OUTPUT_PA_BLOOM, QV_Double d =>
      (MkSettings (atTransmit st) (bMute st) (bDeaf st) (iVoiceHold st) (fVADmin st)
         (fVADmax st) (fAudioMinDistance st) (fAudioMaxDistance st) (double_to_float d)
         (fAudioMaxDistVolume st) (iSpeexNoiseCancelStrength st), MUMBLE_STATUS_OK)
  | MUMBLE_SK_AUDIO_OUTPUT_PA_MINIMUM_VOLUME, QV_Double d =>
      (MkSettings (atTransmit st) (bMute st) (bDeaf st) (iVoiceHold st) (fVADmin st)
         (fVADmax st) (fAudioMinDistance st) (fAudioMaxDistance st) (fAudioBloom st)
         (double_to_float d) (iSpeexNoiseCancelStrength st), MUMBLE_STATUS_OK)
  | MUMBLE_SK_INVALID, _ => (st, MUMBLE_EC_UNKNOWN_SETTINGS_KEY)
  | MUMBLE_SK_other _, _ => (st, MUMBLE_EC_UNKNOWN_SETTINGS_KEY)
  | _, _ => (st, MUMBLE_EC_WRONG_SETTINGS_TYPE)
  end.

(** ** Key codes

    [Qt::Key] as far as [qtKeyCodeToAPIKeyCode] tells its values apart: one
    constructor per key named in the [switch], and [Key_other] for a key
    code that is none of them. *)
Inductive QtKey :=
| Key_Escape | Key_Tab | Key_Backspace | Key_Return | Key_Enter | Key_Delete
| Key_Print | Key_Home | Key_End | Key_Up | Key_Down | Key_Left | Key_Right
| Key_PageUp | Key_PageDown | Key_Shift | Key_Control | Key_Meta | Key_Alt | Key_AltGr
| Key_CapsLock | Key_NumLock | Key_ScrollLock | Key_F1 | Key_F2 | Key_F3 | Key_F4
| Key_F5 | Key_F6 | Key_F7 | Key_F8 | Key_F9 | Key_F10 | Key_F11 | Key_F12 | Key_F13
| Key_F14 | Key_F15 | Key_F16 | Key_F17 | Key_F18 | Key_F19 | Key_Super_L | Key_Super_R
| Key_Space | Key_Exclam | Key_QuoteDbl | Key_NumberSign | Key_Dollar | Key_Percent
| Key_Ampersand | Key_Apostrophe | Key_ParenLeft | Key_ParenRight | Key_Asterisk
| Key_Plus | Key_Comma | Key_Minus | Key_Period | Key_Slash | Key_0 | Key_1 | Key_2
| Key_3 | Key_4 | Key_5 | Key_6 | Key_7 | Key_8 | Key_9 | Key_Colon | Key_Semicolon
| Key_Less | Key_Equal | Key_Greater | Key_Question | Key_At | Key_A | Key_B | Key_C
| Key_D | Key_E | Key_F | Key_G | Key_H | Key_I | Key_J | Key_K | Key_L | Key_M | Key_N
| Key_O | Key_P | Key_Q | Key_R | Key_S | Key_T | Key_U | Key_V | Key_W | Key_X | Key_Y
| Key_Z | Key_BracketLeft | Key_BracketRight | Key_Backslash | Key_AsciiCircum
| Key_Underscore | Key_BraceLeft | Key_BraceRight | Key_Bar | Key_AsciiTilde
| Key_degree
| Key_other (keyCode : Z).

(** [mumble_keycode_t], by the names of its enumerators. *)
Inductive mumble_keycode_t :=
| MUMBLE_KC_ESCAPE | MUMBLE_KC_TAB | MUMBLE_KC_BACKSPACE | MUMBLE_KC_ENTER
| MUMBLE_KC_DELETE | MUMBLE_KC_PRINT | MUMBLE_KC_HOME | MUMBLE_KC_END | MUMBLE_KC_UP
| MUMBLE_KC_DOWN | MUMBLE_KC_LEFT | MUMBLE_KC_RIGHT | MUMBLE_KC_PAGE_UP
| MUMBLE_KC_PAGE_DOWN | MUMBLE_KC_SHIFT | MUMBLE_KC_CONTROL | MUMBLE_KC_META
| MUMBLE_KC_ALT | MUMBLE_KC_ALT_GR | MUMBLE_KC_CAPSLOCK | MUMBLE_KC_NUMLOCK
| MUMBLE_KC_SCROLLLOCK | MUMBLE_KC_F1 | MUMBLE_KC_F2 | MUMBLE_KC_F3 | MUMBLE_KC_F4
| MUMBLE_KC_F5 | MUMBLE_KC_F6 | MUMBLE_KC_F7 | MUMBLE_KC_F8 | MUMBLE_KC_F9
| MUMBLE_KC_F10 | MUMBLE_KC_F11 | MUMBLE_KC_F12 | MUMBLE_KC_F13 | MUMBLE_KC_F14
| MUMBLE_KC_F15 | MUMBLE_KC_F16 | MUMBLE_KC_F17 | MUMBLE_KC_F18 | MUMBLE_KC_F19
| MUMBLE_KC_SUPER | MUMBLE_KC_SPACE | MUMBLE_KC_EXCLAMATION_MARK
| MUMBLE_KC_DOUBLE_QUOTE | MUMBLE_KC_HASHTAG | MUMBLE_KC_DOLLAR | MUMBLE_KC_PERCENT
| MUMBLE_KC_AMPERSAND | MUMBLE_KC_SINGLE_QUOTE | MUMBLE_KC_OPEN_PARENTHESIS
| MUMBLE_KC_CLOSE_PARENTHESIS | MUMBLE_KC_ASTERISK | MUMBLE_KC_PLUS | MUMBLE_KC_COMMA
| MUMBLE_KC_MINUS | MUMBLE_KC_PERIOD | MUMBLE_KC_SLASH | MUMBLE_KC_0 | MUMBLE_KC_1
| MUMBLE_KC_2 | MUMBLE_KC_3 | MUMBLE_KC_4 | MUMBLE_KC_5 | MUMBLE_KC_6 | MUMBLE_KC_7
| MUMBLE_KC_8 | MUMBLE_KC_9 | MUMBLE_KC_COLON | MUMBLE_KC_SEMICOLON
| MUMBLE_KC_LESS_THAN | MUMBLE_KC_EQUALS | MUMBLE_KC_GREATER_THAN
| MUMBLE_KC_QUESTION_MARK | MUMBLE_KC_AT_SYMBOL | MUMBLE_KC_A | MUMBLE_KC_B
| MUMBLE_KC_C | MUMBLE_KC_D | MUMBLE_KC_E | MUMBLE_KC_F | MUMBLE_KC_G | MUMBLE_KC_H
| MUMBLE_KC_I | MUMBLE_KC_J | MUMBLE_KC_K | MUMBLE_KC_L | MUMBLE_KC_M | MUMBLE_KC_N
| MUMBLE_KC_O | MUMBLE_KC_P | MUMBLE_KC_Q | MUMBLE_KC_R | MUMBLE_KC_S | MUMBLE_KC_T
| MUMBLE_KC_U | MUMBLE_KC_V | MUMBLE_KC_W | MUMBLE_KC_X | MUMBLE_KC_Y | MUMBLE_KC_Z
| MUMBLE_KC_OPEN_BRACKET | MUMBLE_KC_CLOSE_BRACKET | MUMBLE_KC_BACKSLASH
| MUMBLE_KC_CIRCUMFLEX | MUMBLE_KC_UNDERSCORE | MUMBLE_KC_OPEN_BRACE
| MUMBLE_KC_CLOSE_BRACE | MUMBLE_KC_VERTICAL_BAR | MUMBLE_KC_TILDE
| MUMBLE_KC_DEGREE_SIGN
| MUMBLE_KC_INVALID.

(** [qtKeyCodeToAPIKeyCode] *)
Definition qtKeyCodeToAPIKeyCode (keyCode : QtKey) : mumble_keycode_t :=
  match keyCode with
  | Key_Escape => MUMBLE_KC_ESCAPE
  | Key_Tab => MUMBLE_KC_TAB
  | Key_Backspace => MUMBLE_KC_BACKSPACE
  | Key_Return => MUMBLE_KC_ENTER
  | Key_Enter => MUMBLE_KC_ENTER
  | Key_Delete => MUMBLE_KC_DELETE
  | Key_Print => MUMBLE_KC_PRINT
  | Key_Home => MUMBLE_KC_HOME
  | Key_End => MUMBLE_KC_END
  | Key_Up => MUMBLE_KC_UP
  | Key_Down => MUMBLE_KC_DOWN
  | Key_Left => MUMBLE_KC_LEFT
  | Key_Right => MUMBLE_KC_RIGHT
  | Key_PageUp => MUMBLE_KC_PAGE_UP
  | Key_PageDown => MUMBLE_KC_PAGE_DOWN
  | Key_Shift => MUMBLE_KC_SHIFT
  | Key_Control => MUMBLE_KC_CONTROL
  | Key_Meta => MUMBLE_KC_META
  | Key_Alt => MUMBLE_KC_ALT
  | Key_AltGr => MUMBLE_KC_ALT_GR
  | Key_CapsLock => MUMBLE_KC_CAPSLOCK
  | Key_NumLock => MUMBLE_KC_NUMLOCK
  | Key_ScrollLock => MUMBLE_KC_SCROLLLOCK
  | Key_F1 => MUMBLE_KC_F1
  | Key_F2 => MUMBLE_KC_F2
  | Key_F3 => MUMBLE_KC_F3
  | Key_F4 => MUMBLE_KC_F4
  | Key_F5 => MUMBLE_KC_F5
  | Key_F6 => MUMBLE_KC_F6
  | Key_F7 => MUMBLE_KC_F7
  | Key_F8 => MUMBLE_KC_F8
  | Key_F9 => MUMBLE_KC_F9
  | Key_F10 => MUMBLE_KC_F10
  | Key_F11 => MUMBLE_KC_F11
  | Key_F12 => MUMBLE_KC_F12
  | Key_F13 => MUMBLE_KC_F13
  | Key_F14 => MUMBLE_KC_F14
  | Key_F15 => MUMBLE_KC_F15
  | Key_F16 => MUMBLE_KC_F16
  | Key_F17 => MUMBLE_KC_F17
  | Key_F18 => MUMBLE_KC_F18
  | Key_F19 => MUMBLE_KC_F19
  | Key_Super_L => MUMBLE_KC_SUPER
  | Key_Super_R => MUMBLE_KC_SUPER
  | Key_Space => MUMBLE_KC_SPACE
  | Key_Exclam => MUMBLE_KC_EXCLAMATION_MARK
  | Key_QuoteDbl => MUMBLE_KC_DOUBLE_QUOTE
  | Key_NumberSign => MUMBLE_KC_HASHTAG
  | Key_Dollar => MUMBLE_KC_DOLLAR
  | Key_Percent => MUMBLE_KC_PERCENT
  | Key_Ampersand => MUMBLE_KC_AMPERSAND
  | Key_Apostrophe => MUMBLE_KC_SINGLE_QUOTE
  | Key_ParenLeft => MUMBLE_KC_OPEN_PARENTHESIS
  | Key_ParenRight => MUMBLE_KC_CLOSE_PARENTHESIS
  | Key_Asterisk => MUMBLE_KC_ASTERISK
  | Key_Plus => MUMBLE_KC_PLUS
  | Key_Comma => MUMBLE_KC_COMMA
  | Key_Minus => MUMBLE_KC_MINUS
  | Key_Period => MUMBLE_KC_PERIOD
  | Key_Slash => MUMBLE_KC_SLASH
  | Key_0 => MUMBLE_KC_0
  | Key_1 => MUMBLE_KC_1
  | Key_2 => MUMBLE_KC_2
  | Key_3 => MUMBLE_KC_3
  | Key_4 => MUMBLE_KC_4
  | Key_5 => MUMBLE_KC_5
  | Key_6 => MUMBLE_KC_6
  | Key_7 => MUMBLE_KC_7
  | Key_8 => MUMBLE_KC_8
  | Key_9 => MUMBLE_KC_9
  | Key_Colon => MUMBLE_KC_COLON
  | Key_Semicolon => MUMBLE_KC_SEMICOLON
  | Key_Less => MUMBLE_KC_LESS_THAN
  | Key_Equal => MUMBLE_KC_EQUALS
  | Key_Greater => MUMBLE_KC_GREATER_THAN
  | Key_Question => MUMBLE_KC_QUESTION_MARK
  | Key_At => MUMBLE_KC_AT_SYMBOL
  | Key_A => MUMBLE_KC_A
  | Key_B => MUMBLE_KC_B
  | Key_C => MUMBLE_KC_C
  | Key_D => MUMBLE_KC_D
  | Key_E => MUMBLE_KC_E
  | Key_F => MUMBLE_KC_F
  | Key_G => MUMBLE_KC_G
  | Key_H => MUMBLE_KC_H
  | Key_I => MUMBLE_KC_I
  | Key_J => MUMBLE_KC_J
  | Key_K => MUMBLE_KC_K
  | Key_L => MUMBLE_KC_L
  | Key_M => MUMBLE_KC_M
  | Key_N => MUMBLE_KC_N
  | Key_O => MUMBLE_KC_O
  | Key_P => MUMBLE_KC_P
  | Key_Q => MUMBLE_KC_Q
  | Key_R => MUMBLE_KC_R
  | Key_S => MUMBLE_KC_S
  | Key_T => MUMBLE_KC_T
  | Key_U => MUMBLE_KC_U
  | Key_V => MUMBLE_KC_V
  | Key_W => MUMBLE_KC_W
  | Key_X => MUMBLE_KC_X
  | Key_Y => MUMBLE_KC_Y
  | Key_Z => MUMBLE_KC_Z
  | Key_BracketLeft => MUMBLE_KC_OPEN_BRACKET
  | Key_BracketRight => MUMBLE_KC_CLOSE_BRACKET
  | Key_Backslash => MUMBLE_KC_BACKSLASH
  | Key_AsciiCircum => MUMBLE_KC_CIRCUMFLEX
  | Key_Underscore => MUMBLE_KC_UNDERSCORE
  | Key_BraceLeft => MUMBLE_KC_OPEN_BRACE
  | Key_BraceRight => MUMBLE_KC_CLOSE_BRACE
  | Key_Bar => MUMBLE_KC_VERTICAL_BAR
  | Key_AsciiTilde => MUMBLE_KC_TILDE
  | Key_degree => MUMBLE_KC_DEGREE_SIGN
  | Key_other _ => MUMBLE_KC_INVALID
  end.

(** ** Shortcut targets ([Settings.cpp]) *)

Module Shortcuts.

(** [ShortcutTarget]: [qlSessions] holds [unsigned int], [iChannel] is an
    [int]. *)
Record ShortcutTarget := MkShortcutTarget {
  bCurrentSelection : bool;
  bUsers : bool;
  qlUsers : list string;
  qlSessions : list Z;
  iChannel : Z;
  qsGroup : string;
  bLinks : bool;
  bChildren : bool;
  bForceCenter : bool
}.

(** [ShortcutTarget::ShortcutTarget()] *)
Definition ShortcutTarget_new : ShortcutTarget :=
  MkShortcutTarget false true [] [] (-3)%Z "" false false false.

(** [ShortcutTarget::isServerSpecific] *)
Definition isServerSpecific (t : ShortcutTarget) : bool :=
  negb (bCurrentSelection t) && negb (bUsers t) && (iChannel t >=? 0)%Z.

(** [ShortcutTarget::operator==] *)
Definition ShortcutTarget_eq (t o : ShortcutTarget) : bool :=
  if negb (eqb (bUsers t) (bUsers o)) || negb (eqb (bForceCenter t) (bForceCenter o))
     || negb (eqb (bCurrentSelection t) (bCurrentSelection o))
  then false
  else if bUsers t
  then bool_decide (qlUsers t = qlUsers o) && bool_decide (qlSessions t = qlSessions o)
  else (iChannel t =? iChannel o)%Z && eqb (bLinks t) (bLinks o)
       && eqb (bChildren t) (bChildren o) && String.eqb (qsGroup t) (qsGroup o).

(** Conversion to [quint32]. *)
Definition quint32 (z : Z) : Z := (z mod 2 ^ 32)%Z.

Section Hash.

(** [qHash(const QString &)] of Qt, a [uint]. *)
Variable qHash_QString : string -> Z.

(** [quint32 qHash(const ShortcutTarget &t)] *)
Definition qHash (t : ShortcutTarget) : Z :=
  let h := (if bForceCenter t then 0x55555555 else 0xaaaaaaaa)%Z in
  let h := if bCurrentSelection t then Z.lxor h 0x20000000 else h in
  if bUsers t then fold_left (fun h u => Z.lxor h (quint32 u)) (qlSessions t) h
  else
    let h := Z.lxor h (quint32 (iChannel t)) in
    let h := if bLinks t then Z.lxor h 0x80000000 else h in
    let h := if bChildren t then Z.lxor h 0x40000000 else h in
    let h := Z.lxor h (quint32 (qHash_QString (qsGroup t))) in
    quint32 (Z.lnot h).

(** [quint32 qHash(const QList< ShortcutTarget > &l)] *)
Definition qHash_list (l : list ShortcutTarget) : Z :=
  let h := quint32 (Z.of_nat (length l)) in
  fold_left (fun h st => Z.lxor h (qHash st)) l h.

End Hash.

End Shortcuts.

(** ** The audio input dialog ([AudioConfigDialog.cpp])

    The sliders are given by their values.  The arithmetic is that of
    [int], 32 bits wide: a result outside the range [in_int] wraps around,
    as it does on the targets of the build (the language itself leaves the
    overflow of an [int] undefined). *)

Definition in_int (z : Z) : Prop := (-2147483648 <= z <= 2147483647)%Z.

Definition int_wrap (z : Z) : Z :=
  ((z + 2147483648) mod 4294967296 - 2147483648)%Z.

Definition int_add (a b : Z) : Z := int_wrap (a + b).
Definition int_sub (a b : Z) : Z := int_wrap (a - b).
Definition int_mul (a b : Z) : Z := int_wrap (a * b).
Definition int_neg (a : Z) : Z := int_wrap (- a).

(** [a / b] for [b] other than zero: the quotient is truncated towards zero. *)
Definition int_div (a b : Z) : Z := int_wrap (Z.quot a b).

(** [AudioInputDialog::save]: [s.iFramesPerPacket], from [qsFrames->value()] *)
Definition save_iFramesPerPacket (qsFrames : Z) : Z :=
  let iFramesPerPacket := qsFrames in
  if (iFramesPerPacket =? 1)%Z then 1%Z else int_mul (int_sub iFramesPerPacket 1) 2.

(** [AudioInputDialog::load]: the value given to [loadSlider(qsFrames, ...)] *)
Definition load_qsFrames (iFramesPerPacket : Z) : Z :=
  if (iFramesPerPacket =? 1)%Z then 1%Z else int_add (int_div iFramesPerPacket 2) 1.

(** [AudioInputDialog::on_qsFrames_valueChanged]: the number in the label,
    in milliseconds *)
Definition qlFrames_ms (v : Z) : Z :=
  if (v =? 1)%Z then 10%Z else int_mul (int_sub v 1) 20.





(** [AudioInputDialog::updateBitrate]: [total], from the values of the
    quality and the frames slider, [NetworkConfig::TcpModeEnabled()] and
    [g.s.bTransmitPosition]; [None] is the division by zero. *)
Definition updateBitrate_total (q p : Z) (TcpModeEnabled bTransmitPosition : bool) :
    option Z :=
  let audiorate := q in
  let overhead :=
    int_mul (int_mul 100 8)
      (int_add (int_add (int_add (int_add (int_add 20 8) 4) 1) 2) p) in
  let overhead :=
    if TcpModeEnabled then int_add overhead (int_mul (int_mul 100 8) 12) else overhead in
  let posrate := (if bTransmitPosition then 12 else 0)%Z in
  let posrate := int_mul (int_mul posrate 100) 8 in
  if (p =? 0)%Z then None
  else
    let overhead := int_div overhead p in
    let posrate := int_div posrate p in
    Some (int_add (int_add audiorate overhead) posrate).

(** [AudioInputDialog::updateBitrate]: whether the label turns red. *)
Definition updateBitrate_red (uiSession iMaxBandwidth total : Z) : bool :=
  negb (uiSession =? 0)%Z && (total >? iMaxBandwidth)%Z.


(** ** The entry points of [MumbleAPI]

    Each definition is the body of the entry point as it runs on the host
    thread; the re-posting from other threads is [invoke] below.  Arguments
    that are C strings are given by their characters. *)

Section API.

(** Constants of headers that are not part of the sources:
    [Mumble::Plugins::PluginMessage::MAX_DATA_LENGTH],
    [Mumble::Plugins::PluginMessage::MAX_DATA_ID_LENGTH] and the value of
    [Version::fromComponents(1, 4, 0)]. *)
Variables (MAX_DATA_LENGTH MAX_DATA_ID_LENGTH Version_1_4_0 : Z).

Definition freeMemory_v_1_0_x (callerID ptr : Z) (h : Host) (promise : APIPromise) : Outcome :=
  UNLESS_CANCELLED h promise (
  match m_entries h !! ptr with
  | Some entry =>
      let h1 := set_heap (Curator.run_deleter (m_deleter entry) ptr (heap h)) h in
      let h2 := set_m_entries (delete ptr (m_entries h1)) h1 in
      EXIT_WITH MUMBLE_STATUS_OK h2 NotWritten promise
  | None => EXIT_WITH MUMBLE_EC_POINTER_NOT_FOUND h NotWritten promise
  end).

Definition getActiveServerConnection_v_1_0_x (callerID : Z) (h : Host)
    (promise : APIPromise) : Outcome :=
  UNLESS_CANCELLED h promise (
  VERIFY_PLUGIN_ID callerID h promise (
  match sh h with
  | Some handler =>
      EXIT_WITH MUMBLE_STATUS_OK h (Out_connection (getConnectionID handler)) promise
  | None => EXIT_WITH MUMBLE_EC_NO_ACTIVE_CONNECTION h NotWritten promise
  end)).

Definition isConnectionSynchronized_v_1_0_x (callerID connection : Z) (h : Host)
    (promise : APIPromise) : Outcome :=
  UNLESS_CANCELLED h promise (
  VERIFY_PLUGIN_ID callerID h promise (
  VERIFY_CONNECTION connection h promise (
  EXIT_WITH MUMBLE_STATUS_OK h (Out_bool (negb (uiSession h =? 0)%Z)) promise))).

Definition getLocalUserID_v_1_0_x (callerID connection : Z) (h : Host)
    (promise : APIPromise) : Outcome :=
  UNLESS_CANCELLED h promise (
  VERIFY_PLUGIN_ID callerID h promise (
  VERIFY_CONNECTION connection h promise (
  ENSURE_CONNECTION_SYNCHRONIZED h promise (
  EXIT_WITH MUMBLE_STATUS_OK h (Out_userID (uiSession h)) promise)))).

Definition getUserName_v_1_0_x (callerID connection userID : Z) (h : Host)
    (promise : APIPromise) : Outcome :=
  UNLESS_CANCELLED h promise (
  VERIFY_PLUGIN_ID callerID h promise (
  VERIFY_CONNECTION connection h promise (
  ENSURE_CONNECTION_SYNCHRONIZED h promise (
  match ClientUser_get h userID with
  | Some user => return_string (qsName user) callerID "getUserName" h promise
  | None => EXIT_WITH MUMBLE_EC_USER_NOT_FOUND h NotWritten promise
  end)))).

Definition getChannelName_v_1_0_x (callerID connection channelID : Z) (h : Host)
    (promise : APIPromise) : Outcome :=
  UNLESS_CANCELLED h promise (
  VERIFY_PLUGIN_ID callerID h promise (
  VERIFY_CONNECTION connection h promise (
  ENSURE_CONNECTION_SYNCHRONIZED h promise (
  match Channel_get h channelID with
  | Some channel => return_string (ch_qsName channel) callerID "getChannelName" h promise
  | None => EXIT_WITH MUMBLE_EC_CHANNEL_NOT_FOUND h NotWritten promise
  end)))).

Definition getAllUsers_v_1_0_x (callerID connection : Z) (h : Host)
    (promise : APIPromise) : Outcome :=
  UNLESS_CANCELLED h promise (
  VERIFY_PLUGIN_ID callerID h promise (
  VERIFY_CONNECTION connection h promise (
  ENSURE_CONNECTION_SYNCHRONIZED h promise (
  return_array (map fst (c_qmUsers h)) callerID "getAllUsers" h promise)))).

Definition getAllChannels_v_1_0_x (callerID connection : Z) (h : Host)
    (promise : APIPromise) : Outcome :=
  UNLESS_CANCELLED h promise (
  VERIFY_PLUGIN_ID callerID h promise (
  VERIFY_CONNECTION connection h promise (
  ENSURE_CONNECTION_SYNCHRONIZED h promise (
  return_array (map fst (c_qhChannels h)) callerID "getAllChannels" h promise)))).

Definition getChannelOfUser_v_1_0_x (callerID connection userID : Z) (h : Host)
    (promise : APIPromise) : Outcome :=
  UNLESS_CANCELLED h promise (
  VERIFY_PLUGIN_ID callerID h promise (
  VERIFY_CONNECTION connection h promise (
  ENSURE_CONNECTION_SYNCHRONIZED h promise (
  match ClientUser_get h userID with
  | None => EXIT_WITH MUMBLE_EC_USER_NOT_FOUND h NotWritten promise
  | Some user =>
      match cChannel user with
      | Some iId => EXIT_WITH MUMBLE_STATUS_OK h (Out_channelID iId) promise
      | None => EXIT_WITH MUMBLE_EC_GENERIC_ERROR h NotWritten promise
      end
  end)))).

Definition getUsersInChannel_v_1_0_x (callerID connection channelID : Z) (h : Host)
    (promise : APIPromise) : Outcome :=
  UNLESS_CANCELLED h promise (
  VERIFY_PLUGIN_ID callerID h promise (
  VERIFY_CONNECTION connection h promise (
  ENSURE_CONNECTION_SYNCHRONIZED h promise (
  match Channel_get h channelID with
  | None => EXIT_WITH MUMBLE_EC_CHANNEL_NOT_FOUND h NotWritten promise
  | Some channel => return_array (qlUsers channel) callerID "getUsersInChannel" h promise
  end)))).

Definition getLocalUserTransmissionMode_v_1_0_x (callerID : Z) (h : Host)
    (promise : APIPromise) : Outcome :=
  UNLESS_CANCELLED h promise (
  VERIFY_PLUGIN_ID callerID h promise (
  match atTransmit (s h) with
  | Continuous =>
      EXIT_WITH MUMBLE_STATUS_OK h (Out_transmissionMode MUMBLE_TM_CONTINOUS) promise
  | VAD =>
      EXIT_WITH MUMBLE_STATUS_OK h (Out_transmissionMode MUMBLE_TM_VOICE_ACTIVATION) promise
  | PushToTalk =>
      EXIT_WITH MUMBLE_STATUS_OK h (Out_transmissionMode MUMBLE_TM_PUSH_TO_TALK) promise
  | AudioTransmit_other _ => EXIT_WITH MUMBLE_EC_GENERIC_ERROR h NotWritten promise
  end)).

Definition isUserLocallyMuted_v_1_0_x (callerID connection userID : Z) (h : Host)
    (promise : APIPromise) : Outcome :=
  UNLESS_CANCELLED h promise (
  VERIFY_PLUGIN_ID callerID h promise (
  VERIFY_CONNECTION connection h promise (
  ENSURE_CONNECTION_SYNCHRONIZED h promise (
  match ClientUser_get h userID with
  | None => EXIT_WITH MUMBLE_EC_USER_NOT_FOUND h NotWritten promise
  | Some user => EXIT_WITH MUMBLE_STATUS_OK h (Out_bool (bLocalMute user)) promise
  end)))).

Definition isLocalUserMuted_v_1_0_x (callerID : Z) (h : Host)
    (promise : APIPromise) : Outcome :=
  UNLESS_CANCELLED h promise (
  VERIFY_PLUGIN_ID callerID h promise (
  EXIT_WITH MUMBLE_STATUS_OK h (Out_bool (bMute (s h))) promise)).

Definition isLocalUserDeafened_v_1_0_x (callerID : Z) (h : Host)
    (promise : APIPromise) : Outcome :=
  UNLESS_CANCELLED h promise (
  VERIFY_PLUGIN_ID callerID h promise (
  EXIT_WITH MUMBLE_STATUS_OK h (Out_bool (bDeaf (s h))) promise)).

Definition getUserHash_v_1_0_x (callerID connection userID : Z) (h : Host)
    (promise : APIPromise) : Outcome :=
  UNLESS_CANCELLED h promise (
  VERIFY_PLUGIN_ID callerID h promise (
  VERIFY_CONNECTION connection h promise (
  ENSURE_CONNECTION_SYNCHRONIZED h promise (
  match ClientUser_get h userID with
  | None => EXIT_WITH MUMBLE_EC_USER_NOT_FOUND h NotWritten promise
  | Some user => return_string (qsHash user) callerID "getUserHash" h promise
  end)))).

Definition getServerHash_v_1_0_x (callerID connection : Z) (h : Host)
    (promise : APIPromise) : Outcome :=
  UNLESS_CANCELLED h promise (
  VERIFY_PLUGIN_ID callerID h promise (
  VERIFY_CONNECTION connection h promise (
  ENSURE_CONNECTION_SYNCHRONIZED h promise (
  match sh h with
  | None => Faulted null_dereference
  | Some handler =>
      let strHash := string_of_list_ascii (toHex (qbaDigest handler)) in
      return_string strHash callerID "getServerHash" h promise
  end)))).

Definition requestLocalUserTransmissionMode_v_1_0_x (callerID : Z)
    (transmissionMode : mumble_transmission_mode_t) (h : Host)
    (promise : APIPromise) : Outcome :=
  UNLESS_CANCELLED h promise (
  VERIFY_PLUGIN_ID callerID h promise (
  let identified :=
    match transmissionMode with
    | MUMBLE_TM_CONTINOUS => Some Continuous
    | MUMBLE_TM_VOICE_ACTIVATION => Some VAD
    | MUMBLE_TM_PUSH_TO_TALK => Some PushToTalk
    | MUMBLE_TM_other _ => None
    end in
  match identified with
  | Some mode =>
      match mw h with
      | None => EXIT_WITH MUMBLE_EC_INTERNAL_ERROR h NotWritten promise
      | Some _ =>
          EXIT_WITH MUMBLE_STATUS_OK
            (emit (Ev_setTransmissionMode mode) (set_s (setTransmissionMode mode (s h)) h))
            NotWritten promise
      end
  | None => EXIT_WITH MUMBLE_EC_UNKNOWN_TRANSMISSION_MODE h NotWritten promise
  end)).

Definition getUserComment_v_1_0_x (callerID connection userID : Z) (h : Host)
    (promise : APIPromise) : Outcome :=
  UNLESS_CANCELLED h promise (
  VERIFY_PLUGIN_ID callerID h promise (
  VERIFY_CONNECTION connection h promise (
  ENSURE_CONNECTION_SYNCHRONIZED h promise (
  match ClientUser_get h userID with
  | None => EXIT_WITH MUMBLE_EC_USER_NOT_FOUND h NotWritten promise
  | Some user =>
      if isEmpty (qsComment user) && negb (isEmpty (qbaCommentHash user)) then
        match db h with
        | None => Faulted null_dereference
        | Some database =>
            let user1 :=
              MkClientUser (qsName user) (qsHash user) (blob database (qbaCommentHash user))
                (qbaCommentHash user) (cChannel user) (bLocalMute user) in
            let h1 := set_c_qmUsers (table_set userID user1 (c_qmUsers h)) h in
            if isEmpty (qsComment user1)
            then EXIT_WITH MUMBLE_EC_UNSYNCHRONIZED_BLOB h1 NotWritten promise
            else return_string (qsComment user1) callerID "getUserComment" h1 promise
        end
      else return_string (qsComment user) callerID "getUserComment" h promise
  end)))).

Definition getChannelDescription_v_1_0_x (callerID connection channelID : Z) (h : Host)
    (promise : APIPromise) : Outcome :=
  UNLESS_CANCELLED h promise (
  VERIFY_PLUGIN_ID callerID h promise (
  VERIFY_CONNECTION connection h promise (
  ENSURE_CONNECTION_SYNCHRONIZED h promise (
  match Channel_get h channelID with
  | None => EXIT_WITH MUMBLE_EC_CHANNEL_NOT_FOUND h NotWritten promise
  | Some channel =>
      if isEmpty (qsDesc channel) && negb (isEmpty (qbaDescHash channel)) then
        match db h with
        | None => Faulted null_dereference
        | Some database =>
            let channel1 :=
              MkChannel (ch_qsName channel) (blob database (qbaDescHash channel))
                (qbaDescHash channel) (qlUsers channel) in
            let h1 := set_c_qhChannels (table_set channelID channel1 (c_qhChannels h)) h in
            if isEmpty (qsDesc channel1)
            then EXIT_WITH MUMBLE_EC_UNSYNCHRONIZED_BLOB h1 NotWritten promise
            else return_string (qsDesc channel1) callerID "getChannelDescription" h1 promise
        end
      else return_string (qsDesc channel) callerID "getChannelDescription" h promise
  end)))).

Definition requestUserMove_v_1_0_x (callerID connection userID channelID : Z)
    (password : option string) (h : Host) (promise : APIPromise) : Outcome :=
  UNLESS_CANCELLED h promise (
  VERIFY_PLUGIN_ID callerID h promise (
  VERIFY_CONNECTION connection h promise (
  ENSURE_CONNECTION_SYNCHRONIZED h promise (
  match ClientUser_get h userID with
  | None => EXIT_WITH MUMBLE_EC_USER_NOT_FOUND h NotWritten promise
  | Some user =>
      match Channel_get h channelID with
      | None => EXIT_WITH MUMBLE_EC_CHANNEL_NOT_FOUND h NotWritten promise
      | Some channel =>
          if negb (bool_decide (cChannel user = Some channelID)) then
            let passwordList := match password with Some pw => [pw] | None => [] end in
            match sh h with
            | None => Faulted null_dereference
            | Some _ =>
                EXIT_WITH MUMBLE_STATUS_OK
                  (emit (Ev_joinChannel userID channelID passwordList) h) NotWritten promise
            end
          else EXIT_WITH MUMBLE_STATUS_OK h NotWritten promise
      end
  end)))).

Definition requestMicrophoneActivationOverwrite_v_1_0_x (callerID : Z) (activate : bool)
    (h : Host) (promise : APIPromise) : Outcome :=
  UNLESS_CANCELLED h promise (
  VERIFY_PLUGIN_ID callerID h promise (
  EXIT_WITH MUMBLE_STATUS_OK (set_overwriteMicrophoneActivation activate h) NotWritten promise)).

Definition requestLocalMute_v_1_0_x (callerID connection userID : Z) (muted : bool)
    (h : Host) (promise : APIPromise) : Outcome :=
  UNLESS_CANCELLED h promise (
  VERIFY_PLUGIN_ID callerID h promise (
  VERIFY_CONNECTION connection h promise (
  ENSURE_CONNECTION_SYNCHRONIZED h promise (
  if (userID =? uiSession h)%Z
  then EXIT_WITH MUMBLE_EC_INVALID_MUTE_TARGET h NotWritten promise
  else
    match ClientUser_get h userID with
    | None => EXIT_WITH MUMBLE_EC_USER_NOT_FOUND h NotWritten promise
    | Some user =>
        let h1 := set_c_qmUsers (table_set userID (setLocalMute muted user) (c_qmUsers h)) h in
        EXIT_WITH MUMBLE_STATUS_OK (emit (Ev_setLocalMute userID muted) h1) NotWritten promise
    end)))).

Definition requestLocalUserMute_v_1_0_x (callerID : Z) (muted : bool) (h : Host)
    (promise : APIPromise) : Outcome :=
  UNLESS_CANCELLED h promise (
  VERIFY_PLUGIN_ID callerID h promise (
  match mw h with
  | None => EXIT_WITH MUMBLE_EC_INTERNAL_ERROR h NotWritten promise
  | Some _ =>
      EXIT_WITH MUMBLE_STATUS_OK (emit (Ev_setAudioMute muted) (set_s (setAudioMute muted (s h)) h))
        NotWritten promise
  end)).

Definition requestLocalUserDeaf_v_1_0_x (callerID : Z) (deafened : bool) (h : Host)
    (promise : APIPromise) : Outcome :=
  UNLESS_CANCELLED h promise (
  VERIFY_PLUGIN_ID callerID h promise (
  match mw h with
  | None => EXIT_WITH MUMBLE_EC_INTERNAL_ERROR h NotWritten promise
  | Some _ =>
      EXIT_WITH MUMBLE_STATUS_OK
        (emit (Ev_setAudioDeaf deafened) (set_s (setAudioDeaf deafened (s h)) h))
        NotWritten promise
  end)).

Definition requestSetLocalUserComment_v_1_0_x (callerID connection : Z) (comment : string)
    (h : Host) (promise : APIPromise) : Outcome :=
  UNLESS_CANCELLED h promise (
  VERIFY_PLUGIN_ID callerID h promise (
  VERIFY_CONNECTION connection h promise (
  ENSURE_CONNECTION_SYNCHRONIZED h promise (
  match ClientUser_get h (uiSession h) with
  | None => EXIT_WITH MUMBLE_EC_USER_NOT_FOUND h NotWritten promise
  | Some localUser =>
      match mw h with
      | None => EXIT_WITH MUMBLE_EC_INTERNAL_ERROR h NotWritten promise
      | Some window =>
          match pmModel window with
          | None => EXIT_WITH MUMBLE_EC_INTERNAL_ERROR h NotWritten promise
          | Some _ =>
              let h1 :=
                set_c_qmUsers
                  (table_set (uiSession h) (setComment comment localUser) (c_qmUsers h)) h in
              EXIT_WITH MUMBLE_STATUS_OK (emit (Ev_setComment (uiSession h) comment) h1)
                NotWritten promise
          end
      end
  end)))).

Definition findUserByName_v_1_0_x (callerID connection : Z) (userName : string) (h : Host)
    (promise : APIPromise) : Outcome :=
  UNLESS_CANCELLED h promise (
  VERIFY_PLUGIN_ID callerID h promise (
  VERIFY_CONNECTION connection h promise (
  ENSURE_CONNECTION_SYNCHRONIZED h promise (
  match find_by_name qsName userName (c_qmUsers h) with
  | Some key => EXIT_WITH MUMBLE_STATUS_OK h (Out_userID key) promise
  | None => EXIT_WITH MUMBLE_EC_USER_NOT_FOUND h NotWritten promise
  end)))).

Definition findChannelByName_v_1_0_x (callerID connection : Z) (channelName : string)
    (h : Host) (promise : APIPromise) : Outcome :=
  UNLESS_CANCELLED h promise (
  VERIFY_PLUGIN_ID callerID h promise (
  VERIFY_CONNECTION connection h promise (
  ENSURE_CONNECTION_SYNCHRONIZED h promise (
  match find_by_name ch_qsName channelName (c_qhChannels h) with
  | Some key => EXIT_WITH MUMBLE_STATUS_OK h (Out_channelID key) promise
  | None => EXIT_WITH MUMBLE_EC_CHANNEL_NOT_FOUND h NotWritten promise
  end)))).

Definition getMumbleSetting_bool_v_1_0_x (callerID : Z) (key : mumble_settings_key_t)
    (h : Host) (promise : APIPromise) : Outcome :=
  UNLESS_CANCELLED h promise (
  VERIFY_PLUGIN_ID callerID h promise (
  let value := getMumbleSettingHelper (s h) key in
  if negb (isValid value) then EXIT_WITH MUMBLE_EC_UNKNOWN_SETTINGS_KEY h NotWritten promise
  else if IS_NOT_TYPE value QMetaType_Bool
  then EXIT_WITH MUMBLE_EC_WRONG_SETTINGS_TYPE h NotWritten promise
  else
    match value with
    | QV_Bool b => EXIT_WITH MUMBLE_STATUS_OK h (Out_bool b) promise
    | _ => EXIT_WITH MUMBLE_EC_WRONG_SETTINGS_TYPE h NotWritten promise
    end)).

Definition getMumbleSetting_int_v_1_0_x (callerID : Z) (key : mumble_settings_key_t)
    (h : Host) (promise : APIPromise) : Outcome :=
  UNLESS_CANCELLED h promise (
  VERIFY_PLUGIN_ID callerID h promise (
  let value := getMumbleSettingHelper (s h) key in
  if negb (isValid value) then EXIT_WITH MUMBLE_EC_UNKNOWN_SETTINGS_KEY h NotWritten promise
  else if IS_NOT_TYPE value QMetaType_Int
  then EXIT_WITH MUMBLE_EC_WRONG_SETTINGS_TYPE h NotWritten promise
  else
    match value with
    | QV_Int n => EXIT_WITH MUMBLE_STATUS_OK h (Out_int64 n) promise
    | _ => EXIT_WITH MUMBLE_EC_WRONG_SETTINGS_TYPE h NotWritten promise
    end)).

Definition getMumbleSetting_double_v_1_0_x (callerID : Z) (key : mumble_settings_key_t)
    (h : Host) (promise : APIPromise) : Outcome :=
  UNLESS_CANCELLED h promise (
  VERIFY_PLUGIN_ID callerID h promise (
  let value := getMumbleSettingHelper (s h) key in
  if negb (isValid value) then EXIT_WITH MUMBLE_EC_UNKNOWN_SETTINGS_KEY h NotWritten promise
  else if IS_NOT_TYPE value QMetaType_Double
  then EXIT_WITH MUMBLE_EC_WRONG_SETTINGS_TYPE h NotWritten promise
  else
    match value with
    | QV_Double d => EXIT_WITH MUMBLE_STATUS_OK h (Out_double d) promise
    | _ => EXIT_WITH MUMBLE_EC_WRONG_SETTINGS_TYPE h NotWritten promise
    end)).

Definition getMumbleSetting_string_v_1_0_x (callerID : Z) (key : mumble_settings_key_t)
    (h : Host) (promise : APIPromise) : Outcome :=
  UNLESS_CANCELLED h promise (
  VERIFY_PLUGIN_ID callerID h promise (
  let value := getMumbleSettingHelper (s h) key in
  if negb (isValid value) then EXIT_WITH MUMBLE_EC_UNKNOWN_SETTINGS_KEY h NotWritten promise
  else if IS_NOT_TYPE value QMetaType_QString
  then EXIT_WITH MUMBLE_EC_WRONG_SETTINGS_TYPE h NotWritten promise
  else
    match value with
    | QV_String stringValue =>
        return_string stringValue callerID "getMumbleSetting_string" h promise
    | _ => EXIT_WITH MUMBLE_EC_WRONG_SETTINGS_TYPE h NotWritten promise
    end)).

(** The shared shape of the four setters:
    [exitCode = setMumbleSettingHelper(key, value); EXIT_WITH(exitCode);] *)
Definition setMumbleSetting (callerID : Z) (key : mumble_settings_key_t) (value : QVariant)
    (h : Host) (promise : APIPromise) : Outcome :=
  UNLESS_CANCELLED h promise (
  VERIFY_PLUGIN_ID callerID h promise (
  let '(settings, exitCode) := setMumbleSettingHelper (s h) key value in
  EXIT_WITH exitCode (set_s settings h) NotWritten promise)).

Definition setMumbleSetting_bool_v_1_0_x (callerID : Z) (key : mumble_settings_key_t)
    (value : bool) : Host -> APIPromise -> Outcome :=
  setMumbleSetting callerID key (QV_Bool value).

(** [QVariant::fromValue(value)] of an [int64_t] *)
Definition setMumbleSetting_int_v_1_0_x (callerID : Z) (key : mumble_settings_key_t)
    (value : Z) : Host -> APIPromise -> Outcome :=
  setMumbleSetting callerID key (QV_LongLong value).

Definition setMumbleSetting_double_v_1_0_x (callerID : Z) (key : mumble_settings_key_t)
    (value : double) : Host -> APIPromise -> Outcome :=
  setMumbleSetting callerID key (QV_Double value).

Definition setMumbleSetting_string_v_1_0_x (callerID : Z) (key : mumble_settings_key_t)
    (value : string) : Host -> APIPromise -> Outcome :=
  setMumbleSetting callerID key (QV_String value).

(** [users] holds [users[0 .. userCount-1]], [payload] the [dataLength]
    bytes at [data]. *)
Definition sendData_v_1_0_x (callerID connection : Z) (users : list Z)
    (payload : list ascii) (dataID : string) (h : Host) (promise : APIPromise) : Outcome :=
  UNLESS_CANCELLED h promise (
  VERIFY_PLUGIN_ID callerID h promise (
  VERIFY_CONNECTION connection h promise (
  ENSURE_CONNECTION_SYNCHRONIZED h promise (
  if (Z.of_nat (length payload) >? MAX_DATA_LENGTH)%Z
  then EXIT_WITH MUMBLE_EC_DATA_TOO_BIG h NotWritten promise
  else if (Z.of_nat (String.length dataID) >? MAX_DATA_ID_LENGTH)%Z
  then EXIT_WITH MUMBLE_EC_DATA_ID_TOO_LONG h NotWritten promise
  else
    match add_receiversessions h users with
    | None => EXIT_WITH MUMBLE_EC_USER_NOT_FOUND h NotWritten promise
    | Some sessions =>
        let mpdt := MkPluginDataTransmission (uiSession h) sessions payload dataID in
        match sh h with
        | Some handler =>
            if (m_version handler <? Version_1_4_0)%Z
            then EXIT_WITH MUMBLE_EC_OPERATION_UNSUPPORTED_BY_SERVER h NotWritten promise
            else EXIT_WITH MUMBLE_STATUS_OK (emit (Ev_sendMessage mpdt) h) NotWritten promise
        | None => EXIT_WITH MUMBLE_EC_CONNECTION_NOT_FOUND h NotWritten promise
        end
    end)))).

(** The plugin is verified by hand; the message given to
    [Log::logOrDefer] is recorded by the plugin name and the text it is
    formatted from. *)
Definition log_v_1_0_x (callerID : Z) (message : string) (h : Host)
    (promise : APIPromise) : Outcome :=
  UNLESS_CANCELLED h promise (
  match getPlugin (pluginManager h) callerID with
  | None => EXIT_WITH MUMBLE_EC_INVALID_PLUGIN_ID h NotWritten promise
  | Some plugin =>
      EXIT_WITH MUMBLE_STATUS_OK (emit (Ev_logOrDefer (getName plugin) message) h)
        NotWritten promise
  end).

Definition playSample_v_1_2_x (callerID : Z) (samplePath : string) (volume : float)
    (h : Host) (promise : APIPromise) : Outcome :=
  UNLESS_CANCELLED h promise (
  VERIFY_PLUGIN_ID callerID h promise (
  match ao h with
  | None => EXIT_WITH MUMBLE_EC_AUDIO_NOT_AVAILABLE h NotWritten promise
  | Some output =>
      let h1 := emit (Ev_playSample samplePath volume false) h in
      if sample_starts output samplePath volume false
      then EXIT_WITH MUMBLE_STATUS_OK h1 NotWritten promise
      else EXIT_WITH MUMBLE_EC_INVALID_SAMPLE h1 NotWritten promise
  end)).

Definition playSample_v_1_0_x (callerID : Z) (samplePath : string) (h : Host)
    (promise : APIPromise) : Outcome :=
  playSample_v_1_2_x callerID samplePath float_one h promise.

(** ** Calls as data *)

(** One constructor per entry point, with the arguments of the call other
    than the out-pointers and the promise. *)
Inductive APICall :=
| Call_freeMemory_v_1_0_x (callerID ptr : Z)
| Call_getActiveServerConnection_v_1_0_x (callerID : Z)
| Call_isConnectionSynchronized_v_1_0_x (callerID connection : Z)
| Call_getLocalUserID_v_1_0_x (callerID connection : Z)
| Call_getUserName_v_1_0_x (callerID connection userID : Z)
| Call_getChannelName_v_1_0_x (callerID connection channelID : Z)
| Call_getAllUsers_v_1_0_x (callerID connection : Z)
| Call_getAllChannels_v_1_0_x (callerID connection : Z)
| Call_getChannelOfUser_v_1_0_x (callerID connection userID : Z)
| Call_getUsersInChannel_v_1_0_x (callerID connection channelID : Z)
| Call_getLocalUserTransmissionMode_v_1_0_x (callerID : Z)
| Call_isUserLocallyMuted_v_1_0_x (callerID connection userID : Z)
| Call_isLocalUserMuted_v_1_0_x (callerID : Z)
| Call_isLocalUserDeafened_v_1_0_x (callerID : Z)
| Call_getUserHash_v_1_0_x (callerID connection userID : Z)
| Call_getServerHash_v_1_0_x (callerID connection : Z)
| Call_requestLocalUserTransmissionMode_v_1_0_x (callerID : Z)
    (transmissionMode : mumble_transmission_mode_t)
| Call_getUserComment_v_1_0_x (callerID connection userID : Z)
| Call_getChannelDescription_v_1_0_x (callerID connection channelID : Z)
| Call_requestUserMove_v_1_0_x (callerID connection userID channelID : Z)
    (password : option string)
| Call_requestMicrophoneActivationOverwrite_v_1_0_x (callerID : Z) (activate : bool)
| Call_requestLocalMute_v_1_0_x (callerID connection userID : Z) (muted : bool)
| Call_requestLocalUserMute_v_1_0_x (callerID : Z) (muted : bool)
| Call_requestLocalUserDeaf_v_1_0_x (callerID : Z) (deafened : bool)
| Call_requestSetLocalUserComment_v_1_0_x (callerID connection : Z) (comment : string)
| Call_findUserByName_v_1_0_x (callerID connection : Z) (userName : string)
| Call_findChannelByName_v_1_0_x (callerID connection : Z) (channelName : string)
| Call_getMumbleSetting_bool_v_1_0_x (callerID : Z) (key : mumble_settings_key_t)
| Call_getMumbleSetting_int_v_1_0_x (callerID : Z) (key : mumble_settings_key_t)
| Call_getMumbleSetting_double_v_1_0_x (callerID : Z) (key : mumble_settings_key_t)
| Call_getMumbleSetting_string_v_1_0_x (callerID : Z) (key : mumble_settings_key_t)
| Call_setMumbleSetting_bool_v_1_0_x (callerID : Z) (key : mumble_settings_key_t)
    (value : bool)
| Call_setMumbleSetting_int_v_1_0_x (callerID : Z) (key : mumble_settings_key_t) (value : Z)
| Call_setMumbleSetting_double_v_1_0_x (callerID : Z) (key : mumble_settings_key_t)
    (value : double)
| Call_setMumbleSetting_string_v_1_0_x (callerID : Z) (key : mumble_settings_key_t)
    (value : string)
| Call_sendData_v_1_0_x (callerID connection : Z) (users : list Z) (payload : list ascii)
    (dataID : string)
| Call_log_v_1_0_x (callerID : Z) (message : string)
| Call_playSample_v_1_0_x (callerID : Z) (samplePath : string)
| Call_playSample_v_1_2_x (callerID : Z) (samplePath : string) (volume : float).

(** The body that a call runs on the host thread. *)
Definition dispatch (call : APICall) : Host -> APIPromise -> Outcome :=
  match call with
  | Call_freeMemory_v_1_0_x c ptr => freeMemory_v_1_0_x c ptr
  | Call_getActiveServerConnection_v_1_0_x c => getActiveServerConnection_v_1_0_x c
  | Call_isConnectionSynchronized_v_1_0_x c conn => isConnectionSynchronized_v_1_0_x c conn
  | Call_getLocalUserID_v_1_0_x c conn => getLocalUserID_v_1_0_x c conn
  | Call_getUserName_v_1_0_x c conn u => getUserName_v_1_0_x c conn u
  | Call_getChannelName_v_1_0_x c conn ch => getChannelName_v_1_0_x c conn ch
  | Call_getAllUsers_v_1_0_x c conn => getAllUsers_v_1_0_x c conn
  | Call_getAllChannels_v_1_0_x c conn => getAllChannels_v_1_0_x c conn
  | Call_getChannelOfUser_v_1_0_x c conn u => getChannelOfUser_v_1_0_x c conn u
  | Call_getUsersInChannel_v_1_0_x c conn ch => getUsersInChannel_v_1_0_x c conn ch
  | Call_getLocalUserTransmissionMode_v_1_0_x c => getLocalUserTransmissionMode_v_1_0_x c
  | Call_isUserLocallyMuted_v_1_0_x c conn u => isUserLocallyMuted_v_1_0_x c conn u
  | Call_isLocalUserMuted_v_1_0_x c => isLocalUserMuted_v_1_0_x c
  | Call_isLocalUserDeafened_v_1_0_x c => isLocalUserDeafened_v_1_0_x c
  | Call_getUserHash_v_1_0_x c conn u => getUserHash_v_1_0_x c conn u
  | Call_getServerHash_v_1_0_x c conn => getServerHash_v_1_0_x c conn
  | Call_requestLocalUserTransmissionMode_v_1_0_x c m =>
      requestLocalUserTransmissionMode_v_1_0_x c m
  | Call_getUserComment_v_1_0_x c conn u => getUserComment_v_1_0_x c conn u
  | Call_getChannelDescription_v_1_0_x c conn ch => getChannelDescription_v_1_0_x c conn ch
  | Call_requestUserMove_v_1_0_x c conn u ch pw => requestUserMove_v_1_0_x c conn u ch pw
  | Call_requestMicrophoneActivationOverwrite_v_1_0_x c b =>
      requestMicrophoneActivationOverwrite_v_1_0_x c b
  | Call_requestLocalMute_v_1_0_x c conn u b => requestLocalMute_v_1_0_x c conn u b
  | Call_requestLocalUserMute_v_1_0_x c b => requestLocalUserMute_v_1_0_x c b
  | Call_requestLocalUserDeaf_v_1_0_x c b => requestLocalUserDeaf_v_1_0_x c b
  | Call_requestSetLocalUserComment_v_1_0_x c conn cm =>
      requestSetLocalUserComment_v_1_0_x c conn cm
  | Call_findUserByName_v_1_0_x c conn n => findUserByName_v_1_0_x c conn n
  | Call_findChannelByName_v_1_0_x c conn n => findChannelByName_v_1_0_x c conn n
  | Call_getMumbleSetting_bool_v_1_0_x c k => getMumbleSetting_bool_v_1_0_x c k
  | Call_getMumbleSetting_int_v_1_0_x c k => getMumbleSetting_int_v_1_0_x c k
  | Call_getMumbleSetting_double_v_1_0_x c k => getMumbleSetting_double_v_1_0_x c k
  | Call_getMumbleSetting_string_v_1_0_x c k => getMumbleSetting_string_v_1_0_x c k
  | Call_setMumbleSetting_bool_v_1_0_x c k v => setMumbleSetting_bool_v_1_0_x c k v
  | Call_setMumbleSetting_int_v_1_0_x c k v => setMumbleSetting_int_v_1_0_x c k v
  | Call_setMumbleSetting_double_v_1_0_x c k v => setMumbleSetting_double_v_1_0_x c k v
  | Call_setMumbleSetting_string_v_1_0_x c k v => setMumbleSetting_string_v_1_0_x c k v
  | Call_sendData_v_1_0_x c conn us d id => sendData_v_1_0_x c conn us d id
  | Call_log_v_1_0_x c m => log_v_1_0_x c m
  | Call_playSample_v_1_0_x c p => playSample_v_1_0_x c p
  | Call_playSample_v_1_2_x c p v => playSample_v_1_2_x c p v
  end.

(** The plugin id a call is issued with. *)
Definition callerID_of (call : APICall) : Z :=
  match call with
  | Call_freeMemory_v_1_0_x c _ | Call_getActiveServerConnection_v_1_0_x c
  | Call_isConnectionSynchronized_v_1_0_x c _ | Call_getLocalUserID_v_1_0_x c _
  | Call_getUserName_v_1_0_x c _ _ | Call_getChannelName_v_1_0_x c _ _
  | Call_getAllUsers_v_1_0_x c _ | Call_getAllChannels_v_1_0_x c _
  | Call_getChannelOfUser_v_1_0_x c _ _ | Call_getUsersInChannel_v_1_0_x c _ _
  | Call_getLocalUserTransmissionMode_v_1_0_x c | Call_isUserLocallyMuted_v_1_0_x c _ _
  | Call_isLocalUserMuted_v_1_0_x c | Call_isLocalUserDeafened_v_1_0_x c
  | Call_getUserHash_v_1_0_x c _ _ | Call_getServerHash_v_1_0_x c _
  | Call_requestLocalUserTransmissionMode_v_1_0_x c _ | Call_getUserComment_v_1_0_x c _ _
  | Call_getChannelDescription_v_1_0_x c _ _ | Call_requestUserMove_v_1_0_x c _ _ _ _
  | Call_requestMicrophoneActivationOverwrite_v_1_0_x c _
  | Call_requestLocalMute_v_1_0_x c _ _ _ | Call_requestLocalUserMute_v_1_0_x c _
  | Call_requestLocalUserDeaf_v_1_0_x c _ | Call_requestSetLocalUserComment_v_1_0_x c _ _
  | Call_findUserByName_v_1_0_x c _ _ | Call_findChannelByName_v_1_0_x c _ _
  | Call_getMumbleSetting_bool_v_1_0_x c _ | Call_getMumbleSetting_int_v_1_0_x c _
  | Call_getMumbleSetting_double_v_1_0_x c _ | Call_getMumbleSetting_string_v_1_0_x c _
  | Call_setMumbleSetting_bool_v_1_0_x c _ _ | Call_setMumbleSetting_int_v_1_0_x c _ _
  | Call_setMumbleSetting_double_v_1_0_x c _ _ | Call_setMumbleSetting_string_v_1_0_x c _ _
  | Call_sendData_v_1_0_x c _ _ _ _ | Call_log_v_1_0_x c _
  | Call_playSample_v_1_0_x c _ | Call_playSample_v_1_2_x c _ _ => c
  end.

Definition is_freeMemory (call : APICall) : bool :=
  match call with Call_freeMemory_v_1_0_x _ _ => true | _ => false end.

(** ** Thread affinity and the C wrappers *)

(** The invocation an entry point queues on the host thread when it is
    called from another thread.  Every entry point queues itself, except
    [playSample_v_1_0_x], which has no thread check of its own and calls
    [playSample_v_1_2_x], which then queues itself. *)
Definition posted (call : APICall) : APICall :=
  match call with
  | Call_playSample_v_1_0_x callerID samplePath =>
      Call_playSample_v_1_2_x callerID samplePath float_one
  | _ => call
  end.

(** Program points of a C wrapper
    ([mumble_error_t PLUGIN_CALLING_CONVENTION entry(...)]). *)
Inductive WrapperPC :=
| W_invoke        (* promise and future made; about to call the entry point *)
| W_wait_800      (* in [future.wait_for(std::chrono::milliseconds(800))] *)
| W_cancel        (* about to call [promise->cancel()] *)
| W_wait_0        (* in [future.wait_for(std::chrono::milliseconds(0))] *)
| W_set_timeout   (* about to call [promise->set_value(MUMBLE_EC_API_REQUEST_TIMEOUT)] *)
| W_get           (* about to [return future.get()] *)
| W_returned (code : mumble_error_t).

(** The bound of the first wait, in milliseconds. *)
Definition WAIT_MS : Z := 800.

(** One wrapper call in flight.  [sys_now] is a clock in milliseconds;
    [sys_ran] remembers the host state and the promise the body found when
    it ran (it is not read by any step). *)
Record System := MkSystem {
  sys_host : Host;
  sys_promise : APIPromise;
  sys_queue : option APICall;
  sys_pc : WrapperPC;
  sys_out : OutParam;
  sys_now : Z;
  sys_deadline : Z;
  sys_fault : option Fault;
  sys_ran : option (Host * APIPromise)
}.

(** The state in which the wrapper has made its promise and future. *)
Definition init (h : Host) (now : Z) : System :=
  MkSystem h Promise.make None W_invoke NotWritten now now None None.

Definition set_pc (pc : WrapperPC) (sys : System) : System :=
  MkSystem (sys_host sys) (sys_promise sys) (sys_queue sys) pc (sys_out sys) (sys_now sys)
    (sys_deadline sys) (sys_fault sys) (sys_ran sys).

Definition set_promise (p : APIPromise) (sys : System) : System :=
  MkSystem (sys_host sys) p (sys_queue sys) (sys_pc sys) (sys_out sys) (sys_now sys)
    (sys_deadline sys) (sys_fault sys) (sys_ran sys).

Definition set_fault (f : Fault) (sys : System) : System :=
  MkSystem (sys_host sys) (sys_promise sys) (sys_queue sys) (sys_pc sys) (sys_out sys)
    (sys_now sys) (sys_deadline sys) (Some f) (sys_ran sys).

(** The host thread runs the body of [call], holding the lock of the
    promise from its first statement to its return. *)
Definition run_body (call : APICall) (sys : System) : System :=
  let ran := Some (sys_host sys, sys_promise sys) in
  match dispatch call (sys_host sys) (sys_promise sys) with
  | Returned h out p =>
      MkSystem h p None (sys_pc sys) out (sys_now sys) (sys_deadline sys) (sys_fault sys) ran
  | Faulted f =>
      MkSystem (sys_host sys) (sys_promise sys) None (sys_pc sys) (sys_out sys) (sys_now sys)
        (sys_deadline sys) (Some f) ran
  end.

(** [MumbleAPI::get().entry(..., promise)] as called by the wrapper: on the
    host thread the body runs at once, on another thread the invocation is
    queued and the call returns. *)
Definition invoke (onHostThread : bool) (call : APICall) (sys : System) : System :=
  if onHostThread then run_body call sys
  else
    MkSystem (sys_host sys) (sys_promise sys) (Some (posted call)) (sys_pc sys) (sys_out sys)
      (sys_now sys) (sys_deadline sys) (sys_fault sys) (sys_ran sys).

(** The next statement of the wrapper.  A wait that is neither ready nor
    over, and a [get] without a value, keep the wrapper where it is. *)
Definition wrapper_step (onHostThread : bool) (call : APICall) (sys : System) : System :=
  match sys_pc sys with
  | W_invoke =>
      let sys1 := invoke onHostThread call sys in
      MkSystem (sys_host sys1) (sys_promise sys1) (sys_queue sys1) W_wait_800 (sys_out sys1)
        (sys_now sys1) (sys_now sys1 + WAIT_MS) (sys_fault sys1) (sys_ran sys1)
  | W_wait_800 =>
      if ready (sys_promise sys) then set_pc W_get sys
      else if (sys_deadline sys <=? sys_now sys)%Z then set_pc W_cancel sys
      else sys
  | W_cancel => set_pc W_wait_0 (set_promise (cancel (sys_promise sys)) sys)
  | W_wait_0 =>
      if ready (sys_promise sys) then set_pc W_get sys else set_pc W_set_timeout sys
  | W_set_timeout =>
      match set_value (sys_promise sys) MUMBLE_EC_API_REQUEST_TIMEOUT with
      | Some p => set_pc W_get (set_promise p sys)
      | None => set_fault promise_already_satisfied sys
      end
  | W_get =>
      match m_promise (sys_promise sys) with
      | Some code => set_pc (W_returned code) sys
      | None => sys
      end
  | W_returned _ => sys
  end.

(** The host thread takes the queued invocation, if there is one. *)
Definition host_step (sys : System) : System :=
  match sys_queue sys with
  | Some call => run_body call sys
  | None => sys
  end.

(** The first wait gives up: once the deadline is over, [wait_for] may
    report a timeout even when the value has arrived in the meantime. *)
Definition wait_times_out (sys : System) : System :=
  match sys_pc sys with
  | W_wait_800 => if (sys_deadline sys <=? sys_now sys)%Z then set_pc W_cancel sys else sys
  | _ => sys
  end.

(** What can happen next: a statement of the wrapper, the first wait giving
    up, the host thread running the queued body, time passing, or other
    activity of the host thread that leaves the host in state [h]. *)
Inductive Action :=
| Act_wrapper
| Act_timeout
| Act_host
| Act_tick (ms : N)
| Act_world (h : Host).

(** After a fault nothing runs any more. *)
Definition step (onHostThread : bool) (call : APICall) (sys : System) (a : Action) : System :=
  match sys_fault sys with
  | Some _ => sys
  | None =>
      match a with
      | Act_wrapper => wrapper_step onHostThread call sys
      | Act_timeout => wait_times_out sys
      | Act_host => host_step sys
      | Act_tick ms =>
          MkSystem (sys_host sys) (sys_promise sys) (sys_queue sys) (sys_pc sys) (sys_out sys)
            (sys_now sys + Z.of_N ms) (sys_deadline sys) (sys_fault sys) (sys_ran sys)
      | Act_world h =>
          MkSystem h (sys_promise sys) (sys_queue sys) (sys_pc sys) (sys_out sys)
            (sys_now sys) (sys_deadline sys) (sys_fault sys) (sys_ran sys)
      end
  end.

(** A schedule, run from left to right. *)
Definition run (onHostThread : bool) (call : APICall) (schedule : list Action)
    (sys : System) : System :=
  fold_left (step onHostThread call) schedule sys.

(** The code a body stored in its promise. *)
Definition result_code (o : Outcome) : option mumble_error_t :=
  match o with
  | Returned _ _ p => m_promise p
  | Faulted _ => None
  end.

(** The result of the body as it ran: [None] when it has not run, when it
    found the promise cancelled, or when it faulted. *)
Definition real_of (call : APICall) (ran : option (Host * APIPromise)) :
    option mumble_error_t :=
  match ran with
  | Some (h, p) => if isCancelled p then None else result_code (dispatch call h p)
  | None => None
  end.

Definition real_result (call : APICall) (sys : System) : option mumble_error_t :=
  real_of call (sys_ran sys).

(** ** Vocabulary of the statements *)

(** The promise of a call that has stored [code] and was not cancelled. *)
Definition fulfilled (code : mumble_error_t) : APIPromise :=
  {| m_promise := Some code; m_cancelled := false |}.

(** The entry points that only read: the getters, the predicates and the
    two finders. *)
Definition is_read_only (call : APICall) : bool :=
  match call with
  | Call_getActiveServerConnection_v_1_0_x _
  | Call_isConnectionSynchronized_v_1_0_x _ _
  | Call_getLocalUserID_v_1_0_x _ _
  | Call_getUserName_v_1_0_x _ _ _
  | Call_getChannelName_v_1_0_x _ _ _
  | Call_getAllUsers_v_1_0_x _ _
  | Call_getAllChannels_v_1_0_x _ _
  | Call_getChannelOfUser_v_1_0_x _ _ _
  | Call_getUsersInChannel_v_1_0_x _ _ _
  | Call_getLocalUserTransmissionMode_v_1_0_x _
  | Call_isUserLocallyMuted_v_1_0_x _ _ _
  | Call_isLocalUserMuted_v_1_0_x _
  | Call_isLocalUserDeafened_v_1_0_x _
  | Call_getUserHash_v_1_0_x _ _ _
  | Call_getServerHash_v_1_0_x _ _
  | Call_getUserComment_v_1_0_x _ _ _
  | Call_getChannelDescription_v_1_0_x _ _ _
  | Call_findUserByName_v_1_0_x _ _ _
  | Call_findChannelByName_v_1_0_x _ _ _
  | Call_getMumbleSetting_bool_v_1_0_x _ _
  | Call_getMumbleSetting_int_v_1_0_x _ _
  | Call_getMumbleSetting_double_v_1_0_x _ _
  | Call_getMumbleSetting_string_v_1_0_x _ _ => true
  | _ => false
  end.

(** The buffer an out-parameter points to, if it points to one. *)
Definition returned_buffer (out : OutParam) : option Z :=
  match out with
  | Out_string ptr => Some ptr
  | Out_array ptr _ => Some ptr
  | _ => None
  end.

(** The bytes a caller reads from a string buffer: those up to and
    including the first terminator.  [None] when the read meets a cell that
    no statement has written, or the end of the block: what is read is then
    not determined by the program. *)
Fixpoint read_string (cells : list (option ascii)) : option (list ascii) :=
  match cells with
  | [] => None
  | None :: _ => None
  | Some c :: rest =>
      if Ascii.eqb c NUL then Some [c]
      else match read_string rest with
           | Some bytes => Some (c :: bytes)
           | None => None
           end
  end.

(** The [count] elements a caller reads from an array buffer; [None] when
    the block has fewer. *)
Definition read_array (ids : list Z) (count : nat) : option (list Z) :=
  if (count <=? length ids)%nat then Some (take count ids) else None.

(** What the caller can read through the out-parameters: scalars as they
    are, buffers by what is read from them instead of their address.  For a
    buffer [None] stands for a read that is not determined: no block at the
    address, a block of the other kind, or a read as described above. *)
Inductive Observation :=
| Obs_scalar (out : OutParam)
| Obs_string (content : option (list ascii))
| Obs_array (content : option (list Z)) (count : nat).

Definition observe (h : Host) (out : OutParam) : Observation :=
  match out with
  | Out_string ptr =>
      Obs_string
        match heap h !! ptr with
        | Some (CharArray cells) => read_string cells
        | _ => None
        end
  | Out_array ptr count =>
      Obs_array
        match heap h !! ptr with
        | Some (IDArray ids) => read_array ids count
        | _ => None
        end
        count
  | _ => Obs_scalar out
  end.

(** Every byte and element of the observation was written by the program. *)
Definition determined (obs : Observation) : bool :=
  match obs with
  | Obs_string None | Obs_array None _ => false
  | _ => true
  end.

(** The backing state of the read-only calls: everything but the curator,
    the heap and the trace. *)
Definition same_backing (h1 h2 : Host) : Prop :=
  pluginManager h1 = pluginManager h2 /\ sh h1 = sh h2 /\ uiSession h1 = uiSession h2 /\
  s h1 = s h2 /\ mw h1 = mw h2 /\ ao h1 = ao h2 /\ db h1 = db h2 /\
  c_qmUsers h1 = c_qmUsers h2 /\ c_qhChannels h1 = c_qhChannels h2 /\
  overwriteMicrophoneActivation h1 = overwriteMicrophoneActivation h2.

(** The connection argument, the cached text and the blob hash that a read
    of a blob-style field addresses. *)
Definition blob_field (h : Host) (call : APICall) : option (Z * string * string) :=
  match call with
  | Call_getUserComment_v_1_0_x _ connection userID =>
      match ClientUser_get h userID with
      | Some user => Some (connection, qsComment user, qbaCommentHash user)
      | None => None
      end
  | Call_getChannelDescription_v_1_0_x _ connection channelID =>
      match Channel_get h channelID with
      | Some channel => Some (connection, qsDesc channel, qbaDescHash channel)
      | None => None
      end
  | _ => None
  end.

(** The host has a connection with this id and has synchronized. *)
Definition connected (h : Host) (connection : Z) : Prop :=
  (exists handler, sh h = Some handler /\ getConnectionID handler = connection) /\
  uiSession h <> 0%Z.

(** The four types of the typed settings accessors. *)
Inductive SettingType := ST_bool | ST_int | ST_double | ST_string.

Definition metatype_of (t : SettingType) : QMetaType :=
  match t with
  | ST_bool => QMetaType_Bool
  | ST_int => QMetaType_Int
  | ST_double => QMetaType_Double
  | ST_string => QMetaType_QString
  end.

Definition getter_call (t : SettingType) (callerID : Z) (key : mumble_settings_key_t) : APICall :=
  match t with
  | ST_bool => Call_getMumbleSetting_bool_v_1_0_x callerID key
  | ST_int => Call_getMumbleSetting_int_v_1_0_x callerID key
  | ST_double => Call_getMumbleSetting_double_v_1_0_x callerID key
  | ST_string => Call_getMumbleSetting_string_v_1_0_x callerID key
  end.

(** ** The noise-suppression migration of [Settings::load] *)

(** [std::min(a, b)] *)
Definition std_min (a b : Z) : Z := if (b <? a)%Z then b else a.

(** [SAVELOAD(var, name)] for an [int] variable:
    [var = qvariant_cast< int >(settings_ptr->value(name, var))].  The store
    maps a key to the [int] that its entry converts to; the variant of the
    macro for macOS, which skips an entry that reads ["@Variant("], agrees
    with this one on such stores. *)
Definition SAVELOAD_int (settings_ptr : gmap string Z) (var : Z) (name : string) : Z :=
  default var (settings_ptr !! name).

(** The statements of [Settings::load] (the overload that takes the store) that read or write
    [iSpeexNoiseCancelStrength]. *)
Definition load_noise_suppression (settings_ptr : gmap string Z) (st : Settings) : Settings :=
  let oldNoiseSuppress := 0%Z in
  let oldNoiseSuppress := SAVELOAD_int settings_ptr oldNoiseSuppress "audio/noisesupress" in
  let loaded :=
    SAVELOAD_int settings_ptr (iSpeexNoiseCancelStrength st) "audio/speexNoiseCancelStrength" in
  MkSettings (atTransmit st) (bMute st) (bDeaf st) (iVoiceHold st) (fVADmin st) (fVADmax st)
    (fAudioMinDistance st) (fAudioMaxDistance st) (fAudioBloom st) (fAudioMaxDistVolume st)
    (std_min oldNoiseSuppress loaded).

(** ** A concrete host for the examples *)

Definition example_settings : Settings :=
  MkSettings VAD false false 20 float_one float_one float_one float_one float_one float_one (-30).

Definition alice : ClientUser :=
  MkClientUser "Alice" "a1b2" "" "" (Some 0%Z) false.

(** Bob has a comment whose blob has not arrived yet. *)
Definition bob : ClientUser :=
  MkClientUser "Bob" "c3d4" "" "9f" (Some 0%Z) false.

Definition root_channel : Channel :=
  MkChannel "Root" "" "77" [42%Z; 43%Z].

(** Plugin 3 is registered, the connection has id 1 and is synchronized,
    the local user is 42, the blob database is empty, and the curator
    tracks one buffer at address 16 that a call of plugin 3 registered. *)
Definition example_host : Host :=
  MkHost {[ 3%Z := MkPlugin "Positional" ]}
    (Some (MkServerHandler 1 ["171"%char; "205"%char] 66560))
    42 example_settings (Some (MkMainWindow (Some TheUserModel)))
    (Some (MkAudioOutput (fun _ _ _ => true)))
    (Some (MkDatabase (fun _ => ""%string)))
    [(42%Z, alice); (43%Z, bob)] [(0%Z, root_channel)] false
    {[ 16%Z := MkEntry defaultDeleter 3 "getUserName" ]}
    {[ 16%Z := string_block "Alice" ]} [].

(** The state [example_host] is in after plugin 3 has read the name of
    user 42: a second copy of the name lives at address 17. *)
Definition example_after : Host :=
  curate 17 3 "getUserName"
    (set_heap (<[17%Z := string_block "Alice"]> (heap example_host)) example_host).

(** A user whose name holds a NUL character between an A and a B, and
    [example_host] with this user under the id 44. *)
Definition nul_name : string :=
  String "A"%char (String NUL (String "B"%char EmptyString)).

Definition carol : ClientUser :=
  MkClientUser nul_name "e5f6" "" "" (Some 0%Z) false.

Definition nul_host : Host :=
  set_c_qmUsers (c_qmUsers example_host ++ [(44%Z, carol)]) example_host.

(** A schedule on which the body finishes after the wait has timed out but
    before the wrapper cancels. *)
Definition race_schedule : list Action :=
  [Act_wrapper; Act_tick 800; Act_wrapper; Act_host; Act_wrapper; Act_wrapper; Act_wrapper].

(** A schedule on which the body finishes in time, yet the first wait, woken
    after its deadline, reports a timeout. *)
Definition overslept_schedule : list Action :=
  [Act_wrapper; Act_host; Act_tick 900; Act_timeout; Act_wrapper; Act_wrapper; Act_wrapper].

(** A schedule on which the host thread gets to the body only after the
    wrapper has cancelled. *)
Definition late_schedule : list Action :=
  [Act_wrapper; Act_tick 801; Act_wrapper; Act_wrapper; Act_wrapper; Act_wrapper;
   Act_host; Act_wrapper; Act_wrapper].

(** ** The invariant of a wrapper call

    [now0] is the time at which the wrapper was entered. *)
Record Inv (call : APICall) (now0 : Z) (sys : System) : Prop := MkInv {
  inv_fault : sys_fault sys <> Some promise_already_satisfied;
  inv_dead :
    sys_fault sys <> None ->
    real_of call (sys_ran sys) = None /\ (sys_pc sys = W_wait_800 \/ sys_pc sys = W_cancel);
  inv_queue :
    forall c, sys_queue sys = Some c -> c = posted call /\ sys_ran sys = None;
  inv_value :
    sys_fault sys = None ->
    match real_of call (sys_ran sys) with
    | Some v => m_promise (sys_promise sys) = Some v
    | None =>
        match sys_pc sys with
        | W_get | W_returned _ =>
            m_promise (sys_promise sys) = Some MUMBLE_EC_API_REQUEST_TIMEOUT /\
            m_cancelled (sys_promise sys) = true
        | _ => m_promise (sys_promise sys) = None
        end
    end;
  inv_pc :
    sys_fault sys = None ->
    match sys_pc sys with
    | W_invoke =>
        sys_promise sys = Promise.make /\ sys_queue sys = None /\ sys_ran sys = None
    | W_wait_800 | W_cancel => m_cancelled (sys_promise sys) = false
    | W_wait_0 => m_cancelled (sys_promise sys) = true
    | W_set_timeout =>
        m_cancelled (sys_promise sys) = true /\ real_of call (sys_ran sys) = None
    | W_get => True
    | W_returned code => m_promise (sys_promise sys) = Some code
    end;
  inv_clock : (now0 <= sys_now sys)%Z;
  inv_deadline : sys_pc sys <> W_invoke -> (now0 + WAIT_MS <= sys_deadline sys)%Z;
  inv_timeout :
    sys_pc sys = W_cancel \/ m_cancelled (sys_promise sys) = true ->
    (sys_deadline sys <= sys_now sys)%Z
}.

(** ** Vocabulary of the further properties *)

(** The connection handle a call passes to [VERIFY_CONNECTION]. *)
Definition connection_of (call : APICall) : option Z :=
  match call with
  | Call_isConnectionSynchronized_v_1_0_x _ c | Call_getLocalUserID_v_1_0_x _ c
  | Call_getUserName_v_1_0_x _ c _ | Call_getChannelName_v_1_0_x _ c _
  | Call_getAllUsers_v_1_0_x _ c | Call_getAllChannels_v_1_0_x _ c
  | Call_getChannelOfUser_v_1_0_x _ c _ | Call_getUsersInChannel_v_1_0_x _ c _
  | Call_isUserLocallyMuted_v_1_0_x _ c _ | Call_getUserHash_v_1_0_x _ c _
  | Call_getServerHash_v_1_0_x _ c | Call_getUserComment_v_1_0_x _ c _
  | Call_getChannelDescription_v_1_0_x _ c _ | Call_requestUserMove_v_1_0_x _ c _ _ _
  | Call_requestLocalMute_v_1_0_x _ c _ _ | Call_requestSetLocalUserComment_v_1_0_x _ c _
  | Call_findUserByName_v_1_0_x _ c _ | Call_findChannelByName_v_1_0_x _ c _
  | Call_sendData_v_1_0_x _ c _ _ _ => Some c
  | _ => None
  end.

(** The calls that use [ENSURE_CONNECTION_SYNCHRONIZED]: those with a
    connection handle, but for [isConnectionSynchronized]. *)
Definition ensures_synchronized (call : APICall) : bool :=
  match call with
  | Call_isConnectionSynchronized_v_1_0_x _ _ => false
  | _ => match connection_of call with Some _ => true | None => false end
  end.

(** The two reads of a blob-style field. *)
Definition reads_blob (call : APICall) : bool :=
  match call with
  | Call_getUserComment_v_1_0_x _ _ _ | Call_getChannelDescription_v_1_0_x _ _ _ => true
  | _ => false
  end.

(** The sample a playback call asks for. *)
Definition played_sample (call : APICall) : option (string * float) :=
  match call with
  | Call_playSample_v_1_0_x _ samplePath => Some (samplePath, float_one)
  | Call_playSample_v_1_2_x _ samplePath volume => Some (samplePath, volume)
  | _ => None
  end.

(** The curator and the heap agree: the tracked addresses are the allocated
    ones, and every entry names a registered plugin. *)
Definition curator_consistent (h : Host) : Prop :=
  (forall ptr, is_Some (m_entries h !! ptr) <-> is_Some (heap h !! ptr)) /\
  (forall ptr entry,
     m_entries h !! ptr = Some entry ->
     pluginExists (pluginManager h) (m_pluginID entry) = true).

(** [example_host] before the server has synchronized: the session id is
    still zero. *)
Definition connecting_host : Host :=
  MkHost (pluginManager example_host) (sh example_host) 0 (s example_host)
    (mw example_host) (ao example_host) (db example_host)
    (c_qmUsers example_host) (c_qhChannels example_host)
    (overwriteMicrophoneActivation example_host)
    (m_entries example_host) (heap example_host) (trace example_host).

(** The host state that activity of the host thread outside the call leaves
    behind: the state of the last [Act_world] of a schedule. *)
Definition world_after (schedule : list Action) (h : Host) : Host :=
  fold_left (fun h0 a => match a with Act_world h' => h' | _ => h0 end) schedule h.

(** The caller's out-parameters are untouched for as long as the body has
    not run. *)
Definition out_unwritten (sys : System) : Prop :=
  sys_ran sys = None -> sys_out sys = NotWritten.

(** A call made on the host thread has run its body, to a result, by the
    time the wrapper waits. *)
Definition ran_at_once (call : APICall) (sys : System) : Prop :=
  sys_pc sys <> W_invoke -> sys_fault sys = None ->
  is_Some (real_of call (sys_ran sys)).

(** [MumbleAPICurator::~MumbleAPICurator]: for every entry, in the order of
    the container, run the stored deleter on the pointer and print which
    plugin leaked memory from which function.  The result is the heap and
    the lines printed, each given by its plugin id and function name. *)
Definition destroy_curator (m_entries : gmap Z Entry) (heap : gmap Z Block) :
    gmap Z Block * list (Z * string) :=
  fold_left
    (fun state current =>
       let entry := snd current in
       (Curator.run_deleter (m_deleter entry) (fst current) (fst state),
        snd state ++ [(m_pluginID entry, m_sourceFunctionName entry)]))
    (map_to_list m_entries) (heap, []).

(** ** [Settings::save] of the noise-suppression strength *)

(** [def.iSpeexNoiseCancelStrength] of the default-constructed [Settings]
    that [Settings::save] compares with. *)
Definition def_iSpeexNoiseCancelStrength : Z := -30.

(** [SAVELOAD(var, name)] of [Settings::save] for an [int] variable:
    [if (var != def.var) setValue(name, var); else remove(name)] *)
Definition SAVELOAD_save_int (settings_ptr : gmap string Z) (var def : Z) (name : string) :
    gmap string Z :=
  if negb (var =? def)%Z then <[name := var]> settings_ptr else delete name settings_ptr.

(** The statement of [Settings::save] that writes [iSpeexNoiseCancelStrength];
    no statement of it names the legacy key. *)
Definition save_noise_suppression (settings_ptr : gmap string Z) (st : Settings) :
    gmap string Z :=
  SAVELOAD_save_int settings_ptr (iSpeexNoiseCancelStrength st) def_iSpeexNoiseCancelStrength
    "audio/speexNoiseCancelStrength".

(** [def.iFramesPerPacket] *)
Definition def_iFramesPerPacket : Z := 2.

(** * Properties *)

Create HintDb api discriminated.

#[local] Hint Unfold
  freeMemory_v_1_0_x getActiveServerConnection_v_1_0_x isConnectionSynchronized_v_1_0_x
  getLocalUserID_v_1_0_x getUserName_v_1_0_x getChannelName_v_1_0_x getAllUsers_v_1_0_x
  getAllChannels_v_1_0_x getChannelOfUser_v_1_0_x getUsersInChannel_v_1_0_x
  getLocalUserTransmissionMode_v_1_0_x isUserLocallyMuted_v_1_0_x isLocalUserMuted_v_1_0_x
  isLocalUserDeafened_v_1_0_x getUserHash_v_1_0_x getServerHash_v_1_0_x
  requestLocalUserTransmissionMode_v_1_0_x getUserComment_v_1_0_x
  getChannelDescription_v_1_0_x requestUserMove_v_1_0_x
  requestMicrophoneActivationOverwrite_v_1_0_x requestLocalMute_v_1_0_x
  requestLocalUserMute_v_1_0_x requestLocalUserDeaf_v_1_0_x
  requestSetLocalUserComment_v_1_0_x findUserByName_v_1_0_x findChannelByName_v_1_0_x
  getMumbleSetting_bool_v_1_0_x getMumbleSetting_int_v_1_0_x getMumbleSetting_double_v_1_0_x
  getMumbleSetting_string_v_1_0_x setMumbleSetting setMumbleSetting_bool_v_1_0_x
  setMumbleSetting_int_v_1_0_x setMumbleSetting_double_v_1_0_x
  setMumbleSetting_string_v_1_0_x sendData_v_1_0_x log_v_1_0_x playSample_v_1_2_x
  playSample_v_1_0_x : api.

(** Unfold the body that a concrete call dispatches to. *)
Ltac open_entry := cbn [dispatch]; autounfold with api.

(** ** The promise and the guards *)

Lemma EXIT_WITH_make code h out :
  EXIT_WITH code h out Promise.make = Returned h out (fulfilled code).
Proof. reflexivity. Qed.

Lemma UNLESS_CANCELLED_make h rest : UNLESS_CANCELLED h Promise.make rest = rest.
Proof. reflexivity. Qed.

Lemma UNLESS_CANCELLED_cancelled h p rest :
  isCancelled p = true -> UNLESS_CANCELLED h p rest = Returned h NotWritten p.
Proof. intros Hc. unfold UNLESS_CANCELLED. now rewrite Hc. Qed.

Lemma VERIFY_PLUGIN_ID_unknown id h p rest :
  pluginExists (pluginManager h) id = false ->
  VERIFY_PLUGIN_ID id h p rest = EXIT_WITH MUMBLE_EC_INVALID_PLUGIN_ID h NotWritten p.
Proof. intros Hid. unfold VERIFY_PLUGIN_ID. now rewrite Hid. Qed.

Lemma VERIFY_PLUGIN_ID_known id h p rest :
  pluginExists (pluginManager h) id = true -> VERIFY_PLUGIN_ID id h p rest = rest.
Proof. intros Hid. unfold VERIFY_PLUGIN_ID. now rewrite Hid. Qed.

Lemma getPlugin_unknown (registry : gmap Z Plugin) id :
  pluginExists registry id = false -> getPlugin registry id = None.
Proof.
  unfold pluginExists, getPlugin. intros H.
  apply bool_decide_eq_false in H.
  destruct (registry !! id) eqn:E; [|reflexivity].
  exfalso. apply H. eauto.
Qed.

Lemma checks_pass connection h p rest :
  connected h connection ->
  VERIFY_CONNECTION connection h p (ENSURE_CONNECTION_SYNCHRONIZED h p rest) = rest.
Proof.
  intros [(handler & Hsh & Hid) Hsync].
  unfold VERIFY_CONNECTION, ENSURE_CONNECTION_SYNCHRONIZED.
  rewrite Hsh, Hid, Z.eqb_refl. cbn.
  destruct (Z.eqb_spec (uiSession h) 0); [contradiction | reflexivity].
Qed.

(** ** Cancellation (C3) *)

(** The cancellation check is the first statement of every body. *)
Lemma dispatch_cancelled call h p :
  isCancelled p = true -> dispatch call h p = Returned h NotWritten p.
Proof.
  intros Hc. destruct call; open_entry; now rewrite UNLESS_CANCELLED_cancelled.
Qed.

(** C3.  Every entry point whose body finds the promise cancelled when it
    holds the lock returns at once: the host state (curator, heap, settings,
    tables, trace of collaborator calls) is the one it started from, no
    out-parameter is written, and the promise is as it was, so [set_value]
    was not called. *)
Theorem cancelled_call_is_abandoned (call : APICall) (h : Host) (p : APIPromise) :
  isCancelled p = true ->
  dispatch call h p = Returned h NotWritten p /\
  match dispatch call h p with
  | Returned h' out p' =>
      m_entries h' = m_entries h /\ heap h' = heap h /\ trace h' = trace h /\
      s h' = s h /\ out = NotWritten /\ m_promise p' = m_promise p
  | Faulted _ => False
  end.
Proof.
  intros Hc. rewrite (dispatch_cancelled _ _ _ Hc). repeat split; reflexivity.
Qed.

(** ** Plugin identity (C1, C10) *)

(** C1, as amended.  For every entry point other than [freeMemory], a call
    whose promise is not cancelled and whose plugin id is not registered
    stores [MUMBLE_EC_INVALID_PLUGIN_ID] in the promise and does nothing
    else: whatever the connection, the synchronization state, the tables
    and the arguments are, the host state is unchanged and no out-parameter
    is written. *)
Theorem unknown_plugin_is_rejected_first (call : APICall) (h : Host) :
  is_freeMemory call = false ->
  pluginExists (pluginManager h) (callerID_of call) = false ->
  dispatch call h Promise.make
  = Returned h NotWritten (fulfilled MUMBLE_EC_INVALID_PLUGIN_ID).
Proof.
  intros Hfree Hid.
  destruct call; try discriminate Hfree; open_entry; cbn [callerID_of] in Hid;
    rewrite UNLESS_CANCELLED_make;
    try (now rewrite VERIFY_PLUGIN_ID_unknown).
  now rewrite (getPlugin_unknown _ _ Hid).
Qed.

(** The result of [freeMemory] on a call that is not cancelled. *)
Lemma freeMemory_make callerID ptr h :
  freeMemory_v_1_0_x callerID ptr h Promise.make =
  match m_entries h !! ptr with
  | Some entry =>
      Returned
        (set_m_entries (delete ptr (m_entries h))
           (set_heap (Curator.run_deleter (m_deleter entry) ptr (heap h)) h))
        NotWritten (fulfilled MUMBLE_STATUS_OK)
  | None => Returned h NotWritten (fulfilled MUMBLE_EC_POINTER_NOT_FOUND)
  end.
Proof. unfold freeMemory_v_1_0_x. cbn. now destruct (m_entries h !! ptr). Qed.

(** C10.  [freeMemory] does not look at the caller id: any two caller ids
    give the same outcome, a tracked pointer is freed with
    [MUMBLE_STATUS_OK] whoever registered it and whether or not the caller
    is a registered plugin, and [MUMBLE_EC_POINTER_NOT_FOUND] is the result
    exactly when the pointer is not tracked. *)
Theorem freeMemory_ignores_caller (callerID ptr : Z) (h : Host) (p : APIPromise) :
  isCancelled p = false ->
  m_promise p = None ->
  (forall other : Z,
     dispatch (Call_freeMemory_v_1_0_x other ptr) h p
     = dispatch (Call_freeMemory_v_1_0_x callerID ptr) h p) /\
  (is_Some (m_entries h !! ptr) ->
     result_code (dispatch (Call_freeMemory_v_1_0_x callerID ptr) h p)
     = Some MUMBLE_STATUS_OK) /\
  (result_code (dispatch (Call_freeMemory_v_1_0_x callerID ptr) h p)
   = Some MUMBLE_EC_POINTER_NOT_FOUND <-> m_entries h !! ptr = None).
Proof.
  intros Hc Hv. destruct p as [v c]; cbn in Hc, Hv; subst.
  change (MkPromise None false) with Promise.make.
  split; [reflexivity|]. cbn [dispatch]. rewrite freeMemory_make.
  destruct (m_entries h !! ptr) as [entry|]; cbn.
  - split; [reflexivity|]. split; discriminate.
  - split; [intros [? ?]; discriminate|]. split; reflexivity.
Qed.

(** ** Buffers and the curator (C4) *)

Lemma return_string_make qs callerID name h :
  return_string qs callerID name h Promise.make =
  Returned
    (curate (Curator.malloc (heap h)) callerID name
       (set_heap (<[Curator.malloc (heap h) := string_block qs]> (heap h)) h))
    (Out_string (Curator.malloc (heap h))) (fulfilled MUMBLE_STATUS_OK).
Proof. reflexivity. Qed.

Lemma return_array_make ids callerID name h :
  return_array ids callerID name h Promise.make =
  Returned
    (curate (Curator.malloc (heap h)) callerID name
       (set_heap (<[Curator.malloc (heap h) := IDArray ids]> (heap h)) h))
    (Out_array (Curator.malloc (heap h)) (length ids)) (fulfilled MUMBLE_STATUS_OK).
Proof. reflexivity. Qed.

Lemma malloc_fresh (heap : gmap Z Block) : heap !! Curator.malloc heap = None.
Proof.
  apply not_elem_of_dom. unfold Curator.malloc.
  pose proof (is_fresh ({[0%Z]} ∪ dom heap)) as H. set_solver.
Qed.

Lemma malloc_not_null (heap : gmap Z Block) : Curator.malloc heap <> 0%Z.
Proof.
  unfold Curator.malloc.
  pose proof (is_fresh ({[0%Z]} ∪ dom heap)) as H. set_solver.
Qed.

Lemma insert_tracked ptr e (m : gmap Z Entry) : is_Some (Curator.insert ptr e m !! ptr).
Proof.
  unfold Curator.insert. destruct (m !! ptr) eqn:E.
  - rewrite E. eauto.
  - rewrite lookup_insert_eq. eauto.
Qed.

Lemma curate_tracked ptr callerID name h :
  is_Some (m_entries (curate ptr callerID name h) !! ptr).
Proof. unfold curate. cbn. apply insert_tracked. Qed.

(** Unfold the guards and the exits of a body run with a fresh promise. *)
Ltac open_paths :=
  unfold UNLESS_CANCELLED, VERIFY_PLUGIN_ID, VERIFY_CONNECTION,
    ENSURE_CONNECTION_SYNCHRONIZED, return_string, return_array, allocate, EXIT_WITH;
  cbn [isCancelled set_value Promise.make m_promise m_cancelled].

(** Split a body into its paths: the guards and every test on the way. *)
Ltac split_paths H :=
  repeat match type of H with
  | context [match ?x with _ => _ end] => destruct x eqn:?
  | context [if ?x then _ else _] => destruct x eqn:?
  end.

Lemma returned_buffer_is_tracked call h h1 out p1 ptr :
  dispatch call h Promise.make = Returned h1 out p1 ->
  returned_buffer out = Some ptr ->
  is_Some (m_entries h1 !! ptr).
Proof.
  intros Hrun Hbuf.
  destruct call; revert Hrun; open_entry; open_paths; intros Hrun;
    split_paths Hrun; try discriminate Hrun;
    inversion Hrun; subst; cbn in Hbuf; try discriminate Hbuf;
    inversion Hbuf; subst; apply curate_tracked.
Qed.

(** C4.  The pointer that a successful string- or array-returning call
    hands out is tracked by the curator.  Freeing it, under any caller id,
    runs the deleter stored for it (the block leaves the heap), removes its
    entry and stores [MUMBLE_STATUS_OK].  After that the pointer is not
    tracked, and freeing a pointer that is not tracked - in particular the
    same pointer a second time - stores [MUMBLE_EC_POINTER_NOT_FOUND] and
    leaves the curator and the rest of the host state as they are. *)
Theorem returned_pointer_is_freed_once
    (call : APICall) (h h1 : Host) (out : OutParam) (p1 : APIPromise) (ptr c1 c2 : Z) :
  dispatch call h Promise.make = Returned h1 out p1 ->
  m_promise p1 = Some MUMBLE_STATUS_OK ->
  returned_buffer out = Some ptr ->
  exists (entry : Entry) (h2 : Host),
    m_entries h1 !! ptr = Some entry /\
    dispatch (Call_freeMemory_v_1_0_x c1 ptr) h1 Promise.make
    = Returned h2 NotWritten (fulfilled MUMBLE_STATUS_OK) /\
    heap h2 = Curator.run_deleter (m_deleter entry) ptr (heap h1) /\
    heap h2 !! ptr = None /\
    m_entries h2 = delete ptr (m_entries h1) /\
    m_entries h2 !! ptr = None /\
    dispatch (Call_freeMemory_v_1_0_x c2 ptr) h2 Promise.make
    = Returned h2 NotWritten (fulfilled MUMBLE_EC_POINTER_NOT_FOUND) /\
    (forall (h' : Host) (q c : Z),
       m_entries h' !! q = None ->
       dispatch (Call_freeMemory_v_1_0_x c q) h' Promise.make
       = Returned h' NotWritten (fulfilled MUMBLE_EC_POINTER_NOT_FOUND)).
Proof.
  intros Hrun _ Hbuf.
  destruct (returned_buffer_is_tracked _ _ _ _ _ _ Hrun Hbuf) as [entry Hentry].
  assert (Huntracked : forall (h' : Host) (q c : Z),
             m_entries h' !! q = None ->
             dispatch (Call_freeMemory_v_1_0_x c q) h' Promise.make
             = Returned h' NotWritten (fulfilled MUMBLE_EC_POINTER_NOT_FOUND)).
  { intros h' q c Hq. cbn [dispatch]. now rewrite freeMemory_make, Hq. }
  eexists entry, _. split; [exact Hentry|].
  split; [cbn [dispatch]; rewrite freeMemory_make, Hentry; reflexivity|].
  cbn [heap m_entries set_m_entries set_heap].
  split; [reflexivity|].
  split; [destruct (m_deleter entry); apply lookup_delete_eq|].
  split; [reflexivity|].
  split; [apply lookup_delete_eq|].
  split; [|exact Huntracked].
  apply Huntracked. cbn. apply lookup_delete_eq.
Qed.

(** ** Typed settings access (C5) *)

(** C5.  A typed getter called by a registered plugin on a key without a
    value ([MUMBLE_SK_INVALID] or a number outside the enumeration) stores
    [MUMBLE_EC_UNKNOWN_SETTINGS_KEY]; on a key whose live value has another
    type than the accessor it stores [MUMBLE_EC_WRONG_SETTINGS_TYPE].  In
    both cases the host state is unchanged and the out-parameter is not
    written.  In particular a key whose value is a double, read through the
    int accessor, gives [MUMBLE_EC_WRONG_SETTINGS_TYPE]. *)
Theorem typed_getter_checks_type
    (t : SettingType) (callerID : Z) (key : mumble_settings_key_t) (h : Host) :
  pluginExists (pluginManager h) callerID = true ->
  let value := getMumbleSettingHelper (s h) key in
  (isValid value = false ->
     dispatch (getter_call t callerID key) h Promise.make
     = Returned h NotWritten (fulfilled MUMBLE_EC_UNKNOWN_SETTINGS_KEY)) /\
  (isValid value = true -> QVariant_type value <> metatype_of t ->
     dispatch (getter_call t callerID key) h Promise.make
     = Returned h NotWritten (fulfilled MUMBLE_EC_WRONG_SETTINGS_TYPE)) /\
  (QVariant_type value = QMetaType_Double ->
     dispatch (Call_getMumbleSetting_int_v_1_0_x callerID key) h Promise.make
     = Returned h NotWritten (fulfilled MUMBLE_EC_WRONG_SETTINGS_TYPE)).
Proof.
  intros Hid value. subst value.
  repeat split.
  - intros Hinvalid. destruct t; cbn [getter_call]; open_entry; rewrite UNLESS_CANCELLED_make;
      rewrite (VERIFY_PLUGIN_ID_known _ _ _ _ Hid); cbn zeta; now rewrite Hinvalid.
  - intros Hvalid Htype. destruct t; cbn [getter_call]; open_entry; rewrite UNLESS_CANCELLED_make;
      rewrite (VERIFY_PLUGIN_ID_known _ _ _ _ Hid); cbn zeta; rewrite Hvalid; cbn [negb];
      unfold IS_NOT_TYPE; rewrite bool_decide_eq_false_2 by exact Htype; reflexivity.
  - intros Hdouble. open_entry. rewrite UNLESS_CANCELLED_make.
    rewrite (VERIFY_PLUGIN_ID_known _ _ _ _ Hid). cbn zeta.
    destruct (getMumbleSettingHelper (s h) key); try discriminate Hdouble. reflexivity.
Qed.

(** The pattern matching of [setMumbleSettingHelper] is the test of
    [IS_TYPE]. *)
Lemma IS_TYPE_Int value :
  IS_TYPE value QMetaType_Int = true <-> exists n, value = QV_Int n.
Proof.
  unfold IS_TYPE. rewrite bool_decide_eq_true.
  destruct value; cbn; split; intros H; try discriminate H; eauto;
    destruct H as [? H]; discriminate H.
Qed.

Lemma IS_TYPE_Double value :
  IS_TYPE value QMetaType_Double = true <-> exists d, value = QV_Double d.
Proof.
  unfold IS_TYPE. rewrite bool_decide_eq_true.
  destruct value; cbn; split; intros H; try discriminate H; eauto;
    destruct H as [? H]; discriminate H.
Qed.

(** The setters check the type as well: a value of another type than the
    key, or an unknown key, leaves the settings as they are. *)
Lemma setMumbleSettingHelper_rejects st key value :
  QVariant_type value <> QVariant_type (getMumbleSettingHelper st key) ->
  setMumbleSettingHelper st key value
  = (st, if isValid (getMumbleSettingHelper st key)
         then MUMBLE_EC_WRONG_SETTINGS_TYPE else MUMBLE_EC_UNKNOWN_SETTINGS_KEY).
Proof.
  intros Htype. destruct key, value; cbn in *; try reflexivity; congruence.
Qed.

(** An [int64_t] given to the int setter never has the type of the int key. *)
Lemma setMumbleSetting_int_voice_hold callerID value h :
  pluginExists (pluginManager h) callerID = true ->
  dispatch (Call_setMumbleSetting_int_v_1_0_x callerID MUMBLE_SK_AUDIO_INPUT_VOICE_HOLD value)
    h Promise.make
  = Returned (set_s (s h) h) NotWritten (fulfilled MUMBLE_EC_WRONG_SETTINGS_TYPE).
Proof.
  intros Hid. open_entry. rewrite UNLESS_CANCELLED_make.
  now rewrite (VERIFY_PLUGIN_ID_known _ _ _ _ Hid).
Qed.

(** ** Blobs (C6) *)

Lemma table_set_same {A} id (v : A) table :
  table_get id table = Some v -> table_set id v table = table.
Proof.
  induction table as [|[k w] rest IH]; cbn; [reflexivity|].
  destruct (Z.eqb_spec k id); intros H.
  - now inversion H.
  - now rewrite IH.
Qed.

Lemma isEmpty_true qs : isEmpty qs = true -> qs = EmptyString.
Proof. now destruct qs. Qed.

(** C6.  A read of a user comment or of a channel description, by a
    registered plugin on the synchronized connection, for a user or channel
    that exists, has a blob hash and no text yet, while the blob database
    has no text for that hash either, stores
    [MUMBLE_EC_UNSYNCHRONIZED_BLOB]: no string is returned, no buffer is
    allocated or registered, and the host state stays as it is. *)
Theorem unsynchronized_blob_is_reported
    (call : APICall) (h : Host) (connection : Z) (hash : string) (database : Database) :
  pluginExists (pluginManager h) (callerID_of call) = true ->
  blob_field h call = Some (connection, EmptyString, hash) ->
  connected h connection ->
  hash <> EmptyString ->
  db h = Some database ->
  blob database hash = EmptyString ->
  dispatch call h Promise.make
  = Returned h NotWritten (fulfilled MUMBLE_EC_UNSYNCHRONIZED_BLOB).
Proof.
  intros Hid Hfield Hconn Hhash Hdb Hblob.
  destruct call; try discriminate Hfield; cbn [blob_field callerID_of] in *; open_entry;
    rewrite UNLESS_CANCELLED_make, (VERIFY_PLUGIN_ID_known _ _ _ _ Hid).
  - destruct (ClientUser_get h userID) as [user|] eqn:Huser; [|discriminate].
    inversion Hfield as [[Hc Htext Hh]]. subst connection0.
    rewrite (checks_pass _ _ _ _ Hconn), Htext, Hh, Hdb. cbn.
    destruct hash; [contradiction|]. cbn. rewrite Hblob. cbn.
    unfold fulfilled. f_equal.
    unfold ClientUser_get in Huser.
    destruct h, user; cbn in *. unfold set_c_qmUsers; cbn. subst.
    now rewrite table_set_same.
  - destruct (Channel_get h channelID) as [channel|] eqn:Hchannel; [|discriminate].
    inversion Hfield as [[Hc Htext Hh]]. subst connection0.
    rewrite (checks_pass _ _ _ _ Hconn), Htext, Hh, Hdb. cbn.
    destruct hash; [contradiction|]. cbn. rewrite Hblob. cbn.
    unfold fulfilled. f_equal.
    unfold Channel_get in Hchannel.
    destruct h, channel; cbn in *. unfold set_c_qhChannels; cbn. subst.
    now rewrite table_set_same.
Qed.

(** Without a blob hash there is nothing to synchronize: the empty text is
    the answer. *)
Lemma no_comment_is_empty_string callerID connection userID h user :
  pluginExists (pluginManager h) callerID = true ->
  connected h connection ->
  ClientUser_get h userID = Some user ->
  qsComment user = EmptyString -> qbaCommentHash user = EmptyString ->
  exists h1 ptr,
    dispatch (Call_getUserComment_v_1_0_x callerID connection userID) h Promise.make
    = Returned h1 (Out_string ptr) (fulfilled MUMBLE_STATUS_OK) /\
    heap h1 !! ptr = Some (CharArray [Some NUL]).
Proof.
  intros Hid Hconn Huser Htext Hhash. open_entry.
  rewrite UNLESS_CANCELLED_make, (VERIFY_PLUGIN_ID_known _ _ _ _ Hid).
  rewrite (checks_pass _ _ _ _ Hconn), Huser, Htext, Hhash. cbn [isEmpty andb negb].
  rewrite return_string_make. eexists _, _. split; [reflexivity|].
  cbn. apply lookup_insert_eq.
Qed.

(** ** Versions of the sample playback (C8) *)

Lemma posted_dispatch call : dispatch (posted call) = dispatch call.
Proof. now destruct call. Qed.

Lemma step_playSample onHostThread callerID samplePath sys a :
  step onHostThread (Call_playSample_v_1_0_x callerID samplePath) sys a
  = step onHostThread (Call_playSample_v_1_2_x callerID samplePath float_one) sys a.
Proof. reflexivity. Qed.

(** C8.  [playSample_v_1_0_x] is [playSample_v_1_2_x] at the volume [1.0f]:
    for every plugin id, sample path, host state and promise the two bodies
    have the same outcome (host state with its trace of collaborator calls,
    out-parameter, promise), called from another thread they queue the same
    invocation, and so the two wrappers behave alike under every schedule. *)
Theorem playSample_v_1_0_is_v_1_2_at_volume_one
    (callerID : Z) (samplePath : string) (h : Host) (p : APIPromise)
    (onHostThread : bool) (schedule : list Action) (sys : System) :
  float_one = S754_finite false 8388608 (-23) /\
  dispatch (Call_playSample_v_1_0_x callerID samplePath) h p
  = dispatch (Call_playSample_v_1_2_x callerID samplePath float_one) h p /\
  posted (Call_playSample_v_1_0_x callerID samplePath)
  = posted (Call_playSample_v_1_2_x callerID samplePath float_one) /\
  run onHostThread (Call_playSample_v_1_0_x callerID samplePath) schedule sys
  = run onHostThread (Call_playSample_v_1_2_x callerID samplePath float_one) schedule sys.
Proof.
  split; [reflexivity|]. split; [reflexivity|]. split; [reflexivity|].
  unfold run. revert sys.
  induction schedule as [|a rest IH]; intros sys; cbn [fold_left]; [reflexivity|].
  now rewrite step_playSample, IH.
Qed.

(** ** Repeating a read (C7) *)

Lemma same_backing_refl h : same_backing h h.
Proof. unfold same_backing. tauto. Qed.

Lemma same_backing_trans h1 h2 h3 :
  same_backing h1 h2 -> same_backing h2 h3 -> same_backing h1 h3.
Proof. unfold same_backing. intuition congruence. Qed.

Lemma same_backing_allocated h ptr block callerID name :
  same_backing h (curate ptr callerID name (set_heap (<[ptr := block]> (heap h)) h)).
Proof. unfold same_backing. cbn. tauto. Qed.

Lemma c_str_has_no_NUL bytes c : In c (c_str bytes) -> Ascii.eqb c NUL = false.
Proof.
  induction bytes as [|b rest IH]; cbn; [tauto|].
  destruct (Ascii.eqb b NUL) eqn:Hb; cbn; [tauto|].
  intros [<-|Hin]; [exact Hb | now apply IH].
Qed.

Lemma read_string_written text tail :
  (forall c, In c text -> Ascii.eqb c NUL = false) ->
  read_string (map Some (text ++ [NUL]) ++ tail) = Some (text ++ [NUL]).
Proof.
  induction text as [|c rest IH]; intros Htext; cbn.
  - reflexivity.
  - rewrite (Htext c) by now left. rewrite IH; [reflexivity|].
    intros d Hd. apply Htext. now right.
Qed.

(** What [strcpy] has written is what a reader of the destination gets:
    the characters of the source before its first NUL, and the terminator. *)
Lemma read_string_strcpy dst src :
  read_string (strcpy dst src) = Some (c_str src ++ [NUL]).
Proof. unfold strcpy. apply read_string_written, c_str_has_no_NUL. Qed.

Lemma read_array_all ids : read_array ids (length ids) = Some ids.
Proof. unfold read_array. now rewrite Nat.leb_refl, firstn_all. Qed.

(** What a call that returned lets the caller read was written by it. *)
Lemma dispatch_determined call h h1 out p1 :
  dispatch call h Promise.make = Returned h1 out p1 ->
  determined (observe h1 out) = true.
Proof.
  intros Hrun.
  destruct call; revert Hrun; open_entry; open_paths; intros Hrun;
    split_paths Hrun; try discriminate Hrun; inversion Hrun; subst;
    try reflexivity;
    cbn [observe heap curate set_heap set_m_entries set_c_qmUsers set_c_qhChannels];
    rewrite lookup_insert_eq;
    first [ cbn [string_block]; rewrite read_string_strcpy; reflexivity
          | rewrite read_array_all; reflexivity ].
Qed.

(** Split the goal on a test that has no test inside. *)
Ltac split_goal :=
  repeat match goal with
  | |- context [match ?x with _ => _ end] =>
      lazymatch x with
      | context [match _ with _ => _ end] => fail
      | _ => destruct x eqn:?
      end
  end.

(** A read-only call sees only the backing state: on two hosts with the
    same backing state it stores the same code and lets the caller read
    the same values. *)
Lemma read_only_same_backing call ha hb :
  is_read_only call = true ->
  same_backing ha hb ->
  match dispatch call ha Promise.make, dispatch call hb Promise.make with
  | Returned h1 o1 p1, Returned h2 o2 p2 =>
      p1 = p2 /\ observe h1 o1 = observe h2 o2 /\ same_backing h1 h2
  | Faulted f1, Faulted f2 => f1 = f2
  | _, _ => False
  end.
Proof.
  intros Hro Hsame.
  destruct ha, hb. unfold same_backing in Hsame. cbn in Hsame.
  destruct Hsame as (? & ? & ? & ? & ? & ? & ? & ? & ? & ?). subst.
  destruct call; try discriminate Hro; open_entry; open_paths;
    unfold ClientUser_get, Channel_get;
    cbn [pluginManager sh uiSession s mw ao db c_qmUsers c_qhChannels heap];
    split_goal;
    try (split; [reflexivity | split; [| unfold same_backing; cbn; tauto]]);
    try reflexivity;
    cbn [observe heap curate set_heap set_m_entries set_c_qmUsers set_c_qhChannels].
  all: rewrite !lookup_insert_eq; reflexivity.
Qed.

Lemma table_get_set {A} id (v w : A) table :
  table_get id table = Some w -> table_get id (table_set id v table) = Some v.
Proof.
  induction table as [|[k x] rest IH]; cbn; [discriminate|].
  destruct (Z.eqb_spec k id) as [->|Hne]; intros H; cbn.
  - now rewrite Z.eqb_refl.
  - destruct (Z.eqb_spec k id); [contradiction|]. now apply IH.
Qed.

(** A successful read-only call, made again on the state it left behind,
    succeeds again with the same values to read. *)
Lemma read_only_repeat call ha h1 o1 p1 :
  is_read_only call = true ->
  dispatch call ha Promise.make = Returned h1 o1 p1 ->
  m_promise p1 = Some MUMBLE_STATUS_OK ->
  exists h2 o2,
    dispatch call h1 Promise.make = Returned h2 o2 (fulfilled MUMBLE_STATUS_OK) /\
    observe h1 o1 = observe h2 o2.
Proof.
  intros Hro Hrun Hok. destruct ha.
  destruct call; try discriminate Hro; revert Hrun; open_entry; open_paths;
    unfold ClientUser_get, Channel_get;
    cbn [pluginManager sh uiSession s mw ao db c_qmUsers c_qhChannels heap];
    intros Hrun; split_paths Hrun; try discriminate Hrun;
    inversion Hrun; subst; clear Hrun; try discriminate Hok;
    cbn [pluginManager sh uiSession s mw ao db c_qmUsers c_qhChannels heap
         curate set_heap set_m_entries set_c_qmUsers set_c_qhChannels
         qsComment qsDesc qbaCommentHash qbaDescHash];
    repeat match goal with
    | H : ?x = _ |- context [match ?x with _ => _ end] => rewrite H
    | H : table_get ?id ?t = Some _ |- context [table_get ?id (table_set ?id ?v ?t)] =>
        rewrite (table_get_set id v _ t H)
    end;
    (eexists _, _; split; [reflexivity|]);
    cbn [observe heap curate set_heap set_m_entries set_c_qmUsers set_c_qhChannels];
    rewrite ?lookup_insert_eq; reflexivity.
Qed.

(** Every body that returns after a run with a fresh promise has stored
    exactly one code in it. *)
Lemma dispatch_fulfils call h h1 out p1 :
  dispatch call h Promise.make = Returned h1 out p1 ->
  exists code, p1 = fulfilled code.
Proof.
  intros Hrun.
  destruct call; revert Hrun; open_entry; open_paths; intros Hrun;
    split_paths Hrun; try discriminate Hrun; inversion Hrun; subst; eauto.
Qed.

(** The only fault of a body run with a fresh promise is a null
    collaborator. *)
Lemma dispatch_fault call h f :
  dispatch call h Promise.make = Faulted f -> f = null_dereference.
Proof.
  intros Hrun.
  destruct call; revert Hrun; open_entry; open_paths; intros Hrun;
    split_paths Hrun; try discriminate Hrun; now inversion Hrun.
Qed.

(** C7.  When a read-only call (a getter, a predicate, a finder) has
    succeeded, the same call with the same arguments on a host whose backing
    state - plugin registry, connection, session, settings, user and channel
    tables - is the one the first call left succeeds again, and what the
    caller reads through the out-parameters is identical and was written by
    the call: equal scalars, and from a newly allocated buffer the same
    bytes up to and including the first terminator of a string, the same
    count and elements of an array.  The curator and the heap may have
    changed in between, for instance by freeing the first buffer.  The cells
    of a string buffer behind the first terminator are no part of this:
    [strcpy] does not write them. *)
Theorem repeated_read_is_identical
    (call : APICall) (h h1 h' : Host) (o1 : OutParam) (p1 : APIPromise) :
  is_read_only call = true ->
  dispatch call h Promise.make = Returned h1 o1 p1 ->
  m_promise p1 = Some MUMBLE_STATUS_OK ->
  same_backing h1 h' ->
  exists h2 o2,
    dispatch call h' Promise.make = Returned h2 o2 (fulfilled MUMBLE_STATUS_OK) /\
    observe h2 o2 = observe h1 o1 /\
    determined (observe h2 o2) = true /\
    (forall ptr, returned_buffer o2 = Some ptr -> heap h' !! ptr = None /\ ptr <> 0%Z).
Proof.
  intros Hro Hrun Hok Hsame.
  destruct (read_only_repeat _ _ _ _ _ Hro Hrun Hok) as (h2 & o2 & Hagain & Hobs).
  pose proof (read_only_same_backing call h1 h' Hro Hsame) as Hcmp.
  rewrite Hagain in Hcmp.
  destruct (dispatch call h' Promise.make) as [h3 o3 p3|] eqn:Hrun'; [|contradiction].
  destruct Hcmp as (Hp & Hobs' & _). subst p3.
  exists h3, o3. split; [reflexivity|]. split; [congruence|].
  split; [exact (dispatch_determined _ _ _ _ _ Hrun')|].
  intros ptr Hptr. clear - Hrun' Hptr.
  destruct call; revert Hrun'; open_entry; open_paths; intros Hrun';
    split_paths Hrun'; try discriminate Hrun'; inversion Hrun'; subst;
    cbn in Hptr; try discriminate Hptr; inversion Hptr; subst;
    cbn [heap set_c_qmUsers set_c_qhChannels];
    (split; [apply malloc_fresh | apply malloc_not_null]).
Qed.

(** ** The wrapper (C2) *)

Lemma Inv_init call h now0 : Inv call now0 (init h now0).
Proof.
  constructor; cbn; try discriminate; try tauto; try lia.
Qed.

(** The body run by the host thread on a promise that is not cancelled and
    holds no value. *)
Lemma run_body_fresh c sys :
  sys_promise sys = Promise.make ->
  (exists h1 out code,
     dispatch c (sys_host sys) Promise.make = Returned h1 out (fulfilled code) /\
     run_body c sys =
     MkSystem h1 (fulfilled code) None (sys_pc sys) out (sys_now sys) (sys_deadline sys)
       (sys_fault sys) (Some (sys_host sys, Promise.make))) \/
  (dispatch c (sys_host sys) Promise.make = Faulted null_dereference /\
   run_body c sys =
   MkSystem (sys_host sys) Promise.make None (sys_pc sys) (sys_out sys) (sys_now sys)
     (sys_deadline sys) (Some null_dereference) (Some (sys_host sys, Promise.make))).
Proof.
  intros Hp. unfold run_body. rewrite Hp.
  destruct (dispatch c (sys_host sys) Promise.make) as [h1 out p1|f] eqn:Hrun.
  - destruct (dispatch_fulfils _ _ _ _ _ Hrun) as [code ->]. left. eauto.
  - rewrite (dispatch_fault _ _ _ Hrun) in *. right. eauto.
Qed.

Lemma run_body_cancelled c sys :
  m_cancelled (sys_promise sys) = true ->
  run_body c sys =
  MkSystem (sys_host sys) (sys_promise sys) None (sys_pc sys) NotWritten (sys_now sys)
    (sys_deadline sys) (sys_fault sys) (Some (sys_host sys, sys_promise sys)).
Proof.
  intros Hc. unfold run_body. now rewrite dispatch_cancelled.
Qed.

Lemma promise_is_make p : m_promise p = None -> m_cancelled p = false -> p = Promise.make.
Proof. destruct p; cbn; intros; subst; reflexivity. Qed.

Lemma Inv_run_body call now0 sys :
  Inv call now0 sys ->
  sys_fault sys = None ->
  sys_ran sys = None ->
  sys_pc sys <> W_invoke ->
  Inv call now0 (run_body call sys).
Proof.
  intros [Hfault Hdead Hqueue Hvalue Hpc Hclock Hdeadline Htimeout] Hf Hran Hwhere.
  specialize (Hvalue Hf). specialize (Hpc Hf).
  unfold real_result in Hvalue, Hpc. rewrite Hran in Hvalue, Hpc.
  destruct (m_cancelled (sys_promise sys)) eqn:Hc.
  - rewrite (run_body_cancelled _ _ Hc).
    destruct sys as [h p q pc out now deadline f ran]; cbn in *; subst.
    constructor; unfold real_result, real_of; cbn;
      try discriminate; try assumption; try tauto;
      intros _; unfold isCancelled; rewrite ?Hc; destruct pc; intuition congruence.
  - assert (Hmake : sys_promise sys = Promise.make).
    { apply promise_is_make; [|exact Hc].
      destruct (sys_pc sys); try assumption; try tauto; destruct Hvalue; congruence. }
    destruct (run_body_fresh call sys Hmake)
      as [(h1 & out & code & Hrun & ->)|[Hrun ->]];
      destruct sys as [h p q pc out0 now deadline f ran]; cbn in *; subst.
    + constructor; unfold real_result, real_of; cbn;
        try discriminate; try assumption; try tauto;
        intros _; rewrite ?Hrun; cbn; destruct pc; cbn in *; intuition congruence.
    + constructor; unfold real_result, real_of; cbn;
        try discriminate; try assumption; try tauto;
        intros _; rewrite ?Hrun; cbn; destruct pc; cbn in *; intuition congruence.
Qed.

Lemma run_body_posted call sys : run_body (posted call) sys = run_body call sys.
Proof. unfold run_body. now rewrite posted_dispatch. Qed.

Lemma Inv_host_step call now0 sys :
  Inv call now0 sys -> sys_fault sys = None -> Inv call now0 (host_step sys).
Proof.
  intros HI Hf. unfold host_step.
  destruct (sys_queue sys) as [c|] eqn:Hq; [|exact HI].
  destruct (inv_queue _ _ _ HI c Hq) as [-> Hran].
  rewrite run_body_posted. apply Inv_run_body; try assumption.
  intros Hpc. pose proof (inv_pc _ _ _ HI Hf) as H. rewrite Hpc in H.
  destruct H as (_ & Hnone & _). congruence.
Qed.

(** Take a state that satisfies the invariant apart. *)
Ltac open_inv HI Hf :=
  let Hfault := fresh "Hfault" in
  let Hdead := fresh "Hdead" in
  let Hqueue := fresh "Hqueue" in
  let Hvalue := fresh "Hvalue" in
  let Hpcs := fresh "Hpcs" in
  let Hclock := fresh "Hclock" in
  let Hdeadline := fresh "Hdeadline" in
  let Htimeout := fresh "Htimeout" in
  destruct HI as [Hfault Hdead Hqueue Hvalue Hpcs Hclock Hdeadline Htimeout];
  specialize (Hvalue Hf); specialize (Hpcs Hf); clear Hdead;
  match goal with
  | sys : System |- _ => destruct sys as [? ? ? ? ? ? ? ? ?]
  end;
  cbn [sys_host sys_promise sys_queue sys_pc sys_out sys_now sys_deadline sys_fault
       sys_ran] in *; subst.

(** Rebuild the invariant after a step that leaves [sys_ran] alone. *)
Ltac close_inv :=
  constructor; unfold set_pc, set_promise, set_fault;
  cbn [sys_host sys_promise sys_queue sys_pc sys_out sys_now sys_deadline sys_fault
       sys_ran cancel m_promise m_cancelled];
  try discriminate; try assumption; try tauto;
  try (intros _;
       repeat match goal with
       | H : context [match ?r with Some _ => _ | None => _ end] |- _ => destruct r
       | |- context [match ?r with Some _ => _ | None => _ end] => destruct r
       end; cbn in *; intuition congruence);
  try (intros [?|?]; try discriminate; try congruence; intuition lia);
  try (intuition (try congruence; try lia)).

Lemma Inv_wrapper_step onHostThread call now0 sys :
  Inv call now0 sys -> sys_fault sys = None ->
  Inv call now0 (wrapper_step onHostThread call sys).
Proof.
  intros HI Hf. unfold wrapper_step.
  destruct (sys_pc sys) eqn:Hpc.
  - (* W_invoke *)
    pose proof (inv_pc _ _ _ HI Hf) as H. rewrite Hpc in H. destruct H as (Hp & Hq & Hran).
    pose proof (inv_clock _ _ _ HI) as Hclock.
    set (waiting :=
      MkSystem (sys_host sys) (sys_promise sys) (sys_queue sys) W_wait_800 (sys_out sys)
        (sys_now sys) (sys_now sys + WAIT_MS) (sys_fault sys) (sys_ran sys)).
    assert (Hwaiting : Inv call now0 waiting).
    { destruct sys as [h p q pc out now deadline f ran]; cbn in *; subst.
      constructor; cbn; try discriminate; try tauto; try (unfold WAIT_MS; lia).
      intros [H|H]; discriminate. }
    destruct onHostThread; cbn [invoke].
    + replace (MkSystem _ _ _ _ _ _ _ _ _) with (run_body call waiting).
      * apply Inv_run_body; try assumption; cbn; congruence.
      * unfold run_body, waiting. cbn.
        destruct (dispatch call (sys_host sys) (sys_promise sys)); reflexivity.
    + destruct sys as [h p q pc out now deadline f ran]; cbn in *; subst.
      constructor; cbn; try discriminate; try tauto; try (unfold WAIT_MS; lia).
      * intros c Hc. inversion Hc. tauto.
      * intros [H|H]; discriminate.
  - (* W_wait_800 *)
    open_inv HI Hf. unfold ready.
    destruct (m_promise _) eqn:Hv; [|destruct (Z.leb_spec sys_deadline0 sys_now0)];
      close_inv.
  - (* W_cancel *)
    open_inv HI Hf. close_inv.
  - (* W_wait_0 *)
    open_inv HI Hf. unfold ready. destruct (m_promise _) eqn:Hv; close_inv.
  - (* W_set_timeout *)
    open_inv HI Hf. destruct Hpcs as [Hc Hreal]. rewrite Hreal in Hvalue.
    unfold set_value. rewrite Hvalue. close_inv.
  - (* W_get *)
    open_inv HI Hf. destruct (m_promise _) eqn:Hv; close_inv.
  - (* W_returned *)
    exact HI.
Qed.

Lemma Inv_step onHostThread call now0 sys a :
  Inv call now0 sys -> Inv call now0 (step onHostThread call sys a).
Proof.
  intros HI. unfold step. destruct (sys_fault sys) eqn:Hf; [exact HI|].
  destruct a as [| | |ms|h'].
  - now apply Inv_wrapper_step.
  - unfold wait_times_out. destruct (sys_pc sys) eqn:Hpc; try exact HI.
    destruct (Z.leb_spec (sys_deadline sys) (sys_now sys)); [|exact HI].
    open_inv HI Hf. close_inv.
  - now apply Inv_host_step.
  - open_inv HI Hf. close_inv.
  - open_inv HI Hf. close_inv.
Qed.

Lemma Inv_run onHostThread call now0 schedule sys :
  Inv call now0 sys -> Inv call now0 (run onHostThread call schedule sys).
Proof.
  unfold run. revert sys.
  induction schedule as [|a rest IH]; intros sys HI; cbn [fold_left]; [exact HI|].
  apply IH. now apply Inv_step.
Qed.

(** Run the first action of a schedule of wrapper statements, on a state
    given by its fields, with the deadline known to be over. *)
Ltac one_wrapper_step :=
  match goal with
  | |- context [fold_left ?f (Act_wrapper :: ?l) ?st] =>
      change (fold_left f (Act_wrapper :: l) st) with (fold_left f l (f st Act_wrapper));
      cbv [step wrapper_step ready set_pc set_promise set_value set_fault cancel
           sys_host sys_promise sys_queue sys_pc sys_out sys_now sys_deadline sys_fault
           sys_ran m_promise m_cancelled];
      rewrite ?Z.leb_refl;
      repeat match goal with
      | H : (_ <=? _)%Z = true |- _ => rewrite ?H
      end
  end.

(** Once the deadline has passed, five statements of the wrapper are enough
    for it to return, whatever the host thread does or does not do. *)
Lemma wrapper_returns onHostThread call now0 sys :
  Inv call now0 sys ->
  sys_fault sys = None -> sys_pc sys <> W_invoke ->
  (sys_deadline sys <= sys_now sys)%Z ->
  exists code,
    sys_pc (run onHostThread call (replicate 5 Act_wrapper) sys) = W_returned code.
Proof.
  intros HI Hf Hpc Hlate. open_inv HI Hf.
  apply Z.leb_le in Hlate.
  destruct sys_promise0 as [v c]. cbn [m_promise m_cancelled] in *.
  assert (Hget : sys_pc0 = W_get -> v <> None).
  { intros ->. destruct (real_of call sys_ran0); intuition congruence. }
  assert (Hset : sys_pc0 = W_set_timeout -> v = None).
  { intros ->. destruct Hpcs as [_ Hreal]. now rewrite Hreal in Hvalue. }
  clear Hvalue Hpcs Hqueue Htimeout Hdeadline Hclock Hfault.
  destruct sys_pc0; try contradiction; destruct v as [stored|];
    try (now exfalso; apply Hget); try (now discriminate Hset);
    cbv [run replicate]; do 5 one_wrapper_step; cbn [fold_left sys_pc]; eauto.
Qed.

(** C2.  A wrapper call, run under any interleaving with the host thread,
    the clock and other host activity:
    - never calls [set_value] on a promise that already holds a value, so
      the promise is set at most once across dispatcher and wrapper;
    - cancels the promise only when at least 800 ms have passed since it
      was entered;
    - keeps the code that the body stored when it ran without finding the
      promise cancelled: nothing overwrites it;
    - returns the code the promise holds, which is that real result when
      the body stored one - also when the body finished between the timeout
      and the re-check - and [MUMBLE_EC_API_REQUEST_TIMEOUT], written by the
      wrapper after [cancel()], when the body stored none;
    - returns after at most five of its own statements once the 800 ms are
      over. *)
Theorem wrapper_delivers_exactly_once
    (onHostThread : bool) (call : APICall) (h : Host) (now0 : Z) (schedule : list Action) :
  let sys := run onHostThread call schedule (init h now0) in
  sys_fault sys <> Some promise_already_satisfied /\
  (m_cancelled (sys_promise sys) = true -> (now0 + 800 <= sys_now sys)%Z) /\
  (forall v, real_result call sys = Some v -> m_promise (sys_promise sys) = Some v) /\
  (forall code, sys_pc sys = W_returned code ->
     m_promise (sys_promise sys) = Some code /\
     match real_result call sys with
     | Some v => code = v
     | None =>
         code = MUMBLE_EC_API_REQUEST_TIMEOUT /\ m_cancelled (sys_promise sys) = true
     end) /\
  (sys_fault sys = None -> sys_pc sys <> W_invoke ->
   (sys_deadline sys <= sys_now sys)%Z ->
   exists code,
     sys_pc (run onHostThread call (replicate 5 Act_wrapper) sys) = W_returned code).
Proof.
  intros sys. unfold real_result.
  assert (HI : Inv call now0 sys) by (apply Inv_run, Inv_init).
  assert (Halive : forall code, sys_pc sys = W_returned code -> sys_fault sys = None).
  { intros code Hpc. destruct (sys_fault sys) eqn:Hf; [|reflexivity].
    destruct (inv_dead _ _ _ HI) as [_ [H|H]]; congruence. }
  split; [exact (inv_fault _ _ _ HI)|].
  split.
  { intros Hc. pose proof (inv_timeout _ _ _ HI (or_intror Hc)) as Hlate.
    assert (Hpc : sys_pc sys <> W_invoke).
    { intros Hpc. destruct (sys_fault sys) eqn:Hf.
      - destruct (inv_dead _ _ _ HI) as [_ [H|H]]; congruence.
      - pose proof (inv_pc _ _ _ HI Hf) as H. rewrite Hpc in H.
        destruct H as [Hp _]. rewrite Hp in Hc. discriminate. }
    pose proof (inv_deadline _ _ _ HI Hpc) as Hd. unfold WAIT_MS in Hd. lia. }
  split.
  { intros v Hv. destruct (sys_fault sys) eqn:Hf.
    - destruct (inv_dead _ _ _ HI) as [H _]; congruence.
    - pose proof (inv_value _ _ _ HI Hf) as H. now rewrite Hv in H. }
  split.
  { intros code Hpc. pose proof (Halive code Hpc) as Hf.
    pose proof (inv_value _ _ _ HI Hf) as Hvalue.
    pose proof (inv_pc _ _ _ HI Hf) as Hpcs. rewrite Hpc in Hvalue, Hpcs.
    split; [exact Hpcs|].
    destruct (real_of call (sys_ran sys)); [congruence|].
    destruct Hvalue as [Hv Hc]. split; congruence. }
  intros Hf Hpc Hlate. now apply (wrapper_returns _ _ now0).
Qed.

(** ** Settings load (C9) *)

Lemma std_min_is_min a b : std_min a b = Z.min a b.
Proof. unfold std_min. destruct (Z.ltb_spec b a); lia. Qed.

(** C9.  After the noise-suppression statements of [Settings::load] the
    Speex noise-cancel strength is [std::min] of the value under the legacy
    key ["audio/noisesupress"], taken as 0 when the key is unset, and the
    value under the renamed key ["audio/speexNoiseCancelStrength"], taken
    as the strength held before the load when that key is unset; that is
    the smaller, more negative, of the two integers. *)
Theorem noise_cancel_strength_is_minimum (settings_ptr : gmap string Z) (st : Settings) :
  let legacy := default 0%Z (settings_ptr !! "audio/noisesupress"%string) in
  let renamed :=
    default (iSpeexNoiseCancelStrength st)
      (settings_ptr !! "audio/speexNoiseCancelStrength"%string) in
  iSpeexNoiseCancelStrength (load_noise_suppression settings_ptr st) = std_min legacy renamed /\
  std_min legacy renamed = Z.min legacy renamed /\
  (iSpeexNoiseCancelStrength (load_noise_suppression settings_ptr st) <= legacy)%Z /\
  (iSpeexNoiseCancelStrength (load_noise_suppression settings_ptr st) <= renamed)%Z.
Proof.
  intros legacy renamed. cbn. unfold SAVELOAD_int. fold legacy. fold renamed.
  rewrite std_min_is_min. repeat split; lia.
Qed.

(** * Further properties of the entry points *)

Lemma setMumbleSettingHelper_codes st key value st1 code :
  setMumbleSettingHelper st key value = (st1, code) ->
  code = MUMBLE_STATUS_OK \/ code = MUMBLE_EC_WRONG_SETTINGS_TYPE \/
  code = MUMBLE_EC_UNKNOWN_SETTINGS_KEY.
Proof. destruct key, value; cbn; intros H; inversion H; tauto. Qed.

(** X1.  Run with the fresh promise of a wrapper, every entry point returns
    having stored exactly one code in the promise, and that code is never
    [MUMBLE_EC_API_REQUEST_TIMEOUT]; the one exception is a read of a
    blob-style field on a host without blob database, which dereferences
    null. *)
Theorem every_call_stores_one_code (call : APICall) (h : Host) :
  (exists h1 out code,
     dispatch call h Promise.make = Returned h1 out (fulfilled code) /\
     code <> MUMBLE_EC_API_REQUEST_TIMEOUT) \/
  (dispatch call h Promise.make = Faulted null_dereference /\
   reads_blob call = true /\ db h = None).
Proof.
  destruct (dispatch call h Promise.make) as [h1 out p1|f] eqn:Hrun.
  - left. exists h1, out.
    destruct call; revert Hrun; open_entry; open_paths; intros Hrun;
      split_paths Hrun; try discriminate Hrun; inversion Hrun; subst;
      (eexists; split; [reflexivity |]); try discriminate;
      match goal with
      | H : setMumbleSettingHelper _ _ _ = _ |- _ =>
          destruct (setMumbleSettingHelper_codes _ _ _ _ _ H) as [->|[->| ->]]; discriminate
      end.
  - right.
    destruct call; revert Hrun; open_entry; open_paths; intros Hrun;
      split_paths Hrun; try discriminate Hrun; inversion Hrun; subst;
      try congruence.
    all: repeat split; reflexivity.
Qed.

(** X2.  For every entry point that takes a connection handle, called by a
    registered plugin: when there is no server handler, or its connection
    id is not the handle passed, the call stores
    [MUMBLE_EC_CONNECTION_NOT_FOUND], whatever the other arguments resolve
    to, and leaves the host state and the out-parameters alone. *)
Theorem wrong_connection_is_rejected (call : APICall) (h : Host) (connection : Z) :
  connection_of call = Some connection ->
  pluginExists (pluginManager h) (callerID_of call) = true ->
  (forall handler, sh h = Some handler -> getConnectionID handler <> connection) ->
  dispatch call h Promise.make
  = Returned h NotWritten (fulfilled MUMBLE_EC_CONNECTION_NOT_FOUND).
Proof.
  intros Hconn Hid Hsh.
  assert (Hverify : forall rest,
             VERIFY_CONNECTION connection h Promise.make rest
             = Returned h NotWritten (fulfilled MUMBLE_EC_CONNECTION_NOT_FOUND)).
  { intros rest. unfold VERIFY_CONNECTION.
    destruct (sh h) as [handler|] eqn:Hh; [|reflexivity].
    destruct (Z.eqb_spec (getConnectionID handler) connection) as [Heq|Hne];
      [|reflexivity].
    exfalso. exact (Hsh handler eq_refl Heq). }
  destruct call; try discriminate Hconn; cbn [connection_of callerID_of] in *;
    inversion Hconn; subst; open_entry;
    rewrite UNLESS_CANCELLED_make, (VERIFY_PLUGIN_ID_known _ _ _ _ Hid);
    apply Hverify.
Qed.

(** X3.  For every entry point that takes a connection handle, but for
    [isConnectionSynchronized], called by a registered plugin with the
    handle of the current connection: while the session id is still zero
    the call stores [MUMBLE_EC_CONNECTION_UNSYNCHRONIZED] and does nothing
    else.  [isConnectionSynchronized] itself answers [false] with
    [MUMBLE_STATUS_OK]. *)
Theorem unsynchronized_connection_is_rejected
    (call : APICall) (h : Host) (handler : ServerHandler) :
  connection_of call = Some (getConnectionID handler) ->
  pluginExists (pluginManager h) (callerID_of call) = true ->
  sh h = Some handler ->
  uiSession h = 0%Z ->
  dispatch call h Promise.make
  = if ensures_synchronized call
    then Returned h NotWritten (fulfilled MUMBLE_EC_CONNECTION_UNSYNCHRONIZED)
    else Returned h (Out_bool false) (fulfilled MUMBLE_STATUS_OK).
Proof.
  intros Hconn Hid Hsh Hsession.
  destruct call; try discriminate Hconn; cbn [connection_of callerID_of] in *;
    inversion Hconn; subst; open_entry;
    rewrite UNLESS_CANCELLED_make, (VERIFY_PLUGIN_ID_known _ _ _ _ Hid);
    unfold VERIFY_CONNECTION, ENSURE_CONNECTION_SYNCHRONIZED;
    rewrite Hsh, Z.eqb_refl, Hsession; reflexivity.
Qed.

Lemma set_s_same h : set_s (s h) h = h.
Proof. now destruct h. Qed.

Lemma set_c_qmUsers_same h user userID :
  ClientUser_get h userID = Some user ->
  set_c_qmUsers (table_set userID user (c_qmUsers h)) h = h.
Proof.
  unfold ClientUser_get. intros H. rewrite (table_set_same _ _ _ H). now destruct h.
Qed.

Lemma set_c_qhChannels_same h channel channelID :
  Channel_get h channelID = Some channel ->
  set_c_qhChannels (table_set channelID channel (c_qhChannels h)) h = h.
Proof.
  unfold Channel_get. intros H. rewrite (table_set_same _ _ _ H). now destruct h.
Qed.

Lemma setMumbleSettingHelper_failed st key value st1 code :
  setMumbleSettingHelper st key value = (st1, code) ->
  code <> MUMBLE_STATUS_OK -> st1 = st.
Proof.
  destruct key, value; cbn; intros H Hcode; inversion H; subst;
    solve [reflexivity | now destruct st | exfalso; now apply Hcode].
Qed.

(** X4.  A call that stores a code other than [MUMBLE_STATUS_OK] writes no
    out-parameter and leaves the host state as it found it - settings,
    tables, curator and heap.  The one trace it can leave is the call of
    [AudioOutput::playSample] that reported an invalid sample. *)
Theorem failed_call_changes_nothing
    (call : APICall) (h h1 : Host) (out : OutParam) (p1 : APIPromise) :
  dispatch call h Promise.make = Returned h1 out p1 ->
  m_promise p1 <> Some MUMBLE_STATUS_OK ->
  out = NotWritten /\
  (h1 = h \/
   exists samplePath volume,
     played_sample call = Some (samplePath, volume) /\
     p1 = fulfilled MUMBLE_EC_INVALID_SAMPLE /\
     h1 = emit (Ev_playSample samplePath volume false) h).
Proof.
  intros Hrun Hcode.
  destruct call; revert Hrun; open_entry; open_paths; intros Hrun;
    split_paths Hrun; try discriminate Hrun; inversion Hrun; subst;
    try (exfalso; apply Hcode; reflexivity);
    (split; [reflexivity|]);
    try (left; reflexivity);
    try (right; eexists _, _; repeat split; reflexivity).
  all: left.
  - apply set_c_qmUsers_same. rewrite Heqo0. f_equal.
    cbn [qsComment] in Heqb3. apply andb_prop in Heqb2 as [Hempty _].
    apply isEmpty_true in Heqb3, Hempty. rewrite Heqb3, <- Hempty. now destruct c.
  - apply set_c_qhChannels_same. rewrite Heqo0. f_equal.
    cbn [qsDesc] in Heqb3. apply andb_prop in Heqb2 as [Hempty _].
    apply isEmpty_true in Heqb3, Hempty. rewrite Heqb3, <- Hempty. now destruct c.
  - rewrite (setMumbleSettingHelper_failed _ _ _ _ _ Heqp); [apply set_s_same|].
    intros ->. now apply Hcode.
  - rewrite (setMumbleSettingHelper_failed _ _ _ _ _ Heqp); [apply set_s_same|].
    intros ->. now apply Hcode.
  - rewrite (setMumbleSettingHelper_failed _ _ _ _ _ Heqp); [apply set_s_same|].
    intros ->. now apply Hcode.
  - rewrite (setMumbleSettingHelper_failed _ _ _ _ _ Heqp); [apply set_s_same|].
    intros ->. now apply Hcode.
Qed.

(** ** What a call does to the curator and the heap

    A body that returns has left the plugin registry alone, and has done
    one of three things to the curator and the heap: nothing; removed the
    tracked pointer passed to [freeMemory] from both; or put one block at
    the address [malloc] chose and registered it for the caller, whose id
    had passed [VERIFY_PLUGIN_ID]. *)
Lemma curator_effect call h promise h1 out p1 :
  dispatch call h promise = Returned h1 out p1 ->
  pluginManager h1 = pluginManager h /\
  ((m_entries h1 = m_entries h /\ heap h1 = heap h /\ returned_buffer out = None) \/
   (exists callerID ptr entry,
      call = Call_freeMemory_v_1_0_x callerID ptr /\
      m_entries h !! ptr = Some entry /\
      m_entries h1 = delete ptr (m_entries h) /\
      heap h1 = delete ptr (heap h) /\
      out = NotWritten) \/
   (exists block name,
      pluginExists (pluginManager h) (callerID_of call) = true /\
      returned_buffer out = Some (Curator.malloc (heap h)) /\
      heap h1 = <[Curator.malloc (heap h) := block]> (heap h) /\
      m_entries h1
      = Curator.insert (Curator.malloc (heap h))
          (MkEntry defaultDeleter (callerID_of call) name) (m_entries h))).
Proof.
  intros Hrun.
  destruct call; revert Hrun; open_entry; open_paths; unfold curate; intros Hrun;
    split_paths Hrun; try discriminate Hrun; inversion Hrun; subst;
    (split; [reflexivity|]);
    try (left; repeat split; reflexivity).
  1: { right; left. exists callerID, ptr, e. repeat split; try assumption.
       cbn. now destruct (m_deleter e). }
  all: right; right; eexists _, _; cbn [callerID_of];
    repeat match goal with
    | H : negb _ = false |- _ => apply negb_false_iff in H
    end;
    repeat split; try eassumption; reflexivity.
Qed.

Lemma insert_other ptr ptr' e (m : gmap Z Entry) :
  ptr <> ptr' -> Curator.insert ptr e m !! ptr' = m !! ptr'.
Proof.
  intros Hne. unfold Curator.insert. destruct (m !! ptr); [reflexivity|].
  now rewrite lookup_insert_ne.
Qed.

Lemma insert_fresh ptr e (m : gmap Z Entry) :
  m !! ptr = None -> Curator.insert ptr e m = <[ptr := e]> m.
Proof. intros Hnone. unfold Curator.insert. now rewrite Hnone. Qed.

(** X5.  The curator and the heap stay in step over every call: when, before
    the call, the tracked pointers are exactly the addresses of live blocks
    and every entry names a registered plugin, the same holds after it.  So
    a stored deleter is never run on an address that holds no block, and no
    block that a call allocated is left without an entry. *)
Theorem curator_stays_consistent
    (call : APICall) (h h1 : Host) (promise p1 : APIPromise) (out : OutParam) :
  curator_consistent h ->
  dispatch call h promise = Returned h1 out p1 ->
  curator_consistent h1.
Proof.
  intros [Hdom Hplugins] Hrun.
  destruct (curator_effect _ _ _ _ _ _ Hrun)
    as [Hpm [(He & Hh & _)|[(callerID & ptr & entry & -> & Htracked & He & Hh & _)
                           |(block & name & Hid & _ & Hh & He)]]];
    unfold curator_consistent; rewrite Hpm, He, Hh.
  - now split.
  - split.
    + intros ptr'. destruct (decide (ptr' = ptr)) as [->|Hne].
      * rewrite !lookup_delete_eq. split; intros [? Hx]; discriminate Hx.
      * rewrite !lookup_delete_ne by congruence. apply Hdom.
    + intros ptr' entry'. destruct (decide (ptr' = ptr)) as [->|Hne].
      * rewrite lookup_delete_eq. discriminate.
      * rewrite lookup_delete_ne by congruence. apply Hplugins.
  - assert (Hfresh : m_entries h !! Curator.malloc (heap h) = None).
    { apply eq_None_not_Some. rewrite Hdom, malloc_fresh. intros [? Hx]. discriminate Hx. }
    rewrite (insert_fresh _ _ _ Hfresh). split.
    + intros ptr'. destruct (decide (ptr' = Curator.malloc (heap h))) as [->|Hne].
      * rewrite !lookup_insert_eq. split; eauto.
      * rewrite !lookup_insert_ne by congruence. apply Hdom.
    + intros ptr' entry'. destruct (decide (ptr' = Curator.malloc (heap h))) as [->|Hne].
      * rewrite lookup_insert_eq. intros [= <-]. exact Hid.
      * rewrite lookup_insert_ne by congruence. apply Hplugins.
Qed.

(** X6.  A buffer that is live - its block is on the heap and the curator
    tracks it - is still live, with the same entry and the same content,
    after any call other than [freeMemory] of its address, and no call hands
    its address out again. *)
Theorem live_buffer_survives
    (call : APICall) (h h1 : Host) (promise p1 : APIPromise) (out : OutParam)
    (ptr : Z) (entry : Entry) (block : Block) :
  m_entries h !! ptr = Some entry ->
  heap h !! ptr = Some block ->
  (forall callerID, call <> Call_freeMemory_v_1_0_x callerID ptr) ->
  dispatch call h promise = Returned h1 out p1 ->
  m_entries h1 !! ptr = Some entry /\
  heap h1 !! ptr = Some block /\
  returned_buffer out <> Some ptr.
Proof.
  intros Htracked Hlive Hother Hrun.
  destruct (curator_effect _ _ _ _ _ _ Hrun)
    as [_ [(He & Hh & Hout)|[(callerID & ptr' & entry' & -> & Htracked' & He & Hh & ->)
                            |(block' & name & _ & Hout & Hh & He)]]];
    rewrite He, Hh.
  - rewrite Hout. repeat split; try assumption. discriminate.
  - assert (Hne : ptr' <> ptr) by (intros ->; exact (Hother callerID eq_refl)).
    rewrite !lookup_delete_ne by exact Hne. repeat split; try assumption.
    discriminate.
  - assert (Hne : Curator.malloc (heap h) <> ptr).
    { intros Heq. pose proof (malloc_fresh (heap h)) as Hfresh. congruence. }
    rewrite (insert_other _ _ _ _ Hne), lookup_insert_ne by exact Hne.
    repeat split; try assumption. rewrite Hout. congruence.
Qed.

(** ** Lookups by name and by id *)

Lemma table_get_In {A} id (table : list (Z * A)) :
  is_Some (table_get id table) <-> In id (map fst table).
Proof.
  induction table as [|[k v] rest IH]; cbn.
  - split; [intros [? Hx]; discriminate Hx | tauto].
  - destruct (Z.eqb_spec k id) as [->|Hne].
    + split; eauto.
    + rewrite IH. split; [tauto | intros [Heq|Hin]; [contradiction | assumption]].
Qed.

Lemma find_by_name_Some {A} (name_of : A -> string) name table key :
  NoDup (map fst table) ->
  find_by_name name_of name table = Some key ->
  exists v, table_get key table = Some v /\ name_of v = name.
Proof.
  induction table as [|[k v] rest IH]; cbn; [discriminate|].
  intros Hnodup. apply NoDup_cons in Hnodup as [Hfirst Hrest].
  rewrite list_elem_of_In in Hfirst.
  destruct (String.eqb_spec (name_of v) name) as [Hname|Hname].
  - intros [= ->]. rewrite Z.eqb_refl. eauto.
  - intros Hfind. destruct (IH Hrest Hfind) as (w & Hget & Hw).
    destruct (Z.eqb_spec k key) as [->|Hne]; [|eauto].
    exfalso. apply Hfirst. apply table_get_In. eauto.
Qed.

Lemma find_by_name_None {A} (name_of : A -> string) name table :
  find_by_name name_of name table = None ->
  forall key v, table_get key table = Some v -> name_of v <> name.
Proof.
  induction table as [|[k v] rest IH]; cbn; [discriminate|].
  destruct (String.eqb_spec (name_of v) name) as [Hname|Hname]; [discriminate|].
  intros Hfind key w. destruct (Z.eqb_spec k key) as [->|Hne].
  - now intros [= <-].
  - now apply IH.
Qed.

(** X7.  [findUserByName], called by a registered plugin on the synchronized
    connection, with user ids that are unique in the table: either it
    stores [MUMBLE_STATUS_OK] and writes the id of a user who bears the name
    - [getUserName] of that id then returns a copy of this very name - or it
    stores [MUMBLE_EC_USER_NOT_FOUND], writes nothing, and no user of the
    table bears the name. *)
Theorem findUserByName_finds_a_bearer
    (callerID connection : Z) (userName : string) (h : Host) :
  pluginExists (pluginManager h) callerID = true ->
  connected h connection ->
  NoDup (map fst (c_qmUsers h)) ->
  (exists userID user,
     dispatch (Call_findUserByName_v_1_0_x callerID connection userName) h Promise.make
     = Returned h (Out_userID userID) (fulfilled MUMBLE_STATUS_OK) /\
     ClientUser_get h userID = Some user /\ qsName user = userName /\
     dispatch (Call_getUserName_v_1_0_x callerID connection userID) h Promise.make
     = return_string userName callerID "getUserName" h Promise.make) \/
  (dispatch (Call_findUserByName_v_1_0_x callerID connection userName) h Promise.make
   = Returned h NotWritten (fulfilled MUMBLE_EC_USER_NOT_FOUND) /\
   forall userID user, ClientUser_get h userID = Some user -> qsName user <> userName).
Proof.
  intros Hid Hconn Hnodup. open_entry.
  rewrite !UNLESS_CANCELLED_make, !(VERIFY_PLUGIN_ID_known _ _ _ _ Hid),
    !(checks_pass _ _ _ _ Hconn).
  destruct (find_by_name qsName userName (c_qmUsers h)) as [key|] eqn:Hfind.
  - left. destruct (find_by_name_Some _ _ _ _ Hnodup Hfind) as (user & Hget & Hname).
    exists key, user. unfold ClientUser_get. rewrite Hget, Hname.
    rewrite UNLESS_CANCELLED_make, (VERIFY_PLUGIN_ID_known _ _ _ _ Hid),
      (checks_pass _ _ _ _ Hconn). auto.
  - right. split; [reflexivity|]. exact (find_by_name_None _ _ _ Hfind).
Qed.

(** X8.  [findChannelByName], under the same conditions on the caller, the
    connection and the channel table: either it writes the id of a channel
    that bears the name, and [getChannelName] of that id returns a copy of
    the name, or it stores [MUMBLE_EC_CHANNEL_NOT_FOUND] and no channel
    bears the name. *)
Theorem findChannelByName_finds_a_bearer
    (callerID connection : Z) (channelName : string) (h : Host) :
  pluginExists (pluginManager h) callerID = true ->
  connected h connection ->
  NoDup (map fst (c_qhChannels h)) ->
  (exists channelID channel,
     dispatch (Call_findChannelByName_v_1_0_x callerID connection channelName) h
       Promise.make
     = Returned h (Out_channelID channelID) (fulfilled MUMBLE_STATUS_OK) /\
     Channel_get h channelID = Some channel /\ ch_qsName channel = channelName /\
     dispatch (Call_getChannelName_v_1_0_x callerID connection channelID) h Promise.make
     = return_string channelName callerID "getChannelName" h Promise.make) \/
  (dispatch (Call_findChannelByName_v_1_0_x callerID connection channelName) h
     Promise.make
   = Returned h NotWritten (fulfilled MUMBLE_EC_CHANNEL_NOT_FOUND) /\
   forall channelID channel,
     Channel_get h channelID = Some channel -> ch_qsName channel <> channelName).
Proof.
  intros Hid Hconn Hnodup. open_entry.
  rewrite !UNLESS_CANCELLED_make, !(VERIFY_PLUGIN_ID_known _ _ _ _ Hid),
    !(checks_pass _ _ _ _ Hconn).
  destruct (find_by_name ch_qsName channelName (c_qhChannels h)) as [key|] eqn:Hfind.
  - left. destruct (find_by_name_Some _ _ _ _ Hnodup Hfind) as (channel & Hget & Hname).
    exists key, channel. unfold Channel_get. rewrite Hget, Hname.
    rewrite UNLESS_CANCELLED_make, (VERIFY_PLUGIN_ID_known _ _ _ _ Hid),
      (checks_pass _ _ _ _ Hconn). auto.
  - right. split; [reflexivity|]. exact (find_by_name_None _ _ _ Hfind).
Qed.

Lemma connected_frame h h1 connection :
  sh h1 = sh h -> uiSession h1 = uiSession h -> connected h connection ->
  connected h1 connection.
Proof. unfold connected. intros -> ->. tauto. Qed.

(** X9.  [getAllUsers], called by a registered plugin on the synchronized
    connection, stores [MUMBLE_STATUS_OK] and hands out a fresh array whose
    length is the count it reports and whose ids are exactly the ids
    [ClientUser::get] resolves; so [getUserName], asked next for any id of
    the array, succeeds with a string. *)
Theorem getAllUsers_lists_the_known_users (callerID connection : Z) (h : Host) :
  pluginExists (pluginManager h) callerID = true ->
  connected h connection ->
  exists h1 ptr ids,
    dispatch (Call_getAllUsers_v_1_0_x callerID connection) h Promise.make
    = Returned h1 (Out_array ptr (length ids)) (fulfilled MUMBLE_STATUS_OK) /\
    heap h !! ptr = None /\
    heap h1 !! ptr = Some (IDArray ids) /\
    (forall userID, In userID ids <-> is_Some (ClientUser_get h userID)) /\
    (forall userID,
       In userID ids ->
       exists h2 name,
         dispatch (Call_getUserName_v_1_0_x callerID connection userID) h1 Promise.make
         = Returned h2 (Out_string name) (fulfilled MUMBLE_STATUS_OK)).
Proof.
  intros Hid Hconn. open_entry.
  rewrite UNLESS_CANCELLED_make, (VERIFY_PLUGIN_ID_known _ _ _ _ Hid),
    (checks_pass _ _ _ _ Hconn), return_array_make.
  eexists _, _, _. split; [reflexivity|]. split; [apply malloc_fresh|].
  split; [cbn; apply lookup_insert_eq|].
  split; [intros userID; symmetry; apply table_get_In|].
  intros userID Hin. apply table_get_In in Hin as [user Huser].
  set (h1 := curate _ _ _ _).
  assert (Hconn1 : connected h1 connection) by (now apply (connected_frame h)).
  assert (Hid1 : pluginExists (pluginManager h1) callerID = true) by exact Hid.
  rewrite UNLESS_CANCELLED_make, (VERIFY_PLUGIN_ID_known _ _ _ _ Hid1),
    (checks_pass _ _ _ _ Hconn1).
  change (ClientUser_get h1 userID) with (table_get userID (c_qmUsers h)).
  rewrite Huser, return_string_make. eauto.
Qed.

(** ** Sending data *)

Lemma add_receiversessions_Some h users sessions :
  add_receiversessions h users = Some sessions ->
  sessions = users /\ forall u, In u users -> is_Some (ClientUser_get h u).
Proof.
  revert sessions. induction users as [|u rest IH]; cbn; intros sessions.
  - intros [= <-]. split; [reflexivity | tauto].
  - destruct (ClientUser_get h u) as [user|] eqn:Hu; [|discriminate].
    destruct (add_receiversessions h rest) as [found|]; [|discriminate].
    intros [= <-]. destruct (IH found eq_refl) as [-> Hall].
    split; [reflexivity|]. intros v [<-|Hin]; [rewrite Hu; eauto | now apply Hall].
Qed.

Lemma add_receiversessions_None h users :
  add_receiversessions h users = None ->
  exists u, In u users /\ ClientUser_get h u = None.
Proof.
  induction users as [|u rest IH]; cbn; [discriminate|].
  destruct (ClientUser_get h u) as [user|] eqn:Hu; [|eauto].
  destruct (add_receiversessions h rest) as [found|]; [discriminate|].
  intros _. destruct (IH eq_refl) as (v & Hin & Hv). eauto.
Qed.

(** X10.  [sendData] hands exactly one message to the server handler - from
    the local session, to the receivers as given, with the payload and the
    data id as given - and stores [MUMBLE_STATUS_OK], when the caller is
    registered, the connection is the synchronized one, the payload and the
    data id are no longer than their limits (a length equal to the limit is
    accepted), every receiver is a known user and the server version is at
    least 1.4.0.  When one of these fails it stores another code and
    sends nothing. *)
Theorem sendData_sends_when_all_checks_pass
    (callerID connection : Z) (users : list Z) (payload : list ascii) (dataID : string)
    (h : Host) :
  let call := Call_sendData_v_1_0_x callerID connection users payload dataID in
  let accepted :=
    pluginExists (pluginManager h) callerID = true /\
    connected h connection /\
    (Z.of_nat (length payload) <= MAX_DATA_LENGTH)%Z /\
    (Z.of_nat (String.length dataID) <= MAX_DATA_ID_LENGTH)%Z /\
    (forall u, In u users -> is_Some (ClientUser_get h u)) /\
    (forall handler, sh h = Some handler -> (Version_1_4_0 <= m_version handler)%Z) in
  (accepted ->
   dispatch call h Promise.make
   = Returned
       (emit (Ev_sendMessage (MkPluginDataTransmission (uiSession h) users payload dataID)) h)
       NotWritten (fulfilled MUMBLE_STATUS_OK)) /\
  (~ accepted ->
   exists code,
     code <> MUMBLE_STATUS_OK /\
     dispatch call h Promise.make = Returned h NotWritten (fulfilled code)).
Proof.
  intros call accepted.
  assert (Hcases :
    (accepted /\
     dispatch call h Promise.make
     = Returned
         (emit (Ev_sendMessage
                  (MkPluginDataTransmission (uiSession h) users payload dataID)) h)
         NotWritten (fulfilled MUMBLE_STATUS_OK)) \/
    (~ accepted /\
     exists code,
       code <> MUMBLE_STATUS_OK /\
       dispatch call h Promise.make = Returned h NotWritten (fulfilled code))).
  { subst call accepted. unfold connected. open_entry. open_paths.
    destruct (pluginExists (pluginManager h) callerID) eqn:Hid; cbn [negb];
      [|right; split; [intros (Hx & _); discriminate Hx | eexists; split; [|reflexivity]; discriminate]].
    destruct (sh h) as [handler|] eqn:Hsh;
      [|right; split; [intros (_ & [(? & Hx & _) _] & _); discriminate Hx
                      | eexists; split; [|reflexivity]; discriminate]].
    destruct (Z.eqb_spec (getConnectionID handler) connection) as [Hconn|Hconn]; cbn [negb];
      [|right; split; [intros (_ & [(? & [= <-] & Hx) _] & _); contradiction
                      | eexists; split; [|reflexivity]; discriminate]].
    destruct (Z.eqb_spec (uiSession h) 0) as [Hsync|Hsync];
      [right; split; [intros (_ & [_ Hx] & _); contradiction
                     | eexists; split; [|reflexivity]; discriminate]|].
    destruct (Z.gtb_spec (Z.of_nat (length payload)) MAX_DATA_LENGTH) as [Hlen|Hlen];
      [right; split; [intros (_ & _ & Hx & _); lia
                     | eexists; split; [|reflexivity]; discriminate]|].
    destruct (Z.gtb_spec (Z.of_nat (String.length dataID)) MAX_DATA_ID_LENGTH) as [Hidlen|Hidlen];
      [right; split; [intros (_ & _ & _ & Hx & _); lia
                     | eexists; split; [|reflexivity]; discriminate]|].
    destruct (add_receiversessions h users) as [sessions|] eqn:Hrecv.
    - apply add_receiversessions_Some in Hrecv as [-> Hall].
      destruct (Z.ltb_spec (m_version handler) Version_1_4_0) as [Hver|Hver].
      + right. split.
        * intros (_ & _ & _ & _ & _ & Hx). specialize (Hx handler eq_refl). lia.
        * eexists; split; [|reflexivity]; discriminate.
      + left. split; [|reflexivity].
        repeat split; try assumption; try lia; eauto.
        intros handler' [= <-]. exact Hver.
    - right. apply add_receiversessions_None in Hrecv as (u & Hin & Hu). split.
      + intros (_ & _ & _ & _ & Hx & _). destruct (Hx u Hin) as [? Hsome]. congruence.
      + eexists; split; [|reflexivity]; discriminate. }
  split.
  - intros Hacc. destruct Hcases as [[_ Hrun]|[Hno _]]; [exact Hrun | contradiction].
  - intros Hno. destruct Hcases as [[Hacc _]|[_ Hrun]]; [contradiction | exact Hrun].
Qed.

(** ** Settings *)


Lemma set_value_code p code p1 :
  set_value p code = Some p1 -> m_promise p1 = Some code.
Proof. unfold set_value. destruct (m_promise p); [discriminate|]. now intros [= <-]. Qed.


(** X12.  A double written through the setter, by a registered plugin and
    for a key whose setting is a double, is stored as a [float]: the getter
    for that key then reads the value rounded to single precision and
    widened again, and every other key reads what it read before. *)
Theorem double_setting_round_trip
    (callerID : Z) (key : mumble_settings_key_t) (value : double) (h : Host) :
  pluginExists (pluginManager h) callerID = true ->
  IS_TYPE (getMumbleSettingHelper (s h) key) QMetaType_Double = true ->
  exists h1,
    dispatch (Call_setMumbleSetting_double_v_1_0_x callerID key value) h Promise.make
    = Returned h1 NotWritten (fulfilled MUMBLE_STATUS_OK) /\
    dispatch (Call_getMumbleSetting_double_v_1_0_x callerID key) h1 Promise.make
    = Returned h1 (Out_double (float_to_double (double_to_float value)))
        (fulfilled MUMBLE_STATUS_OK) /\
    (forall other,
       other <> key ->
       getMumbleSettingHelper (s h1) other = getMumbleSettingHelper (s h) other).
Proof.
  intros Hid Htype. open_entry.
  rewrite UNLESS_CANCELLED_make, (VERIFY_PLUGIN_ID_known _ _ _ _ Hid).
  destruct key; try discriminate Htype; cbn [setMumbleSettingHelper];
    (eexists; split; [reflexivity|]); (split; [|intros other Hother; now destruct other]);
    rewrite UNLESS_CANCELLED_make, VERIFY_PLUGIN_ID_known by exact Hid; reflexivity.
Qed.

(** X13.  The transmission mode that [getLocalUserTransmissionMode] reports
    is the one that makes [requestLocalUserTransmissionMode] ask the main
    window for the mode the settings hold: the two [switch] statements are
    inverse to each other. *)
Theorem transmission_mode_round_trip
    (callerID : Z) (h h1 : Host) (window : MainWindow)
    (mode : mumble_transmission_mode_t) (p1 : APIPromise) :
  mw h = Some window ->
  dispatch (Call_getLocalUserTransmissionMode_v_1_0_x callerID) h Promise.make
  = Returned h1 (Out_transmissionMode mode) p1 ->
  dispatch (Call_requestLocalUserTransmissionMode_v_1_0_x callerID mode) h Promise.make
  = Returned (emit (Ev_setTransmissionMode (atTransmit (s h))) h) NotWritten
      (fulfilled MUMBLE_STATUS_OK).
Proof.
  intros Hmw. open_entry. open_paths.
  destruct (pluginExists (pluginManager h) callerID); cbn [negb]; [|discriminate].
  assert (Hsame : forall current,
             atTransmit (s h) = current ->
             set_s (setTransmissionMode current (s h)) h = h).
  { intros current <-. destruct h as [? ? ? [] ? ? ? ? ? ? ? ? ?]. reflexivity. }
  destruct (atTransmit (s h)) eqn:Hmode; intros [= <- <- <-]; rewrite Hmw;
    rewrite (Hsame _ eq_refl); reflexivity.
Qed.

(** ** The wrapper after it has returned, and on the host thread *)

(** No body stores the code of the wrapper. *)
Lemma dispatch_not_timeout call h p :
  isCancelled p = false ->
  result_code (dispatch call h p) <> Some MUMBLE_EC_API_REQUEST_TIMEOUT.
Proof.
  intros Hc.
  destruct (dispatch call h p) as [h1 out p1|f] eqn:Hrun; [|discriminate].
  cbn [result_code].
  destruct call; revert Hrun; open_entry; open_paths; rewrite ?Hc; intros Hrun;
    split_paths Hrun; try discriminate Hrun; inversion Hrun; subst;
    match goal with
    | H : set_value _ _ = Some _ |- _ => rewrite (set_value_code _ _ _ H)
    end;
    try discriminate;
    match goal with
    | H : setMumbleSettingHelper _ _ _ = _ |- _ =>
        destruct (setMumbleSettingHelper_codes _ _ _ _ _ H) as [->|[->| ->]]; discriminate
    end.
Qed.

Lemma out_unwritten_step onHostThread call sys a :
  out_unwritten sys -> out_unwritten (step onHostThread call sys a).
Proof.
  unfold out_unwritten, step. intros Hout.
  destruct (sys_fault sys); [exact Hout|].
  destruct a as [| | |ms|h'].
  - unfold wrapper_step, invoke, run_body, set_pc, set_promise, set_fault.
    destruct (sys_pc sys); cbn;
      repeat match goal with
      | |- context [if ?b then _ else _] => destruct b
      | |- context [match ?x with _ => _ end] => destruct x
      end; cbn; try exact Hout; discriminate.
  - unfold wait_times_out, set_pc.
    destruct (sys_pc sys); try exact Hout.
    destruct (_ <=? _)%Z; exact Hout.
  - unfold host_step, run_body. destruct (sys_queue sys); [|exact Hout].
    destruct (dispatch _ _ _); cbn; discriminate.
  - exact Hout.
  - exact Hout.
Qed.

Lemma out_unwritten_run onHostThread call schedule sys :
  out_unwritten sys -> out_unwritten (run onHostThread call schedule sys).
Proof.
  unfold run. revert sys.
  induction schedule as [|a rest IH]; intros sys Hout; cbn [fold_left]; [exact Hout|].
  apply IH. now apply out_unwritten_step.
Qed.

(** One step of a wrapper that has returned. *)
Lemma returned_step onHostThread call now0 sys a code :
  Inv call now0 sys -> out_unwritten sys ->
  sys_pc sys = W_returned code -> sys_fault sys = None ->
  let sys1 := step onHostThread call sys a in
  sys_pc sys1 = W_returned code /\ sys_fault sys1 = None /\
  sys_out sys1 = sys_out sys /\ sys_promise sys1 = sys_promise sys /\
  sys_host sys1 = match a with Act_world h' => h' | _ => sys_host sys end.
Proof.
  intros HI Hout Hpc Hf. cbn zeta. unfold step. rewrite Hf.
  destruct a as [| | |ms|h']; cbn [sys_pc sys_fault sys_out sys_promise sys_host];
    try (repeat split; assumption).
  - unfold wrapper_step. rewrite Hpc. repeat split; assumption.
  - unfold wait_times_out. rewrite Hpc. repeat split; assumption.
  - unfold host_step. destruct (sys_queue sys) as [c|] eqn:Hq;
      [|repeat split; assumption].
    destruct (inv_queue _ _ _ HI c Hq) as [-> Hran].
    pose proof (inv_value _ _ _ HI Hf) as Hvalue. rewrite Hran, Hpc in Hvalue.
    cbn in Hvalue. destruct Hvalue as [_ Hcancelled].
    rewrite run_body_posted, (run_body_cancelled _ _ Hcancelled).
    cbn [sys_pc sys_fault sys_out sys_promise sys_host].
    rewrite (Hout Hran). repeat split; assumption.
Qed.

(** X14.  Once a wrapper has returned, nothing the host thread does for
    that call reaches the caller or the host any more: over every further
    schedule the out-parameters, the promise and the returned code stay as
    they were at the return, no fault occurs, and the host state is the one
    that activity outside the call leaves behind.  So a body that the host
    thread gets to only after the wrapper gave up writes through no
    out-pointer and changes nothing.  And a wrapper that returned
    [MUMBLE_EC_API_REQUEST_TIMEOUT] had cancelled the promise of a body that
    stored no result. *)
Theorem nothing_happens_after_return
    (onHostThread : bool) (call : APICall) (h : Host) (now0 : Z)
    (schedule more : list Action) (code : mumble_error_t) :
  let sys := run onHostThread call schedule (init h now0) in
  let sys' := run onHostThread call more sys in
  sys_pc sys = W_returned code ->
  sys_pc sys' = W_returned code /\
  sys_fault sys' = None /\
  sys_out sys' = sys_out sys /\
  sys_promise sys' = sys_promise sys /\
  sys_host sys' = world_after more (sys_host sys) /\
  (code = MUMBLE_EC_API_REQUEST_TIMEOUT ->
   real_result call sys = None /\ m_cancelled (sys_promise sys) = true).
Proof.
  intros sys sys' Hpc.
  assert (HI : Inv call now0 sys) by (apply Inv_run, Inv_init).
  assert (Hout : out_unwritten sys).
  { apply out_unwritten_run. intros _. reflexivity. }
  assert (Hf : sys_fault sys = None).
  { destruct (sys_fault sys) eqn:Hfault; [|reflexivity].
    destruct (inv_dead _ _ _ HI) as [_ [H|H]]; congruence. }
  assert (Hafter : forall sys0,
             Inv call now0 sys0 -> out_unwritten sys0 ->
             sys_pc sys0 = W_returned code -> sys_fault sys0 = None ->
             let sys1 := run onHostThread call more sys0 in
             sys_pc sys1 = W_returned code /\ sys_fault sys1 = None /\
             sys_out sys1 = sys_out sys0 /\ sys_promise sys1 = sys_promise sys0 /\
             sys_host sys1 = world_after more (sys_host sys0)).
  { clear. unfold run, world_after.
    induction more as [|a rest IH]; intros sys0 HI Hout Hpc Hf; cbn [fold_left].
    - repeat split; assumption.
    - destruct (returned_step onHostThread call now0 sys0 a code HI Hout Hpc Hf)
        as (Hpc1 & Hf1 & Hout1 & Hp1 & Hh1).
      destruct (IH (step onHostThread call sys0 a)) as (Hpc2 & Hf2 & Hout2 & Hp2 & Hh2);
        try assumption.
      + now apply Inv_step.
      + now apply out_unwritten_step.
      + rewrite Hpc2, Hf2, Hout2, Hp2, Hh2, Hout1, Hp1, Hh1. repeat split. }
  destruct (Hafter sys HI Hout Hpc Hf) as (H1 & H2 & H3 & H4 & H5).
  repeat split; try assumption.
  - subst code. unfold real_result.
    pose proof (inv_value _ _ _ HI Hf) as Hvalue.
    pose proof (inv_pc _ _ _ HI Hf) as Hpcs. rewrite Hpc in Hvalue, Hpcs.
    destruct (real_of call (sys_ran sys)) as [v|] eqn:Hreal; [|reflexivity].
    exfalso. unfold real_of in Hreal.
    destruct (sys_ran sys) as [[h0 p0]|] eqn:Hran; [|discriminate].
    destruct (isCancelled p0) eqn:Hc0; [discriminate|].
    apply (dispatch_not_timeout call h0 p0 Hc0). congruence.
  - subst code.
    pose proof (inv_value _ _ _ HI Hf) as Hvalue. rewrite Hpc in Hvalue.
    destruct (real_of call (sys_ran sys)) as [v|] eqn:Hreal; [|tauto].
    exfalso. unfold real_of in Hreal.
    pose proof (inv_pc _ _ _ HI Hf) as Hpcs. rewrite Hpc in Hpcs.
    destruct (sys_ran sys) as [[h0 p0]|] eqn:Hran; [|discriminate].
    destruct (isCancelled p0) eqn:Hc0; [discriminate|].
    apply (dispatch_not_timeout call h0 p0 Hc0). congruence.
Qed.

Lemma ran_at_once_step call now0 sys a :
  Inv call now0 sys -> ran_at_once call sys ->
  ran_at_once call (step true call sys a).
Proof.
  intros HI Hran. unfold step. destruct (sys_fault sys) eqn:Hf; [exact Hran|].
  destruct a as [| | |ms|h'].
  - unfold wrapper_step. destruct (sys_pc sys) eqn:Hpc.
    + pose proof (inv_pc _ _ _ HI Hf) as H. rewrite Hpc in H. destruct H as (Hp & _ & _).
      unfold invoke.
      destruct (run_body_fresh call sys Hp) as [(h1 & out & code & Hrun & ->)|[_ ->]];
        intros _; cbn [sys_fault sys_ran]; [intros _|discriminate].
      unfold real_of. cbn [isCancelled Promise.make m_cancelled]. rewrite Hrun. cbn. eauto.
    + destruct (ready _); [|destruct (_ <=? _)%Z];
        intros _ Hf'; apply Hran; congruence.
    + intros _ Hf'. apply Hran; congruence.
    + destruct (ready _); intros _ Hf'; apply Hran; congruence.
    + destruct (set_value _ _); intros _ Hf'; [apply Hran; congruence | discriminate Hf'].
    + destruct (m_promise _); intros _ Hf'; apply Hran; congruence.
    + exact Hran.
  - unfold wait_times_out. destruct (sys_pc sys) eqn:Hpc; try exact Hran.
    destruct (_ <=? _)%Z; [|exact Hran].
    intros _ Hf'. apply Hran; congruence.
  - unfold host_step. destruct (sys_queue sys) as [c|] eqn:Hq; [|exact Hran].
    exfalso. destruct (inv_queue _ _ _ HI c Hq) as [_ Hnone].
    destruct (sys_pc sys) eqn:Hpc;
      try (destruct Hran as [v Hv]; [congruence | exact Hf |];
           rewrite Hnone in Hv; discriminate Hv).
    pose proof (inv_pc _ _ _ HI Hf) as H. rewrite Hpc in H. destruct H as (_ & Hqueue & _).
    congruence.
  - intros Hp _. exact (Hran Hp Hf).
  - intros Hp _. exact (Hran Hp Hf).
Qed.

Lemma ran_at_once_run call now0 schedule sys :
  Inv call now0 sys -> ran_at_once call sys ->
  ran_at_once call (run true call schedule sys).
Proof.
  unfold run. revert sys.
  induction schedule as [|a rest IH]; intros sys HI Hran; cbn [fold_left]; [exact Hran|].
  apply IH; [now apply Inv_step | now apply ran_at_once_step with now0].
Qed.

(** X15.  A call made on the host thread never times out: the body runs
    inside the wrapper's call of the entry point, nothing is queued, and
    whatever the clock and the waits do afterwards - also when the first
    wait reports a timeout and the wrapper cancels - the code the wrapper
    returns is the one the body stored, which is never
    [MUMBLE_EC_API_REQUEST_TIMEOUT]. *)
Theorem host_thread_call_never_times_out
    (call : APICall) (h : Host) (now0 : Z) (schedule : list Action)
    (code : mumble_error_t) :
  let sys := run true call schedule (init h now0) in
  sys_pc sys = W_returned code ->
  real_result call sys = Some code /\
  code <> MUMBLE_EC_API_REQUEST_TIMEOUT /\
  sys_queue sys = None.
Proof.
  intros sys Hpc.
  assert (HI : Inv call now0 sys) by (apply Inv_run, Inv_init).
  assert (Hran : ran_at_once call sys).
  { apply ran_at_once_run with now0; [apply Inv_init|]. intros Hx. now contradiction Hx. }
  assert (Hf : sys_fault sys = None).
  { destruct (sys_fault sys) eqn:Hfault; [|reflexivity].
    destruct (inv_dead _ _ _ HI) as [_ [H|H]]; congruence. }
  destruct Hran as [v Hv]; [congruence | exact Hf |].
  pose proof (inv_value _ _ _ HI Hf) as Hvalue.
  pose proof (inv_pc _ _ _ HI Hf) as Hpcs. rewrite Hpc in Hpcs. rewrite Hv in Hvalue.
  assert (v = code) as -> by congruence.
  unfold real_result. split; [exact Hv|]. split.
  - intros ->. unfold real_of in Hv.
    destruct (sys_ran sys) as [[h0 p0]|]; [|discriminate].
    destruct (isCancelled p0) eqn:Hc0; [discriminate|].
    exact (dispatch_not_timeout call h0 p0 Hc0 Hv).
  - destruct (sys_queue sys) as [c|] eqn:Hq; [|reflexivity].
    destruct (inv_queue _ _ _ HI c Hq) as [_ Hnone]. rewrite Hnone in Hv. discriminate Hv.
Qed.

(** ** Teardown of the curator *)

Lemma destroy_fold (rows : list (Z * Entry)) (heap : gmap Z Block) printed :
  let state :=
    fold_left
      (fun state current =>
         let entry := snd current in
         (Curator.run_deleter (m_deleter entry) (fst current) (fst state),
          snd state ++ [(m_pluginID entry, m_sourceFunctionName entry)]))
      rows (heap, printed) in
  (forall ptr,
     fst state !! ptr = if bool_decide (ptr ∈ map fst rows) then None else heap !! ptr) /\
  snd state
  = printed ++ map (fun row => (m_pluginID (snd row), m_sourceFunctionName (snd row))) rows.
Proof.
  revert heap printed. induction rows as [|[ptr0 entry] rest IH]; intros heap printed.
  - cbn. split; [reflexivity | now rewrite app_nil_r].
  - cbn [fold_left fst snd map]. destruct (IH (Curator.run_deleter (m_deleter entry) ptr0 heap)
      (printed ++ [(m_pluginID entry, m_sourceFunctionName entry)])) as [Hheap Hprinted].
    cbn zeta in *. split.
    + intros ptr. rewrite Hheap.
      destruct (m_deleter entry). unfold Curator.run_deleter, Curator.free.
      destruct (decide (ptr = ptr0)) as [->|Hne].
      * rewrite lookup_delete_eq.
        rewrite (bool_decide_eq_true_2 (ptr0 ∈ ptr0 :: map fst rest)) by left.
        now destruct (bool_decide _).
      * rewrite lookup_delete_ne by congruence.
        destruct (bool_decide (ptr ∈ map fst rest)) eqn:Hin.
        -- apply bool_decide_eq_true_1 in Hin.
           rewrite bool_decide_eq_true_2; [reflexivity | now right].
        -- apply bool_decide_eq_false_1 in Hin.
           rewrite bool_decide_eq_false_2; [reflexivity|].
           intros Hx. apply elem_of_cons in Hx as [Hx|Hx]; [congruence | contradiction].
    + rewrite Hprinted, <- app_assoc. reflexivity.
Qed.

(** X16.  When the curator is destroyed, every pointer it still tracks is
    freed - its block leaves the heap - and the blocks it does not track
    stay; one line is printed per entry, naming the plugin and the function
    that entry records.  When curator and heap were in step, as they are
    after any run of calls, the heap is empty afterwards. *)
Theorem teardown_frees_every_tracked_buffer
    (entries : gmap Z Entry) (blocks : gmap Z Block) :
  let heap' := fst (destroy_curator entries blocks) in
  let printed := snd (destroy_curator entries blocks) in
  (forall ptr,
     heap' !! ptr = match entries !! ptr with Some _ => None | None => blocks !! ptr end) /\
  length printed = size entries /\
  (forall id name,
     In (id, name) printed <->
     exists ptr entry,
       entries !! ptr = Some entry /\
       m_pluginID entry = id /\ m_sourceFunctionName entry = name) /\
  ((forall ptr, is_Some (entries !! ptr) <-> is_Some (blocks !! ptr)) -> heap' = ∅).
Proof.
  intros heap' printed. subst heap' printed. unfold destroy_curator.
  destruct (destroy_fold (map_to_list entries) blocks []) as [Hheap Hprinted].
  cbn zeta in Hheap, Hprinted. rewrite Hprinted. cbn [app].
  assert (Hfreed : forall ptr,
             fst (fold_left
                    (fun state current =>
                       let entry := snd current in
                       (Curator.run_deleter (m_deleter entry) (fst current) (fst state),
                        snd state ++ [(m_pluginID entry, m_sourceFunctionName entry)]))
                    (map_to_list entries) (blocks, [])) !! ptr
             = match entries !! ptr with Some _ => None | None => blocks !! ptr end).
  { intros ptr. rewrite Hheap.
    destruct (entries !! ptr) as [entry|] eqn:Hentry.
    - rewrite bool_decide_eq_true_2; [reflexivity|].
      apply list_elem_of_fmap. exists (ptr, entry). split; [reflexivity|].
      now apply elem_of_map_to_list.
    - rewrite bool_decide_eq_false_2; [reflexivity|].
      intros Hin. apply list_elem_of_fmap in Hin as ([ptr' entry] & -> & Hin).
      apply elem_of_map_to_list in Hin. cbn in Hentry. congruence. }
  split; [exact Hfreed|]. split; [|split].
  - rewrite length_map. apply length_map_to_list.
  - intros id name. rewrite in_map_iff. split.
    + intros ([ptr entry] & [= <- <-] & Hin). exists ptr, entry.
      apply list_elem_of_In, elem_of_map_to_list in Hin. auto.
    + intros (ptr & entry & Hentry & <- & <-). exists (ptr, entry).
      split; [reflexivity|]. now apply list_elem_of_In, elem_of_map_to_list.
  - intros Hstep. apply map_eq. intros ptr. rewrite Hfreed, lookup_empty.
    destruct (entries !! ptr) as [entry|] eqn:Hentry; [reflexivity|].
    apply eq_None_not_Some. rewrite <- Hstep, Hentry. intros [? Hx]. discriminate Hx.
Qed.

(** ** What no call does *)



End API.

(** * Key codes *)

(** X17.  [qtKeyCodeToAPIKeyCode] tells the keys of its [switch] apart: two
    different keys get the same key code only when they are the two keys
    that share a [case] - [Return] and [Enter], [Super_L] and [Super_R] - or
    when both are none of the keys named, and then the code is
    [MUMBLE_KC_INVALID]; no key named gets [MUMBLE_KC_INVALID]. *)
Theorem qtKeyCodeToAPIKeyCode_collisions (a b : QtKey) :
  qtKeyCodeToAPIKeyCode a = qtKeyCodeToAPIKeyCode b ->
  a <> b ->
  (qtKeyCodeToAPIKeyCode a = MUMBLE_KC_ENTER /\
   (a = Key_Return \/ a = Key_Enter) /\ (b = Key_Return \/ b = Key_Enter)) \/
  (qtKeyCodeToAPIKeyCode a = MUMBLE_KC_SUPER /\
   (a = Key_Super_L \/ a = Key_Super_R) /\ (b = Key_Super_L \/ b = Key_Super_R)) \/
  (qtKeyCodeToAPIKeyCode a = MUMBLE_KC_INVALID /\
   (exists keyCode, a = Key_other keyCode) /\ (exists keyCode, b = Key_other keyCode)).
Proof.
  intros Hsame Hdiff.
  destruct a; destruct b; cbn in Hsame; try discriminate Hsame;
    try (exfalso; apply Hdiff; reflexivity);
    try (left; repeat split; auto; fail);
    try (right; left; repeat split; auto; fail).
  right; right. repeat split; eauto.
Qed.

(** * Shortcut targets *)

Lemma ShortcutTarget_eq_spec (t o : Shortcuts.ShortcutTarget) :
  Shortcuts.ShortcutTarget_eq t o = true <->
  Shortcuts.bUsers t = Shortcuts.bUsers o /\
  Shortcuts.bForceCenter t = Shortcuts.bForceCenter o /\
  Shortcuts.bCurrentSelection t = Shortcuts.bCurrentSelection o /\
  if Shortcuts.bUsers t
  then Shortcuts.qlUsers t = Shortcuts.qlUsers o /\
       Shortcuts.qlSessions t = Shortcuts.qlSessions o
  else Shortcuts.iChannel t = Shortcuts.iChannel o /\
       Shortcuts.bLinks t = Shortcuts.bLinks o /\
       Shortcuts.bChildren t = Shortcuts.bChildren o /\
       Shortcuts.qsGroup t = Shortcuts.qsGroup o.
Proof.
  unfold Shortcuts.ShortcutTarget_eq.
  destruct (eqb_spec (Shortcuts.bUsers t) (Shortcuts.bUsers o)) as [Hu|Hu]; cbn [negb orb];
    [|split; [discriminate | tauto]].
  destruct (eqb_spec (Shortcuts.bForceCenter t) (Shortcuts.bForceCenter o)) as [Hf|Hf];
    cbn [negb orb]; [|split; [discriminate | tauto]].
  destruct (eqb_spec (Shortcuts.bCurrentSelection t) (Shortcuts.bCurrentSelection o))
    as [Hc|Hc]; cbn [negb orb]; [|split; [discriminate | tauto]].
  destruct (Shortcuts.bUsers t).
  - rewrite andb_true_iff, !bool_decide_eq_true. tauto.
  - rewrite !andb_true_iff, Z.eqb_eq, !eqb_true_iff, String.eqb_eq. tauto.
Qed.

(** X18.  [ShortcutTarget::operator==] is an equivalence relation: every
    target equals itself, and where [a == b] holds, [b == a] holds and
    [b == c] gives [a == c] - the fields it compares depend on [bUsers],
    which it compares first.  What it identifies, [qHash] and
    [isServerSpecific] do not tell apart: equal targets have the same hash,
    whatever [qHash] of a [QString] is, and are server specific together. *)
Theorem equal_targets_hash_alike
    (qHash_QString : string -> Z) (a b : Shortcuts.ShortcutTarget) :
  Shortcuts.ShortcutTarget_eq a a = true /\
  (Shortcuts.ShortcutTarget_eq a b = true ->
   Shortcuts.ShortcutTarget_eq b a = true /\
   (forall c, Shortcuts.ShortcutTarget_eq b c = true ->
              Shortcuts.ShortcutTarget_eq a c = true) /\
   Shortcuts.qHash qHash_QString a = Shortcuts.qHash qHash_QString b /\
   Shortcuts.isServerSpecific a = Shortcuts.isServerSpecific b).
Proof.
  split.
  { apply ShortcutTarget_eq_spec. destruct (Shortcuts.bUsers a); tauto. }
  intros Hab. apply ShortcutTarget_eq_spec in Hab as (Hu & Hf & Hc & Hrest).
  split; [|split; [|split]].
  - apply ShortcutTarget_eq_spec. rewrite <- Hu.
    destruct (Shortcuts.bUsers a); intuition congruence.
  - intros c Hbc. apply ShortcutTarget_eq_spec in Hbc as (Hu' & Hf' & Hc' & Hrest').
    apply ShortcutTarget_eq_spec. rewrite <- Hu in Hrest'.
    destruct (Shortcuts.bUsers a); intuition congruence.
  - unfold Shortcuts.qHash. rewrite <- Hu, <- Hf, <- Hc.
    destruct (Shortcuts.bUsers a).
    + destruct Hrest as [_ <-]. reflexivity.
    + destruct Hrest as (<- & <- & <- & <-). reflexivity.
  - unfold Shortcuts.isServerSpecific. rewrite <- Hu, <- Hc.
    destruct (Shortcuts.bUsers a); [now rewrite !andb_false_r|].
    destruct Hrest as (<- & _). reflexivity.
Qed.

Lemma xor_fold_shift {A} (f : A -> Z) (l : list A) (h k : Z) :
  fold_left (fun h x => Z.lxor h (f x)) l (Z.lxor h k)
  = Z.lxor (fold_left (fun h x => Z.lxor h (f x)) l h) k.
Proof.
  revert h. induction l as [|x rest IH]; intros h; cbn [fold_left]; [reflexivity|].
  rewrite <- IH. f_equal. rewrite !Z.lxor_assoc. f_equal. apply Z.lxor_comm.
Qed.

(** X19.  The hash of a list of shortcut targets does not depend on the
    order of the list: it folds the hashes of the elements, and the count,
    together with exclusive or. *)
Theorem qHash_list_ignores_order
    (qHash_QString : string -> Z) (l l' : list Shortcuts.ShortcutTarget) :
  Permutation l l' ->
  Shortcuts.qHash_list qHash_QString l = Shortcuts.qHash_list qHash_QString l'.
Proof.
  intros Hperm. unfold Shortcuts.qHash_list.
  rewrite (Permutation_length Hperm).
  generalize (Shortcuts.quint32 (Z.of_nat (length l'))) as h.
  induction Hperm as [|x l1 l2 _ IH|x y l1|l1 l2 l3 _ IH1 _ IH2]; intros h; cbn [fold_left].
  - reflexivity.
  - apply IH.
  - f_equal. rewrite !Z.lxor_assoc. f_equal. apply Z.lxor_comm.
  - now rewrite IH1.
Qed.

(** * The audio input dialog *)

Lemma int_wrap_id z : in_int z -> int_wrap z = z.
Proof.
  unfold in_int, int_wrap. intros Hz.
  rewrite Z.mod_small by lia. lia.
Qed.

Lemma int_wrap_in_int z : in_int (int_wrap z).
Proof.
  unfold in_int, int_wrap.
  pose proof (Z.mod_pos_bound (z + 2147483648) 4294967296 ltac:(lia)). lia.
Qed.

(** Drop the wrap-around where the value is in range, innermost first. *)
Ltac no_overflow :=
  unfold int_add, int_sub, int_mul, int_neg, int_div;
  repeat match goal with
  | |- context [int_wrap ?z] => rewrite (int_wrap_id z) by (unfold in_int; lia)
  end.

Lemma load_save_frames v :
  (1 <= v <= 1073741824)%Z -> load_qsFrames (save_iFramesPerPacket v) = v.
Proof.
  intros Hrange. unfold save_iFramesPerPacket, load_qsFrames.
  destruct (Z.eqb_spec v 1) as [->|Hv]; [reflexivity|].
  unfold int_mul, int_sub. rewrite (int_wrap_id (v - 1)) by (unfold in_int; lia).
  rewrite (int_wrap_id ((v - 1) * 2)) by (unfold in_int; lia).
  destruct (Z.eqb_spec ((v - 1) * 2) 1) as [Hone|_]; [lia|].
  unfold int_add, int_div. rewrite Z.quot_mul by lia.
  no_overflow. lia.
Qed.

(** X20.  The frames slider and the setting behind it, for a slider value
    [v] from 1 to 2^30: [AudioInputDialog::save] stores 1 for 1 and
    [2 * (v - 1)] otherwise, without overflow; what [load] gives the slider
    for that setting is [v] again; the label of the slider shows 10 ms for
    each frame that [save] stores - exactly so up to [v = 107374183], and
    wrapped around to 32 bits above, where the product of the label no
    longer fits an [int].  The other way round a number of frames survives
    [load] and [save] when it is 1 or even; an odd number above 1 comes
    back one less. *)
Theorem frames_slider_round_trip (v : Z) :
  (1 <= v <= 1073741824)%Z ->
  save_iFramesPerPacket v = (if (v =? 1)%Z then 1 else 2 * (v - 1))%Z /\
  load_qsFrames (save_iFramesPerPacket v) = v /\
  qlFrames_ms v = int_wrap (10 * save_iFramesPerPacket v) /\
  ((v <= 107374183)%Z -> qlFrames_ms v = (10 * save_iFramesPerPacket v)%Z) /\
  save_iFramesPerPacket (load_qsFrames v)
  = (if Z.odd v && (1 <? v)%Z then v - 1 else v)%Z.
Proof.
  intros Hrange.
  assert (Hsave : save_iFramesPerPacket v = (if (v =? 1)%Z then 1 else 2 * (v - 1))%Z).
  { unfold save_iFramesPerPacket. destruct (Z.eqb_spec v 1); [reflexivity|].
    no_overflow. lia. }
  split; [exact Hsave|]. rewrite Hsave.
  unfold load_qsFrames, qlFrames_ms, save_iFramesPerPacket.
  destruct (Z.eqb_spec v 1) as [->|Hv]; [cbn; repeat split; reflexivity|].
  destruct (Z.eqb_spec (2 * (v - 1)) 1) as [Hone|_]; [lia|].
  pose proof (Z.div_mod v 2 ltac:(lia)) as Hsplit.
  pose proof (Z.mod_pos_bound v 2 ltac:(lia)) as Hrem.
  assert (Hhalf : Z.quot (2 * (v - 1)) 2 = (v - 1)%Z).
  { rewrite Z.mul_comm. apply Z.quot_mul. lia. }
  assert (Hquot : Z.quot v 2 = (v / 2)%Z) by (apply Z.quot_div_nonneg; lia).
  split; [|split; [|split]].
  - unfold int_add, int_div. rewrite Hhalf. no_overflow. lia.
  - unfold int_mul, int_sub. rewrite (int_wrap_id (v - 1)) by (unfold in_int; lia).
    f_equal. lia.
  - intros Hsmall. no_overflow. lia.
  - unfold int_add, int_div at 1. rewrite Hquot.
    rewrite (int_wrap_id (v / 2)) by (unfold in_int; lia).
    rewrite (int_wrap_id (v / 2 + 1)) by (unfold in_int; lia).
    destruct (Z.eqb_spec (v / 2 + 1) 1) as [Hq|_]; [lia|].
    destruct (Z.ltb_spec 1 v) as [_|?]; [|lia].
    no_overflow.
    destruct (Z.odd v) eqn:Hodd; cbn [andb].
    + apply Z.odd_spec in Hodd as [k Hk]. lia.
    + rewrite <- Z.negb_even in Hodd.
      apply negb_false_iff, Z.even_spec in Hodd as [k Hk]. lia.
Qed.


(** X22.  The bit rate that [updateBitrate] shows, for a quality [q] of at
    most 2147435647 and a frames slider from 1 to 2684307, where no step
    overflows: it is the quality plus 800 plus the shares of 28000 (of 37600
    over TCP) and of the position data (9600) that fall to one of [p]; so it
    is above the quality by at least 800, and moving the frames slider up
    never raises it - a rate that is within the bandwidth limit stays
    within it.  With the slider at 0 the function divides by zero. *)
Theorem updateBitrate_total_falls_with_frames
    (q p p' : Z) (TcpModeEnabled bTransmitPosition : bool) :
  (-2147483648 <= q <= 2147435647)%Z ->
  (1 <= p <= p')%Z -> (p' <= 2684307)%Z ->
  exists total total',
    updateBitrate_total q p TcpModeEnabled bTransmitPosition = Some total /\
    updateBitrate_total q p' TcpModeEnabled bTransmitPosition = Some total' /\
    total = (q + 800 + (if TcpModeEnabled then 37600 else 28000) / p
             + (if bTransmitPosition then 9600 else 0) / p)%Z /\
    (q + 800 <= total' <= total)%Z /\
    (forall uiSession iMaxBandwidth,
       updateBitrate_red uiSession iMaxBandwidth total = false ->
       updateBitrate_red uiSession iMaxBandwidth total' = false) /\
    updateBitrate_total q 0 TcpModeEnabled bTransmitPosition = None.
Proof.
  intros Hq Hp Hp'.
  assert (Hshape : forall n,
             (1 <= n <= 2684307)%Z ->
             updateBitrate_total q n TcpModeEnabled bTransmitPosition
             = Some (q + 800 + (if TcpModeEnabled then 37600 else 28000) / n
                     + (if bTransmitPosition then 9600 else 0) / n)%Z).
  { intros n Hn. unfold updateBitrate_total.
    destruct (Z.eqb_spec n 0) as [?|_]; [lia|]. f_equal.
    assert (Hover : 
              int_div
                (if TcpModeEnabled
                 then int_add
                        (int_mul (int_mul 100 8)
                           (int_add (int_add (int_add (int_add (int_add 20 8) 4) 1) 2) n))
                        (int_mul (int_mul 100 8) 12)
                 else int_mul (int_mul 100 8)
                        (int_add (int_add (int_add (int_add (int_add 20 8) 4) 1) 2) n)) n
              = (800 + (if TcpModeEnabled then 37600 else 28000) / n)%Z).
    { assert (Hdiv : forall extra,
                 (0 <= extra <= 37600)%Z ->
                 int_wrap (Z.quot (800 * n + extra) n) = (800 + extra / n)%Z).
      { intros extra Hextra.
        rewrite Z.quot_div_nonneg, Z.div_add_l by lia.
        assert (0 <= extra / n <= extra)%Z.
        { split; [apply Z.div_pos; lia|]. apply Z.div_le_upper_bound; nia. }
        apply int_wrap_id. unfold in_int. lia. }
      destruct TcpModeEnabled; unfold int_div.
      - no_overflow. replace (100 * 8 * (20 + 8 + 4 + 1 + 2 + n) + 100 * 8 * 12)%Z
          with (800 * n + 37600)%Z by lia. apply Hdiv. lia.
      - no_overflow. replace (100 * 8 * (20 + 8 + 4 + 1 + 2 + n))%Z
          with (800 * n + 28000)%Z by lia. apply Hdiv. lia. }
    rewrite Hover.
    assert (Hpos : int_div (int_mul (int_mul (if bTransmitPosition then 12 else 0) 100) 8) n
                   = ((if bTransmitPosition then 9600 else 0) / n)%Z).
    { assert (Hdiv : forall amount,
                 (0 <= amount <= 9600)%Z -> int_wrap (Z.quot amount n) = (amount / n)%Z).
      { intros amount Hamount. rewrite Z.quot_div_nonneg by lia.
        assert (0 <= amount / n <= amount)%Z.
        { split; [apply Z.div_pos; lia|]. apply Z.div_le_upper_bound; nia. }
        apply int_wrap_id. unfold in_int. lia. }
      destruct bTransmitPosition; unfold int_div.
      - no_overflow. apply Hdiv. lia.
      - no_overflow. apply Hdiv. lia. }
    rewrite Hpos.
    assert (0 <= (if TcpModeEnabled then 37600 else 28000) / n <= 37600)%Z.
    { split; [apply Z.div_pos; destruct TcpModeEnabled; lia|].
      apply Z.div_le_upper_bound; destruct TcpModeEnabled; nia. }
    assert (0 <= (if bTransmitPosition then 9600 else 0) / n <= 9600)%Z.
    { split; [apply Z.div_pos; destruct bTransmitPosition; lia|].
      apply Z.div_le_upper_bound; destruct bTransmitPosition; nia. }
    no_overflow. lia. }
  eexists _, _. split; [apply Hshape; lia|]. split; [apply Hshape; lia|].
  split; [reflexivity|].
  assert (Hover : (0 <= (if TcpModeEnabled then 37600 else 28000) / p'
                   <= (if TcpModeEnabled then 37600 else 28000) / p)%Z).
  { split; [apply Z.div_pos; destruct TcpModeEnabled; lia|].
    apply Z.div_le_compat_l; destruct TcpModeEnabled; lia. }
  assert (Hpos : (0 <= (if bTransmitPosition then 9600 else 0) / p'
                  <= (if bTransmitPosition then 9600 else 0) / p)%Z).
  { split; [apply Z.div_pos; destruct bTransmitPosition; lia|].
    apply Z.div_le_compat_l; destruct bTransmitPosition; lia. }
  split; [lia|]. split; [|reflexivity].
  intros uiSession iMaxBandwidth. unfold updateBitrate_red.
  destruct (uiSession =? 0)%Z; cbn [negb andb]; [reflexivity|].
  rewrite !Z.gtb_ltb, !Z.ltb_ge. lia.
Qed.

(** * Saving and loading the noise-suppression strength *)

(** X23.  [Settings::save] followed by [Settings::load] into a
    default-constructed [Settings], as at the next start: the strength
    comes back as the minimum of the strength saved and the value under
    the legacy key (0 when unset), which [save] leaves in the store.  So it
    comes back unchanged exactly when it is not above that value - a
    strength above 0 never does - and the default is saved by removing the
    key. *)
Theorem saved_noise_strength_reloads_as_minimum
    (settings_ptr : gmap string Z) (st fresh : Settings) :
  iSpeexNoiseCancelStrength fresh = def_iSpeexNoiseCancelStrength ->
  let legacy := default 0%Z (settings_ptr !! "audio/noisesupress"%string) in
  let stored := save_noise_suppression settings_ptr st in
  let reloaded := iSpeexNoiseCancelStrength (load_noise_suppression stored fresh) in
  stored !! "audio/noisesupress"%string = settings_ptr !! "audio/noisesupress"%string /\
  reloaded = Z.min legacy (iSpeexNoiseCancelStrength st) /\
  (reloaded = iSpeexNoiseCancelStrength st <-> (iSpeexNoiseCancelStrength st <= legacy)%Z) /\
  (iSpeexNoiseCancelStrength st = def_iSpeexNoiseCancelStrength ->
   stored !! "audio/speexNoiseCancelStrength"%string = None).
Proof.
  intros Hfresh legacy stored reloaded.
  assert (Hlegacy : stored !! "audio/noisesupress"%string
                    = settings_ptr !! "audio/noisesupress"%string).
  { subst stored. unfold save_noise_suppression, SAVELOAD_save_int.
    destruct (negb _); [now rewrite lookup_insert_ne | now rewrite lookup_delete_ne]. }
  assert (Hloaded : default def_iSpeexNoiseCancelStrength
                      (stored !! "audio/speexNoiseCancelStrength"%string)
                    = iSpeexNoiseCancelStrength st).
  { subst stored. unfold save_noise_suppression, SAVELOAD_save_int.
    destruct (Z.eqb_spec (iSpeexNoiseCancelStrength st) def_iSpeexNoiseCancelStrength)
      as [Heq|Hne]; cbn [negb].
    - now rewrite lookup_delete_eq.
    - now rewrite lookup_insert_eq. }
  assert (Hreloaded : reloaded = Z.min legacy (iSpeexNoiseCancelStrength st)).
  { subst reloaded. unfold load_noise_suppression, SAVELOAD_int.
    cbn [iSpeexNoiseCancelStrength]. rewrite Hlegacy, Hfresh, Hloaded.
    apply std_min_is_min. }
  split; [exact Hlegacy|]. split; [exact Hreloaded|]. split; [rewrite Hreloaded; lia|].
  intros Hdef. subst stored. unfold save_noise_suppression, SAVELOAD_save_int.
  rewrite Hdef, Z.eqb_refl. cbn [negb]. apply lookup_delete_eq.
Qed.

(** * Saving and loading an [int] setting *)

(** X25.  The two [SAVELOAD] macros fit each other: what [Settings::save]
    writes for an [int] variable - the value under its key, or no key when
    the value is the default - is read back by [Settings::load] as that
    value, when the variable holds the default before the load, as in a
    default-constructed [Settings]; and [save] touches no other key. *)
Theorem SAVELOAD_round_trip
    (settings_ptr : gmap string Z) (var def : Z) (name : string) :
  let stored := SAVELOAD_save_int settings_ptr var def name in
  SAVELOAD_int stored def name = var /\
  (stored !! name = None <-> var = def) /\
  (forall other, other <> name -> stored !! other = settings_ptr !! other).
Proof.
  intros stored. subst stored. unfold SAVELOAD_save_int, SAVELOAD_int.
  destruct (Z.eqb_spec var def) as [->|Hne]; cbn [negb].
  - rewrite lookup_delete_eq. repeat split; try reflexivity.
    intros other Hother. now rewrite lookup_delete_ne.
  - rewrite lookup_insert_eq. split; [reflexivity|]. split.
    + split; [discriminate | contradiction].
    + intros other Hother. now rewrite lookup_insert_ne.
Qed.

(** X26.  The frames slider over a restart: [AudioInputDialog::save]
    computes the setting from the slider value [v >= 1], [Settings::save]
    stores it, [Settings::load] reads it into a default-constructed
    [Settings], and [AudioInputDialog::load] then gives the slider [v]
    again.  *)
Theorem frames_slider_survives_restart (settings_ptr : gmap string Z) (v : Z) :
  (1 <= v <= 1073741824)%Z ->
  let stored :=
    SAVELOAD_save_int settings_ptr (save_iFramesPerPacket v) def_iFramesPerPacket
      "net/framesperpacket" in
  load_qsFrames (SAVELOAD_int stored def_iFramesPerPacket "net/framesperpacket") = v.
Proof.
  intros Hrange stored. subst stored. unfold SAVELOAD_save_int, SAVELOAD_int.
  pose proof (load_save_frames v Hrange) as Hload.
  destruct (Z.eqb_spec (save_iFramesPerPacket v) def_iFramesPerPacket) as [Heq|Hne];
    cbn [negb].
  - rewrite lookup_delete_eq. cbn [default]. now rewrite <- Heq.
  - rewrite lookup_insert_eq. exact Hload.
Qed.

(** * The statements at concrete inputs

    The constants of the missing headers are taken as 1000, 100 and
    0x10400. *)

(** C1 as stated fails for [freeMemory]: plugin 7 is not registered, and its
    call frees the buffer at 16 with [MUMBLE_STATUS_OK]. *)
Lemma freeMemory_accepts_unknown_plugin :
  pluginExists (pluginManager example_host) 7 = false /\
  result_code
    (dispatch 1000 100 66560 (Call_freeMemory_v_1_0_x 7 16) example_host Promise.make)
  = Some MUMBLE_STATUS_OK /\
  result_code
    (dispatch 1000 100 66560 (Call_freeMemory_v_1_0_x 7 16) example_host Promise.make)
  <> Some MUMBLE_EC_INVALID_PLUGIN_ID.
Proof. split; [reflexivity|]. split; [reflexivity|]. discriminate. Qed.

Lemma unknown_plugin_is_rejected_first_witness :
  pluginExists (pluginManager example_host) 7 = false /\
  dispatch 1000 100 66560 (Call_getUserName_v_1_0_x 7 99 42) example_host Promise.make
  = Returned example_host NotWritten (fulfilled MUMBLE_EC_INVALID_PLUGIN_ID).
Proof.
  split; [reflexivity|].
  apply (unknown_plugin_is_rejected_first 1000 100 66560); reflexivity.
Defined.

Lemma wrapper_delivers_exactly_once_witness :
  let sys :=
    run 1000 100 66560 false (Call_getUserName_v_1_0_x 3 1 42) race_schedule
      (init example_host 0) in
  sys_pc sys = W_returned MUMBLE_STATUS_OK /\
  m_promise (sys_promise sys) = Some MUMBLE_STATUS_OK /\
  m_cancelled (sys_promise sys) = true /\
  (0 + 800 <= sys_now sys)%Z.
Proof.
  intros sys.
  destruct (wrapper_delivers_exactly_once 1000 100 66560 false
              (Call_getUserName_v_1_0_x 3 1 42) example_host 0 race_schedule)
    as (_ & Hlate & _ & Hreturned & _).
  fold sys in Hlate, Hreturned.
  assert (Hpc : sys_pc sys = W_returned MUMBLE_STATUS_OK) by (vm_compute; reflexivity).
  assert (Hc : m_cancelled (sys_promise sys) = true) by (vm_compute; reflexivity).
  split; [exact Hpc|]. split; [exact (proj1 (Hreturned _ Hpc))|].
  split; [exact Hc|]. exact (Hlate Hc).
Defined.

Lemma cancelled_call_is_abandoned_witness :
  isCancelled (cancel Promise.make) = true /\
  dispatch 1000 100 66560 (Call_getUserName_v_1_0_x 3 1 42) example_host
    (cancel Promise.make)
  = Returned example_host NotWritten (cancel Promise.make).
Proof.
  split; [reflexivity|].
  apply (cancelled_call_is_abandoned 1000 100 66560
           (Call_getUserName_v_1_0_x 3 1 42) example_host (cancel Promise.make)).
  reflexivity.
Defined.

Lemma returned_pointer_is_freed_once_witness :
  exists (entry : Entry) (h2 : Host),
    m_entries example_after !! 17%Z = Some entry /\
    dispatch 1000 100 66560 (Call_freeMemory_v_1_0_x 3 17) example_after Promise.make
    = Returned h2 NotWritten (fulfilled MUMBLE_STATUS_OK) /\
    heap h2 = Curator.run_deleter (m_deleter entry) 17 (heap example_after) /\
    heap h2 !! 17%Z = None /\
    m_entries h2 = delete 17%Z (m_entries example_after) /\
    m_entries h2 !! 17%Z = None /\
    dispatch 1000 100 66560 (Call_freeMemory_v_1_0_x 3 17) h2 Promise.make
    = Returned h2 NotWritten (fulfilled MUMBLE_EC_POINTER_NOT_FOUND) /\
    (forall (h' : Host) (q c : Z),
       m_entries h' !! q = None ->
       dispatch 1000 100 66560 (Call_freeMemory_v_1_0_x c q) h' Promise.make
       = Returned h' NotWritten (fulfilled MUMBLE_EC_POINTER_NOT_FOUND)).
Proof.
  apply (returned_pointer_is_freed_once 1000 100 66560 (Call_getUserName_v_1_0_x 3 1 42)
           example_host example_after (Out_string 17) (fulfilled MUMBLE_STATUS_OK));
    vm_compute; reflexivity.
Defined.

Lemma typed_getter_checks_type_witness :
  pluginExists (pluginManager example_host) 3 = true /\
  dispatch 1000 100 66560
    (Call_getMumbleSetting_int_v_1_0_x 3 MUMBLE_SK_AUDIO_INPUT_VAD_SILENCE_THRESHOLD)
    example_host Promise.make
  = Returned example_host NotWritten (fulfilled MUMBLE_EC_WRONG_SETTINGS_TYPE) /\
  dispatch 1000 100 66560 (Call_getMumbleSetting_double_v_1_0_x 3 MUMBLE_SK_INVALID)
    example_host Promise.make
  = Returned example_host NotWritten (fulfilled MUMBLE_EC_UNKNOWN_SETTINGS_KEY).
Proof.
  split; [reflexivity|]. split.
  - destruct (typed_getter_checks_type 1000 100 66560 ST_int 3
                MUMBLE_SK_AUDIO_INPUT_VAD_SILENCE_THRESHOLD example_host eq_refl)
      as (_ & _ & Hdouble).
    apply Hdouble. reflexivity.
  - destruct (typed_getter_checks_type 1000 100 66560 ST_double 3
                MUMBLE_SK_INVALID example_host eq_refl)
      as (Hinvalid & _ & _).
    apply Hinvalid. reflexivity.
Defined.

Lemma unsynchronized_blob_is_reported_witness :
  blob_field example_host (Call_getUserComment_v_1_0_x 3 1 43)
  = Some (1%Z, EmptyString, "9f"%string) /\
  dispatch 1000 100 66560 (Call_getUserComment_v_1_0_x 3 1 43) example_host Promise.make
  = Returned example_host NotWritten (fulfilled MUMBLE_EC_UNSYNCHRONIZED_BLOB).
Proof.
  split; [reflexivity|].
  apply (unsynchronized_blob_is_reported 1000 100 66560 (Call_getUserComment_v_1_0_x 3 1 43)
           example_host 1 "9f" (MkDatabase (fun _ => EmptyString)));
    try reflexivity; try discriminate.
  split; [|discriminate]. eexists. split; reflexivity.
Defined.

(** C7 as stated fails for the whole of a string buffer: the name of user 44
    holds a NUL character, the buffer has a cell for each of its four bytes
    and [strcpy] stops behind the first two; the last two cells of the
    buffer of the first read and of the buffer of the repeated read are
    never written. *)
Lemma string_buffer_tail_is_unwritten :
  exists h1 ptr1 h2 ptr2,
    dispatch 1000 100 66560 (Call_getUserName_v_1_0_x 3 1 44) nul_host Promise.make
    = Returned h1 (Out_string ptr1) (fulfilled MUMBLE_STATUS_OK) /\
    dispatch 1000 100 66560 (Call_getUserName_v_1_0_x 3 1 44) h1 Promise.make
    = Returned h2 (Out_string ptr2) (fulfilled MUMBLE_STATUS_OK) /\
    same_backing nul_host h1 /\
    heap h1 !! ptr1 = Some (CharArray [Some "A"%char; Some NUL; None; None]) /\
    heap h2 !! ptr2 = Some (CharArray [Some "A"%char; Some NUL; None; None]).
Proof.
  eexists _, _, _, _. split; [vm_compute; reflexivity|].
  split; [vm_compute; reflexivity|].
  split; [unfold same_backing; repeat split; reflexivity|].
  split; vm_compute; reflexivity.
Qed.

Lemma repeated_read_is_identical_witness :
  exists h2 o2,
    dispatch 1000 100 66560 (Call_getUserName_v_1_0_x 3 1 42) example_after Promise.make
    = Returned h2 o2 (fulfilled MUMBLE_STATUS_OK) /\
    observe h2 o2 = observe example_after (Out_string 17) /\
    determined (observe h2 o2) = true /\
    (forall ptr, returned_buffer o2 = Some ptr ->
                 heap example_after !! ptr = None /\ ptr <> 0%Z).
Proof.
  apply (repeated_read_is_identical 1000 100 66560 (Call_getUserName_v_1_0_x 3 1 42)
           example_host example_after example_after (Out_string 17)
           (fulfilled MUMBLE_STATUS_OK)).
  - reflexivity.
  - vm_compute. reflexivity.
  - reflexivity.
  - unfold same_backing. repeat split; reflexivity.
Defined.

Lemma freeMemory_ignores_caller_witness :
  (forall other : Z,
     dispatch 1000 100 66560 (Call_freeMemory_v_1_0_x other 16) example_host Promise.make
     = dispatch 1000 100 66560 (Call_freeMemory_v_1_0_x 7 16) example_host Promise.make) /\
  (is_Some (m_entries example_host !! 16%Z) ->
     result_code
       (dispatch 1000 100 66560 (Call_freeMemory_v_1_0_x 7 16) example_host Promise.make)
     = Some MUMBLE_STATUS_OK) /\
  (result_code
     (dispatch 1000 100 66560 (Call_freeMemory_v_1_0_x 7 16) example_host Promise.make)
   = Some MUMBLE_EC_POINTER_NOT_FOUND <-> m_entries example_host !! 16%Z = None).
Proof.
  apply (freeMemory_ignores_caller 1000 100 66560 7 16 example_host Promise.make);
    reflexivity.
Defined.

(** ** The scenarios of the specification *)

(** The casts between [float] and [double] at [1.0]. *)
Example float_one_round_trip :
  float_to_double float_one = S754_finite false 4503599627370496 (-52) /\
  double_to_float (float_to_double float_one) = float_one.
Proof. split; reflexivity. Qed.

(** User 42 is called Alice: [getUserName] hands out a buffer that holds
    the name and its terminator. *)
Example getUserName_Alice :
  match
    dispatch 1000 100 66560 (Call_getUserName_v_1_0_x 3 1 42) example_host Promise.make
  with
  | Returned h1 (Out_string ptr) p1 =>
      m_promise p1 = Some MUMBLE_STATUS_OK /\
      heap h1 !! ptr
      = Some (CharArray (map Some (list_ascii_of_string "Alice" ++ [NUL])))
  | _ => False
  end.
Proof. vm_compute. split; reflexivity. Qed.

(** On the late schedule the body finds the promise cancelled: the wrapper
    returns the timeout, and the host state is the one the call found. *)
Example late_body_is_abandoned :
  let sys :=
    run 1000 100 66560 false (Call_getUserName_v_1_0_x 3 1 42) late_schedule
      (init example_host 0) in
  sys_pc sys = W_returned MUMBLE_EC_API_REQUEST_TIMEOUT /\
  sys_host sys = example_host /\ sys_out sys = NotWritten /\ sys_queue sys = None.
Proof. vm_compute. repeat split; reflexivity. Qed.

(** On the overslept schedule the re-check finds the value: the real result
    is returned although the promise was cancelled. *)
Example overslept_wait_returns_result :
  let sys :=
    run 1000 100 66560 false (Call_getLocalUserID_v_1_0_x 3 1) overslept_schedule
      (init example_host 0) in
  sys_pc sys = W_returned MUMBLE_STATUS_OK /\ sys_out sys = Out_userID 42 /\
  m_cancelled (sys_promise sys) = true.
Proof. vm_compute. repeat split; reflexivity. Qed.

(** Without a connection [getActiveServerConnection] reports that there is
    none, and before the synchronization [getLocalUserID] reports that. *)
Example no_connection_scenarios (h : Host) :
  pluginExists (pluginManager h) 3 = true ->
  (sh h = None ->
   dispatch 1000 100 66560 (Call_getActiveServerConnection_v_1_0_x 3) h Promise.make
   = Returned h NotWritten (fulfilled MUMBLE_EC_NO_ACTIVE_CONNECTION)) /\
  (forall handler, sh h = Some handler -> uiSession h = 0%Z ->
   dispatch 1000 100 66560 (Call_getLocalUserID_v_1_0_x 3 (getConnectionID handler)) h
     Promise.make
   = Returned h NotWritten (fulfilled MUMBLE_EC_CONNECTION_UNSYNCHRONIZED)).
Proof.
  intros Hid. split.
  - intros Hsh. cbn [dispatch]. unfold getActiveServerConnection_v_1_0_x.
    rewrite UNLESS_CANCELLED_make, (VERIFY_PLUGIN_ID_known _ _ _ _ Hid), Hsh.
    reflexivity.
  - intros handler Hsh Hsession. cbn [dispatch]. unfold getLocalUserID_v_1_0_x.
    rewrite UNLESS_CANCELLED_make, (VERIFY_PLUGIN_ID_known _ _ _ _ Hid).
    unfold VERIFY_CONNECTION, ENSURE_CONNECTION_SYNCHRONIZED.
    rewrite Hsh, Z.eqb_refl, Hsession. reflexivity.
Qed.


Lemma wrong_connection_is_rejected_witness :
  dispatch 1000 100 66560 (Call_getUserName_v_1_0_x 3 7 42) example_host Promise.make
  = Returned example_host NotWritten (fulfilled MUMBLE_EC_CONNECTION_NOT_FOUND).
Proof.
  apply (wrong_connection_is_rejected 1000 100 66560
           (Call_getUserName_v_1_0_x 3 7 42) example_host 7).
  - reflexivity.
  - reflexivity.
  - intros handler Hsh. inversion Hsh. discriminate.
Defined.

Lemma unsynchronized_connection_is_rejected_witness :
  dispatch 1000 100 66560 (Call_getAllUsers_v_1_0_x 3 1) connecting_host Promise.make
  = Returned connecting_host NotWritten (fulfilled MUMBLE_EC_CONNECTION_UNSYNCHRONIZED).
Proof.
  apply (unsynchronized_connection_is_rejected 1000 100 66560
           (Call_getAllUsers_v_1_0_x 3 1) connecting_host
           (MkServerHandler 1 ["171"%char; "205"%char] 66560));
    reflexivity.
Defined.

Lemma failed_call_changes_nothing_witness :
  NotWritten = NotWritten /\
  (example_host = example_host \/
   exists samplePath volume,
     played_sample (Call_getUserName_v_1_0_x 3 1 99) = Some (samplePath, volume) /\
     fulfilled MUMBLE_EC_USER_NOT_FOUND = fulfilled MUMBLE_EC_INVALID_SAMPLE /\
     example_host = emit (Ev_playSample samplePath volume false) example_host).
Proof.
  apply (failed_call_changes_nothing 1000 100 66560 (Call_getUserName_v_1_0_x 3 1 99)
           example_host example_host NotWritten (fulfilled MUMBLE_EC_USER_NOT_FOUND)).
  - reflexivity.
  - discriminate.
Defined.

Lemma example_host_consistent : curator_consistent example_host.
Proof.
  split.
  - intros ptr. unfold example_host. cbn [m_entries heap].
    rewrite !lookup_singleton_is_Some. tauto.
  - intros ptr entry. unfold example_host. cbn [m_entries pluginManager].
    intros Hin. apply lookup_singleton_Some in Hin as [_ <-]. reflexivity.
Defined.

Lemma curator_stays_consistent_witness : curator_consistent example_after.
Proof.
  apply (curator_stays_consistent 1000 100 66560 (Call_getUserName_v_1_0_x 3 1 42)
           example_host example_after Promise.make (fulfilled MUMBLE_STATUS_OK)
           (Out_string 17)).
  - exact example_host_consistent.
  - vm_compute. reflexivity.
Defined.

Lemma live_buffer_survives_witness :
  m_entries example_after !! 16%Z = Some (MkEntry defaultDeleter 3 "getUserName") /\
  heap example_after !! 16%Z = Some (string_block "Alice") /\
  returned_buffer (Out_string 17) <> Some 16%Z.
Proof.
  apply (live_buffer_survives 1000 100 66560 (Call_getUserName_v_1_0_x 3 1 42)
           example_host example_after Promise.make (fulfilled MUMBLE_STATUS_OK)
           (Out_string 17) 16 (MkEntry defaultDeleter 3 "getUserName")
           (string_block "Alice")).
  - reflexivity.
  - reflexivity.
  - discriminate.
  - vm_compute. reflexivity.
Defined.

Lemma example_users_unique : NoDup (map fst (c_qmUsers example_host)).
Proof.
  cbn. apply NoDup_cons. split; [|apply NoDup_singleton].
  intros Hin. apply list_elem_of_singleton in Hin. discriminate Hin.
Defined.

Lemma example_connected : connected example_host 1.
Proof. split; [eexists; split; reflexivity | discriminate]. Defined.

Lemma findUserByName_finds_a_bearer_witness :
  (exists userID user,
     dispatch 1000 100 66560 (Call_findUserByName_v_1_0_x 3 1 "Bob") example_host
       Promise.make
     = Returned example_host (Out_userID userID) (fulfilled MUMBLE_STATUS_OK) /\
     ClientUser_get example_host userID = Some user /\ qsName user = "Bob"%string /\
     dispatch 1000 100 66560 (Call_getUserName_v_1_0_x 3 1 userID) example_host
       Promise.make
     = return_string "Bob" 3 "getUserName" example_host Promise.make) \/
  (dispatch 1000 100 66560 (Call_findUserByName_v_1_0_x 3 1 "Bob") example_host
     Promise.make
   = Returned example_host NotWritten (fulfilled MUMBLE_EC_USER_NOT_FOUND) /\
   forall userID user,
     ClientUser_get example_host userID = Some user -> qsName user <> "Bob"%string).
Proof.
  apply (findUserByName_finds_a_bearer 1000 100 66560 3 1 "Bob" example_host).
  - reflexivity.
  - exact example_connected.
  - exact example_users_unique.
Defined.

Lemma findChannelByName_finds_a_bearer_witness :
  (exists channelID channel,
     dispatch 1000 100 66560 (Call_findChannelByName_v_1_0_x 3 1 "Root") example_host
       Promise.make
     = Returned example_host (Out_channelID channelID) (fulfilled MUMBLE_STATUS_OK) /\
     Channel_get example_host channelID = Some channel /\
     ch_qsName channel = "Root"%string /\
     dispatch 1000 100 66560 (Call_getChannelName_v_1_0_x 3 1 channelID) example_host
       Promise.make
     = return_string "Root" 3 "getChannelName" example_host Promise.make) \/
  (dispatch 1000 100 66560 (Call_findChannelByName_v_1_0_x 3 1 "Root") example_host
     Promise.make
   = Returned example_host NotWritten (fulfilled MUMBLE_EC_CHANNEL_NOT_FOUND) /\
   forall channelID channel,
     Channel_get example_host channelID = Some channel ->
     ch_qsName channel <> "Root"%string).
Proof.
  apply (findChannelByName_finds_a_bearer 1000 100 66560 3 1 "Root" example_host).
  - reflexivity.
  - exact example_connected.
  - cbn. apply NoDup_singleton.
Defined.

Lemma getAllUsers_lists_the_known_users_witness :
  exists h1 ptr ids,
    dispatch 1000 100 66560 (Call_getAllUsers_v_1_0_x 3 1) example_host Promise.make
    = Returned h1 (Out_array ptr (length ids)) (fulfilled MUMBLE_STATUS_OK) /\
    heap example_host !! ptr = None /\
    heap h1 !! ptr = Some (IDArray ids) /\
    (forall userID, In userID ids <-> is_Some (ClientUser_get example_host userID)) /\
    (forall userID,
       In userID ids ->
       exists h2 name,
         dispatch 1000 100 66560 (Call_getUserName_v_1_0_x 3 1 userID) h1 Promise.make
         = Returned h2 (Out_string name) (fulfilled MUMBLE_STATUS_OK)).
Proof.
  apply (getAllUsers_lists_the_known_users 1000 100 66560 3 1 example_host).
  - reflexivity.
  - exact example_connected.
Defined.

Lemma sendData_sends_when_all_checks_pass_witness :
  dispatch 1000 100 66560
    (Call_sendData_v_1_0_x 3 1 [43%Z] ["h"%char; "i"%char] "chat") example_host
    Promise.make
  = Returned
      (emit (Ev_sendMessage
               (MkPluginDataTransmission 42 [43%Z] ["h"%char; "i"%char] "chat"))
         example_host)
      NotWritten (fulfilled MUMBLE_STATUS_OK).
Proof.
  apply (sendData_sends_when_all_checks_pass 1000 100 66560 3 1 [43%Z]
           ["h"%char; "i"%char] "chat" example_host).
  split; [reflexivity|]. split; [exact example_connected|].
  split; [cbn; lia|]. split; [cbn; lia|]. split.
  - intros u [<-|[]]. cbn. eauto.
  - intros handler Hsh. inversion Hsh. cbn. lia.
Defined.


Lemma double_setting_round_trip_witness :
  exists h1,
    dispatch 1000 100 66560
      (Call_setMumbleSetting_double_v_1_0_x 3 MUMBLE_SK_AUDIO_OUTPUT_PA_BLOOM
         (float_to_double float_one))
      example_host Promise.make
    = Returned h1 NotWritten (fulfilled MUMBLE_STATUS_OK) /\
    dispatch 1000 100 66560
      (Call_getMumbleSetting_double_v_1_0_x 3 MUMBLE_SK_AUDIO_OUTPUT_PA_BLOOM) h1
      Promise.make
    = Returned h1
        (Out_double (float_to_double (double_to_float (float_to_double float_one))))
        (fulfilled MUMBLE_STATUS_OK) /\
    (forall other,
       other <> MUMBLE_SK_AUDIO_OUTPUT_PA_BLOOM ->
       getMumbleSettingHelper (s h1) other
       = getMumbleSettingHelper (s example_host) other).
Proof.
  apply (double_setting_round_trip 1000 100 66560 3 MUMBLE_SK_AUDIO_OUTPUT_PA_BLOOM
           (float_to_double float_one) example_host); reflexivity.
Defined.

Lemma transmission_mode_round_trip_witness :
  dispatch 1000 100 66560
    (Call_requestLocalUserTransmissionMode_v_1_0_x 3 MUMBLE_TM_VOICE_ACTIVATION)
    example_host Promise.make
  = Returned (emit (Ev_setTransmissionMode VAD) example_host) NotWritten
      (fulfilled MUMBLE_STATUS_OK).
Proof.
  apply (transmission_mode_round_trip 1000 100 66560 3 example_host example_host
           (MkMainWindow (Some TheUserModel)) MUMBLE_TM_VOICE_ACTIVATION
           (fulfilled MUMBLE_STATUS_OK)); reflexivity.
Defined.

Lemma nothing_happens_after_return_witness :
  let sys :=
    run 1000 100 66560 false (Call_getUserName_v_1_0_x 3 1 42)
      [Act_wrapper; Act_tick 801; Act_wrapper; Act_wrapper; Act_wrapper; Act_wrapper;
       Act_wrapper; Act_wrapper]
      (init example_host 0) in
  let sys' := run 1000 100 66560 false (Call_getUserName_v_1_0_x 3 1 42) [Act_host] sys in
  sys_pc sys' = W_returned MUMBLE_EC_API_REQUEST_TIMEOUT /\
  sys_fault sys' = None /\
  sys_out sys' = sys_out sys /\
  sys_promise sys' = sys_promise sys /\
  sys_host sys' = world_after [Act_host] (sys_host sys) /\
  (MUMBLE_EC_API_REQUEST_TIMEOUT = MUMBLE_EC_API_REQUEST_TIMEOUT ->
   real_result 1000 100 66560 (Call_getUserName_v_1_0_x 3 1 42) sys = None /\
   m_cancelled (sys_promise sys) = true).
Proof.
  apply (nothing_happens_after_return 1000 100 66560 false
           (Call_getUserName_v_1_0_x 3 1 42) example_host 0
           [Act_wrapper; Act_tick 801; Act_wrapper; Act_wrapper; Act_wrapper; Act_wrapper;
            Act_wrapper; Act_wrapper]
           [Act_host] MUMBLE_EC_API_REQUEST_TIMEOUT).
  vm_compute. reflexivity.
Defined.

Lemma host_thread_call_never_times_out_witness :
  let sys :=
    run 1000 100 66560 true (Call_getLocalUserID_v_1_0_x 3 1)
      [Act_wrapper; Act_tick 900; Act_timeout; Act_wrapper; Act_wrapper; Act_wrapper]
      (init example_host 0) in
  real_result 1000 100 66560 (Call_getLocalUserID_v_1_0_x 3 1) sys = Some MUMBLE_STATUS_OK /\
  MUMBLE_STATUS_OK <> MUMBLE_EC_API_REQUEST_TIMEOUT /\
  sys_queue sys = None.
Proof.
  apply (host_thread_call_never_times_out 1000 100 66560 (Call_getLocalUserID_v_1_0_x 3 1)
           example_host 0
           [Act_wrapper; Act_tick 900; Act_timeout; Act_wrapper; Act_wrapper; Act_wrapper]
           MUMBLE_STATUS_OK).
  vm_compute. reflexivity.
Defined.

Lemma teardown_frees_every_tracked_buffer_witness :
  fst (destroy_curator (m_entries example_host) (heap example_host)) = ∅.
Proof.
  apply (teardown_frees_every_tracked_buffer (m_entries example_host) (heap example_host)).
  exact (proj1 example_host_consistent).
Defined.

Lemma qtKeyCodeToAPIKeyCode_collisions_witness :
  (qtKeyCodeToAPIKeyCode Key_Return = MUMBLE_KC_ENTER /\
   (Key_Return = Key_Return \/ Key_Return = Key_Enter) /\
   (Key_Enter = Key_Return \/ Key_Enter = Key_Enter)) \/
  (qtKeyCodeToAPIKeyCode Key_Return = MUMBLE_KC_SUPER /\
   (Key_Return = Key_Super_L \/ Key_Return = Key_Super_R) /\
   (Key_Enter = Key_Super_L \/ Key_Enter = Key_Super_R)) \/
  (qtKeyCodeToAPIKeyCode Key_Return = MUMBLE_KC_INVALID /\
   (exists keyCode, Key_Return = Key_other keyCode) /\
   (exists keyCode, Key_Enter = Key_other keyCode)).
Proof.
  apply (qtKeyCodeToAPIKeyCode_collisions Key_Return Key_Enter).
  - reflexivity.
  - discriminate.
Defined.

Lemma equal_targets_hash_alike_witness :
  let a := Shortcuts.MkShortcutTarget false false ["a1b2"%string] [] 5 "admin" true false false in
  let b := Shortcuts.MkShortcutTarget false false [] [42%Z] 5 "admin" true false false in
  Shortcuts.ShortcutTarget_eq a a = true /\
  Shortcuts.ShortcutTarget_eq b a = true /\
  (forall c, Shortcuts.ShortcutTarget_eq b c = true ->
             Shortcuts.ShortcutTarget_eq a c = true) /\
  Shortcuts.qHash (fun _ => 7%Z) a = Shortcuts.qHash (fun _ => 7%Z) b /\
  Shortcuts.isServerSpecific a = Shortcuts.isServerSpecific b.
Proof.
  intros a b. destruct (equal_targets_hash_alike (fun _ => 7%Z) a b) as [Hrefl Hequal].
  split; [exact Hrefl|]. apply Hequal. reflexivity.
Defined.

Lemma qHash_list_ignores_order_witness :
  Shortcuts.qHash_list (fun _ => 7%Z)
    [Shortcuts.ShortcutTarget_new;
     Shortcuts.MkShortcutTarget false false [] [] 5 "admin" true false false]
  = Shortcuts.qHash_list (fun _ => 7%Z)
      [Shortcuts.MkShortcutTarget false false [] [] 5 "admin" true false false;
       Shortcuts.ShortcutTarget_new].
Proof.
  apply (qHash_list_ignores_order (fun _ => 7%Z)). apply Permutation_swap.
Defined.

Lemma frames_slider_round_trip_witness :
  save_iFramesPerPacket 3 = (if (3 =? 1)%Z then 1 else 2 * (3 - 1))%Z /\
  load_qsFrames (save_iFramesPerPacket 3) = 3%Z /\
  qlFrames_ms 3 = int_wrap (10 * save_iFramesPerPacket 3) /\
  ((3 <= 107374183)%Z -> qlFrames_ms 3 = (10 * save_iFramesPerPacket 3)%Z) /\
  save_iFramesPerPacket (load_qsFrames 3) = (if Z.odd 3 && (1 <? 3)%Z then 3 - 1 else 3)%Z.
Proof. apply (frames_slider_round_trip 3). lia. Defined.


Lemma updateBitrate_total_falls_with_frames_witness :
  exists total total',
    updateBitrate_total 40000 2 false true = Some total /\
    updateBitrate_total 40000 3 false true = Some total' /\
    total = (40000 + 800 + 28000 / 2 + 9600 / 2)%Z /\
    (40000 + 800 <= total' <= total)%Z /\
    (forall uiSession iMaxBandwidth,
       updateBitrate_red uiSession iMaxBandwidth total = false ->
       updateBitrate_red uiSession iMaxBandwidth total' = false) /\
    updateBitrate_total 40000 0 false true = None.
Proof.
  apply (updateBitrate_total_falls_with_frames 40000 2 3 false true); lia.
Defined.

Lemma saved_noise_strength_reloads_as_minimum_witness :
  let settings_ptr : gmap string Z := {[ "audio/noisesupress"%string := (-20)%Z ]} in
  let st :=
    MkSettings VAD false false 20 float_one float_one float_one float_one float_one
      float_one (-10) in
  let legacy := default 0%Z (settings_ptr !! "audio/noisesupress"%string) in
  let stored := save_noise_suppression settings_ptr st in
  let reloaded := iSpeexNoiseCancelStrength (load_noise_suppression stored example_settings) in
  stored !! "audio/noisesupress"%string = settings_ptr !! "audio/noisesupress"%string /\
  reloaded = Z.min legacy (iSpeexNoiseCancelStrength st) /\
  (reloaded = iSpeexNoiseCancelStrength st <-> (iSpeexNoiseCancelStrength st <= legacy)%Z) /\
  (iSpeexNoiseCancelStrength st = def_iSpeexNoiseCancelStrength ->
   stored !! "audio/speexNoiseCancelStrength"%string = None).
Proof.
  intros settings_ptr st.
  apply (saved_noise_strength_reloads_as_minimum settings_ptr st example_settings).
  reflexivity.
Defined.


Lemma frames_slider_survives_restart_witness :
  load_qsFrames
    (SAVELOAD_int
       (SAVELOAD_save_int ∅ (save_iFramesPerPacket 3) def_iFramesPerPacket
          "net/framesperpacket")
       def_iFramesPerPacket "net/framesperpacket")
  = 3%Z.
Proof. apply (frames_slider_survives_restart ∅ 3). lia. Defined.
